(** * FinSight provisioning-and-build engine: a shallow embedding

    The two command-line scripts of the repository, [build_apk.py]
    (class [FlutterAPKBuilder]) and [finsight_runner.py] (class
    [FinSightRunner]), drive external tools through [subprocess.run] and
    the file system.  Both are embedded here as programs of a small
    state-error-writer monad over an abstract host (the operating system):
    the host answers every query and every process spawn, the monad
    threads the host state, propagates Python exceptions and records
    every effect the scripts perform in a log of events.  Their [main]
    functions, with the menu of [finsight_runner.py], follow the two
    classes.  The third script, [test_classification.py], runs Flutter
    tests under a time limit and removes files; it has a host and a log of
    its own, in the module [Classification].

    Text is modelled as [string], a character standing for one code point
    below 256. *)

From Stdlib Require Import String Ascii List ZArith Lia Bool Arith.
From Stdlib Require Import DecimalString.
Import ListNotations.
Local Open Scope list_scope.
Local Open Scope string_scope.

(** ** Python string operations used by the scripts *)

Module PyStr.

(** [c.isspace()] for code points below 256. *)
Definition is_space (c : ascii) : bool :=
  let n := nat_of_ascii c in
  (((9 <=? n) && (n <=? 13)) || ((28 <=? n) && (n <=? 32))
   || (n =? 133) || (n =? 160))%nat.

Fixpoint lstrip (s : string) : string :=
  match s with
  | EmptyString => EmptyString
  | String c t => if is_space c then lstrip t else s
  end.

Fixpoint rstrip (s : string) : string :=
  match s with
  | EmptyString => EmptyString
  | String c t =>
      match rstrip t with
      | EmptyString => if is_space c then EmptyString else String c EmptyString
      | t' => String c t'
      end
  end.

(** [s.strip()] *)
Definition strip (s : string) : string := rstrip (lstrip s).

Definition newline : ascii := ascii_of_nat 10.
Definition nl : string := String newline EmptyString.

(** [s.split('\n')]: never empty, [[""]] for the empty text. *)
Fixpoint split_lines (s : string) : list string :=
  match s with
  | EmptyString => [EmptyString]
  | String c t =>
      if Ascii.eqb c newline then EmptyString :: split_lines t
      else match split_lines t with
           | h :: r => String c h :: r
           | [] => [String c EmptyString]
           end
  end.

(** [s.startswith(p)] *)
Definition startswith (s p : string) : bool := String.prefix p s.

(** [p in s] *)
Fixpoint str_in (p s : string) : bool :=
  if String.prefix p s then true
  else match s with
       | EmptyString => false
       | String _ t => str_in p t
       end.

(** [c.lower()] and [c.upper()] on one code point.  [lower] is exact below
    256; [upper] is exact on ASCII and on the Latin-1 letters whose capital
    is below 256, and leaves the three others (181, 223, 255) as they
    are. *)
Definition lower_char (c : ascii) : ascii :=
  let n := nat_of_ascii c in
  if (((65 <=? n) && (n <=? 90))
      || ((192 <=? n) && (n <=? 222) && negb (n =? 215)))%nat
  then ascii_of_nat (n + 32) else c.

Definition upper_char (c : ascii) : ascii :=
  let n := nat_of_ascii c in
  if (((97 <=? n) && (n <=? 122))
      || ((224 <=? n) && (n <=? 254) && negb (n =? 247)))%nat
  then ascii_of_nat (n - 32) else c.

Fixpoint map_str (f : ascii -> ascii) (s : string) : string :=
  match s with
  | EmptyString => EmptyString
  | String c t => String (f c) (map_str f t)
  end.

Definition lower : string -> string := map_str lower_char.
Definition upper : string -> string := map_str upper_char.

(** [s[:n]] *)
Definition take (n : nat) (s : string) : string := String.substring 0 n s.

(** [s.split()[0]] when there is a first word: [None] stands for the
    [IndexError] of indexing the empty list. *)
Fixpoint word (s : string) : string :=
  match s with
  | EmptyString => EmptyString
  | String c t => if is_space c then EmptyString else String c (word t)
  end.

Definition first_word (s : string) : option string :=
  match lstrip s with
  | EmptyString => None
  | w => Some (word w)
  end.

(** [s.replace(old, new)] for a non-empty [old]: occurrences are replaced
    from the left and do not overlap; [skip] counts the characters of the
    occurrence just replaced that are still to be dropped. *)
Fixpoint replace_from (old new : string) (skip : nat) (s : string) : string :=
  match s with
  | EmptyString => EmptyString
  | String c t =>
      match skip with
      | S k => replace_from old new k t
      | O =>
          if String.prefix old s
          then new ++ replace_from old new (String.length old - 1) t
          else String c (replace_from old new 0 t)
      end
  end.

Definition replace (old new s : string) : string := replace_from old new 0 s.

(** [PurePath.name]: the last component of a path. *)
Fixpoint basename (p : string) : string :=
  match p with
  | EmptyString => EmptyString
  | String c t =>
      if str_in "/" t then basename t
      else if Ascii.eqb c "/" then t else p
  end.

(** ["%d" % z] *)
Definition str_of_Z (z : Z) : string := NilZero.string_of_int (Z.to_int z).

(** [sep.join(xs)] *)
Fixpoint join (sep : string) (xs : list string) : string :=
  match xs with
  | [] => EmptyString
  | [x] => x
  | x :: r => x ++ sep ++ join sep r
  end.

(** [str(n)] for a length or a count *)
Definition str_of_nat (n : nat) : string := str_of_Z (Z.of_nat n).

(** The double quote character, for text that contains it. *)
Definition dq : string := String (ascii_of_nat 34) EmptyString.

End PyStr.


(** ** Processes, exceptions and effects *)

(** What a child process did: [subprocess.CompletedProcess].  [stdout] and
    [stderr] are what the child wrote; Python sees them only when the call
    captures output. *)
Record Completed : Type := mkCompleted {
  returncode : Z;
  stdout : string;
  stderr : string
}.

(** The exceptions of class [Exception] that the scripts can meet: the
    [OSError] of a process that cannot be started or of a file operation
    that fails, and the [IndexError] of indexing an empty list.
    [KeyboardInterrupt] and [SystemExit], which no [except Exception]
    handles, are not modelled. *)
Inductive exn : Type :=
| OSError (msg : string)
| IndexError (msg : string).

(** [str(e)] *)
Definition exn_str (e : exn) : string :=
  match e with
  | OSError m => m
  | IndexError m => m
  end.

(** [signal.Signals] on Linux: the names that [repr] shows. *)
Definition signals : list (Z * string) :=
  [ (1, "SIGHUP"); (2, "SIGINT"); (3, "SIGQUIT"); (4, "SIGILL");
    (5, "SIGTRAP"); (6, "SIGABRT"); (7, "SIGBUS"); (8, "SIGFPE");
    (9, "SIGKILL"); (10, "SIGUSR1"); (11, "SIGSEGV"); (12, "SIGUSR2");
    (13, "SIGPIPE"); (14, "SIGALRM"); (15, "SIGTERM"); (16, "SIGSTKFLT");
    (17, "SIGCHLD"); (18, "SIGCONT"); (19, "SIGSTOP"); (20, "SIGTSTP");
    (21, "SIGTTIN"); (22, "SIGTTOU"); (23, "SIGURG"); (24, "SIGXCPU");
    (25, "SIGXFSZ"); (26, "SIGVTALRM"); (27, "SIGPROF"); (28, "SIGWINCH");
    (29, "SIGIO"); (30, "SIGPWR"); (31, "SIGSYS"); (34, "SIGRTMIN");
    (64, "SIGRTMAX") ]%Z.

Fixpoint signal_name (tbl : list (Z * string)) (n : Z) : option string :=
  match tbl with
  | [] => None
  | (k, nm) :: r => if Z.eqb k n then Some nm else signal_name r n
  end.

(** [str(e)] for [e = subprocess.CalledProcessError(rc, cmd)]: the text
    names the command and its exit status, or the signal that killed it. *)
Definition CalledProcessError_str (cmd : string) (rc : Z) : string :=
  if (rc <? 0)%Z then
    match signal_name signals (- rc) with
    | Some nm =>
        "Command '" ++ cmd ++ "' died with <Signals." ++ nm ++ ": "
          ++ PyStr.str_of_Z (- rc) ++ ">."
    | None =>
        "Command '" ++ cmd ++ "' died with unknown signal "
          ++ PyStr.str_of_Z (- rc) ++ "."
    end
  else
    "Command '" ++ cmd ++ "' returned non-zero exit status "
      ++ PyStr.str_of_Z rc ++ ".".

(** The printing helpers of the scripts: [print_step], [print_success],
    [print_warning], [print_error], [print_info] and the bare [print].
    Colour codes and decorative glyphs are left out of the text. *)
Inductive channel : Type :=
  ChStep | ChSuccess | ChWarning | ChError | ChInfo | ChPlain.

(** Every effect the scripts perform. *)
Inductive event : Type :=
| Say (ch : channel) (text : string)
| PrintSize (bytes : Z)        (* f"Size: {bytes / (1024 * 1024):.1f} MB" *)
| PrintElapsed                 (* f"Total time: {elapsed_time:.1f} seconds" *)
| Banner (title : string)
| Spawn (cmd : string) (capture : bool)
| Rmtree (path : string)
| Mkdir (path : string)
| WriteText (path content : string).

(** The operating system, as the scripts use it.  Every process runs with
    the environment [self.env], fixed by [__init__], which is therefore not
    an argument here. *)
Class Host (W : Type) : Type := {
  (* subprocess.run(cmd, shell=True, capture_output=capture): the child's
     completion, or the OSError of a child that could not be started *)
  subprocess_run : string -> bool -> W -> (exn + Completed) * W;
  (* Path.exists() *)
  path_exists : string -> W -> bool;
  (* Path.is_dir() *)
  path_is_dir : string -> W -> bool;
  (* shutil.rmtree(path) *)
  shutil_rmtree : string -> W -> option exn * W;
  (* Path.mkdir(parents=True, exist_ok=True) *)
  path_mkdir : string -> W -> option exn * W;
  (* Path.stat().st_size of an existing file *)
  st_size : string -> W -> Z;
  (* list(Path.glob(pattern)) *)
  path_glob : string -> string -> W -> list string;
  (* Path.read_text() *)
  path_read_text : string -> W -> exn + string;
  (* Path.write_text(content) *)
  path_write_text : string -> string -> W -> option exn * W
}.

Inductive result (A : Type) : Type :=
| Ok (a : A)
| Raise (e : exn).

Arguments Ok {A} a.
Arguments Raise {A} e.

(** A program: from a host state to its outcome, the host state it leaves
    and the events it performed, oldest first. *)
Definition M (W A : Type) : Type := W -> result A * W * list event.

Section Monad.
Context {W : Type}.

Definition ret {A} (a : A) : M W A := fun w => (Ok a, w, []).

Definition raise {A} (e : exn) : M W A := fun w => (Raise e, w, []).

(** The outcome [r] of a program, with the events [l] performed before it. *)
Definition logged {A} (l : list event) (r : result A * W * list event)
  : result A * W * list event :=
  match r with (x, w, l') => (x, w, (l ++ l')%list) end.

Definition bind {A B} (m : M W A) (k : A -> M W B) : M W B := fun w =>
  match m w with
  | (Ok a, w1, l1) => logged l1 (k a w1)
  | (Raise e, w1, l1) => (Raise e, w1, l1)
  end.

(** [try: m  except Exception as e: h e] *)
Definition try_except {A} (m : M W A) (h : exn -> M W A) : M W A := fun w =>
  match m w with
  | (Ok a, w1, l1) => (Ok a, w1, l1)
  | (Raise e, w1, l1) => logged l1 (h e w1)
  end.

Definition emit (ev : event) : M W unit := fun w => (Ok tt, w, [ev]).

(** [for x in xs: body x] *)
Fixpoint for_each {A} (xs : list A) (body : A -> M W unit) : M W unit :=
  match xs with
  | [] => ret tt
  | x :: r => bind (body x) (fun _ => for_each r body)
  end.

End Monad.

Declare Scope prog_scope.
Delimit Scope prog_scope with prog.
Notation "x <- m ;; k" := (bind m (fun x => k))
  (at level 61, m at next level, right associativity) : prog_scope.
Notation "' pat <- m ;; k" := (bind m (fun x => match x with pat => k end))
  (at level 61, pat pattern, m at next level, right associativity) : prog_scope.
Notation "m ;; k" := (bind m (fun _ => k))
  (at level 61, right associativity) : prog_scope.
Local Open Scope prog_scope.

Section Primitives.
Context {W : Type} {HW : Host W}.

Definition print_step (m : string) : M W unit := emit (Say ChStep m).
Definition print_success (m : string) : M W unit := emit (Say ChSuccess m).
Definition print_warning (m : string) : M W unit := emit (Say ChWarning m).
Definition print_error (m : string) : M W unit := emit (Say ChError m).
Definition print_info (m : string) : M W unit := emit (Say ChInfo m).
Definition print (m : string) : M W unit := emit (Say ChPlain m).

Definition subprocess (cmd : string) (capture : bool) : M W Completed :=
  fun w =>
    match subprocess_run cmd capture w with
    | (inr c, w') => (Ok c, w', [Spawn cmd capture])
    | (inl e, w') => (Raise e, w', [Spawn cmd capture])
    end.

Definition exists_ (p : string) : M W bool :=
  fun w => (Ok (path_exists p w), w, []).

Definition is_dir (p : string) : M W bool :=
  fun w => (Ok (path_is_dir p w), w, []).

Definition stat_size (p : string) : M W Z :=
  fun w => (Ok (st_size p w), w, []).

Definition glob (dir pattern : string) : M W (list string) :=
  fun w => (Ok (path_glob dir pattern w), w, []).

Definition rmtree (p : string) (ignore_errors : bool) : M W unit :=
  fun w =>
    match shutil_rmtree p w with
    | (None, w') => (Ok tt, w', [Rmtree p])
    | (Some e, w') =>
        if ignore_errors then (Ok tt, w', [Rmtree p])
        else (Raise e, w', [Rmtree p])
    end.

Definition mkdir (p : string) : M W unit :=
  fun w =>
    match path_mkdir p w with
    | (None, w') => (Ok tt, w', [Mkdir p])
    | (Some e, w') => (Raise e, w', [Mkdir p])
    end.

Definition read_text (p : string) : M W string :=
  fun w =>
    match path_read_text p w with
    | inr s => (Ok s, w, [])
    | inl e => (Raise e, w, [])
    end.

Definition write_text (p content : string) : M W unit :=
  fun w =>
    match path_write_text p content w with
    | (None, w') => (Ok tt, w', [WriteText p content])
    | (Some e, w') => (Raise e, w', [WriteText p content])
    end.

(** [run_command(cmd, shell=True, check, env, capture_output)], the same in
    both scripts.  With [check] a non-zero exit makes [subprocess.run]
    raise [CalledProcessError], which the handler turns into
    [(False, "", str(e))]; an [OSError] is not handled and propagates. *)
Definition run_command (cmd : string) (check capture_output : bool)
  : M W (bool * string * string) :=
  c <- subprocess cmd capture_output ;;
  if check && negb (returncode c =? 0)%Z then
    ret (false, "", CalledProcessError_str cmd (returncode c))
  else if capture_output then
    ret ((returncode c =? 0)%Z, stdout c, stderr c)
  else
    ret ((returncode c =? 0)%Z, "", "").

End Primitives.

(** Path joining, [a / b]. *)
Definition pjoin (a b : string) : string := a ++ "/" ++ b.
Infix "</>" := pjoin (at level 40, left associativity).

(** The fixed locations of [__init__], the same in both scripts. *)
Definition project_dir : string :=
  "/workspaces/FinSight-Automated-Expense-Recognition".
Definition flutter_dir : string := "/tmp/flutter".
Definition android_sdk_dir : string := "/tmp/android-sdk".
Definition java_home : string := "/usr/lib/jvm/java-17-openjdk-amd64".

Definition sdk_components : list string :=
  ["platform-tools"; "platforms;android-34"; "build-tools;34.0.0"].

(** ** [build_apk.py]: class [FlutterAPKBuilder] *)

Module Builder.
Section WithHost.
Context {W : Type} {HW : Host W}.

Definition java_install_cmd : string :=
  "apt-get update && apt-get install -y openjdk-17-jdk".
Definition java_version_cmd : string := "java -version".
Definition flutter_version_cmd : string :=
  flutter_dir ++ "/bin/flutter --version".
Definition flutter_clone_cmd : string :=
  "git clone https://github.com/flutter/flutter.git -b stable --depth 1 "
    ++ flutter_dir.
Definition flutter_no_analytics_cmd : string :=
  flutter_dir ++ "/bin/flutter config --no-analytics".
Definition flutter_precache_cmd : string :=
  flutter_dir ++ "/bin/flutter precache".

Definition cmdline_tools : string :=
  android_sdk_dir </> "cmdline-tools" </> "latest".
Definition sdkmanager_version_cmd : string :=
  cmdline_tools ++ "/bin/sdkmanager --version".
Definition sdk_url : string :=
  "https://dl.google.com/android/repository/commandlinetools-linux-11076708_latest.zip".
Definition sdk_zip : string := "/tmp/commandlinetools.zip".
Definition sdk_download_cmd : string :=
  "wget -O " ++ sdk_zip ++ " " ++ sdk_url.
Definition sdk_extract_cmd : string :=
  "unzip -q " ++ sdk_zip ++ " -d /tmp/cmdline-tools-tmp && "
    ++ "mv /tmp/cmdline-tools-tmp/cmdline-tools/* " ++ cmdline_tools ++ "/ && "
    ++ "rm -rf /tmp/cmdline-tools-tmp " ++ sdk_zip.

Definition sdkmanager : string :=
  android_sdk_dir </> "cmdline-tools" </> "latest" </> "bin" </> "sdkmanager".
Definition license_cmd : string := "yes | " ++ sdkmanager ++ " --licenses".
Definition quoted_components : string :=
  PyStr.join " " (map (fun comp => PyStr.dq ++ comp ++ PyStr.dq) sdk_components).
Definition install_cmd : string := sdkmanager ++ " " ++ quoted_components.

Definition flutter_bin : string := flutter_dir </> "bin" </> "flutter".
Definition configure_cmd : string :=
  flutter_bin ++ " config --android-sdk " ++ android_sdk_dir.
Definition clean_cmd : string :=
  "cd " ++ project_dir ++ " && " ++ flutter_bin ++ " clean".

Definition build_cmd (build_type : string) : string :=
  if String.eqb build_type "release"
  then "cd " ++ project_dir ++ " && " ++ flutter_bin ++ " build apk"
  else "cd " ++ project_dir ++ " && " ++ flutter_bin ++ " build apk --debug".

Definition apk_path (build_type : string) : string :=
  project_dir </> "build" </> "app" </> "outputs" </> "flutter-apk"
    </> ("app-" ++ build_type ++ ".apk").

(** The test of line 273 on the text handed back as stderr. *)
Definition minify_marker (stderr : string) : bool :=
  PyStr.str_in "R8" stderr || PyStr.str_in "minify" (PyStr.lower stderr).

Definition check_java : M W bool :=
  let verify : M W bool :=
    '(success, stdout, _) <- run_command java_version_cmd true true ;;
    (if success then
       v <- (if String.eqb stdout "" then ret "Java 17"
             else match PyStr.first_word stdout with
                  | Some x => ret x
                  | None => raise (IndexError "list index out of range")
                  end) ;;
       print_success ("Java is installed: " ++ v)
     else ret tt) ;;
    ret success in
  print_step "Checking Java Installation" ;;
  present <- exists_ java_home ;;
  if negb present then
    print_warning "Java 17 not found, installing..." ;;
    '(success, _, _) <- run_command java_install_cmd true false ;;
    if negb success then
      print_error "Failed to install Java 17" ;;
      ret false
    else verify
  else verify.

Definition setup_flutter : M W bool :=
  let install : M W bool :=
    print_warning "Flutter not found, installing..." ;;
    '(success, _, _) <- run_command flutter_clone_cmd true false ;;
    if negb success then
      print_error "Failed to clone Flutter" ;;
      ret false
    else
      print_success "Flutter installed successfully" ;;
      run_command flutter_no_analytics_cmd true false ;;
      run_command flutter_precache_cmd true false ;;
      ret true in
  print_step "Setting Up Flutter" ;;
  present <- exists_ flutter_dir ;;
  if present then
    print_success "Flutter directory exists" ;;
    '(success, _, _) <- run_command flutter_version_cmd true true ;;
    if success then
      print_success "Flutter is working" ;;
      ret true
    else
      print_warning "Flutter directory exists but not working, reinstalling..." ;;
      rmtree flutter_dir false ;;
      install
  else install.

Definition setup_android_sdk : M W bool :=
  let install : M W bool :=
    print_warning "Android SDK not found, installing..." ;;
    '(success, _, _) <- run_command sdk_download_cmd true false ;;
    if negb success then
      print_error "Failed to download Android SDK" ;;
      ret false
    else
      mkdir cmdline_tools ;;
      '(success, _, _) <- run_command sdk_extract_cmd true false ;;
      if negb success then
        print_error "Failed to extract Android SDK" ;;
        ret false
      else
        print_success "Android SDK command line tools installed" ;;
        ret true in
  print_step "Setting Up Android SDK" ;;
  present <- exists_ cmdline_tools ;;
  if present then
    print_success "Android SDK command line tools exist" ;;
    '(success, _, _) <- run_command sdkmanager_version_cmd true true ;;
    if success then
      print_success "Android SDK tools are working" ;;
      ret true
    else
      print_warning "SDK tools exist but not working, reinstalling..." ;;
      rmtree android_sdk_dir true ;;
      install
  else install.

Definition install_sdk_components : M W bool :=
  print_step "Installing Android SDK Components" ;;
  print "Accepting SDK licenses..." ;;
  run_command license_cmd true false ;;
  print ("Installing components: " ++ PyStr.join ", " sdk_components) ;;
  '(success, _, _) <- run_command install_cmd true false ;;
  (if success then print_success "Android SDK components installed"
   else print_error "Failed to install some SDK components") ;;
  ret success.

Definition res_dir : string :=
  project_dir </> "android" </> "app" </> "src" </> "main" </> "res".
Definition widget_layout : string := res_dir </> "layout" </> "expense_widget.xml".

(** The directories matched by the glob are listed when the loop starts. *)
Definition fix_launcher_icons : M W bool :=
  print_step "Fixing Launcher Icons" ;;
  dirs <- glob res_dir "mipmap-*" ;;
  for_each dirs (fun mipmap_dir =>
    d <- is_dir mipmap_dir ;;
    if d then
      print ("Removing " ++ PyStr.basename mipmap_dir ++ "...") ;;
      rmtree mipmap_dir false
    else ret tt) ;;
  present <- exists_ widget_layout ;;
  (if present then
     content <- read_text widget_layout ;;
     if PyStr.str_in "@mipmap/ic_launcher" content then
       print "Fixing widget layout icon reference..." ;;
       write_text widget_layout
         (PyStr.replace "@mipmap/ic_launcher" "@drawable/ic_launcher" content)
     else ret tt
   else ret tt) ;;
  print_success "Launcher icons fixed" ;;
  ret true.

Definition configure_flutter_sdk : M W bool :=
  print_step "Configuring Flutter SDK" ;;
  '(success, _, _) <- run_command configure_cmd true false ;;
  (if success then print_success "Flutter configured" else ret tt) ;;
  ret success.

Definition android_build : string := project_dir </> "android" </> "app" </> "build".

Definition clean_build : M W bool :=
  print_step "Cleaning Previous Build" ;;
  run_command clean_cmd true false ;;
  present <- exists_ android_build ;;
  (if present then rmtree android_build false else ret tt) ;;
  print_success "Build cleaned" ;;
  ret true.

(** [build_apk(build_type)], written over the executor [exec] it calls;
    [fuel] bounds the depth of the recursive call of line 275, and [None]
    is a run that needs more depth than [fuel]. *)
Fixpoint build_apk_with (exec : string -> bool -> bool -> M W (bool * string * string))
    (fuel : nat) (build_type : string) : M W (option (bool * option string)) :=
  match fuel with
  | O => ret None
  | S fuel' =>
      print_step ("Building " ++ PyStr.upper build_type ++ " APK") ;;
      print "This may take a few minutes..." ;;
      '(success, _, stderr) <- exec (build_cmd build_type) true true ;;
      if success then
        present <- exists_ (apk_path build_type) ;;
        if present then
          size <- stat_size (apk_path build_type) ;;
          print_success "APK built successfully!" ;;
          print_success ("Location: " ++ apk_path build_type) ;;
          emit (PrintSize size) ;;
          ret (Some (true, Some (apk_path build_type)))
        else
          print_error "APK file not found after build" ;;
          ret (Some (false, None))
      else
        print_error "Build failed" ;;
        if minify_marker stderr then
          print_warning "R8 minification failed, trying debug build instead..." ;;
          build_apk_with exec fuel' "debug"
        else
          print (PyStr.nl ++ "Error output:" ++ PyStr.nl ++ stderr) ;;
          ret (Some (false, None))
  end.

(** [FlutterAPKBuilder.build_apk]: the executor is [run_command]. *)
Definition build_apk : nat -> string -> M W (option (bool * option string)) :=
  build_apk_with run_command.

(** The loop of lines 303-310: [true] when every step passed, [false] when
    the method returned [False] from inside the loop. *)
Fixpoint run_steps (steps : list (string * M W bool)) : M W bool :=
  match steps with
  | [] => ret true
  | (step_name, step_func) :: rest =>
      passed <- try_except
        (ok <- step_func ;;
         if negb ok then
           print_error ("Failed at step: " ++ step_name) ;;
           ret false
         else ret true)
        (fun e =>
           print_error ("Exception in " ++ step_name ++ ": " ++ exn_str e) ;;
           ret false) ;;
      if passed then run_steps rest else ret false
  end.

Definition steps (skip_clean : bool) : list (string * M W bool) :=
  ([ ("Checking Java", check_java);
    ("Setting up Flutter", setup_flutter);
    ("Setting up Android SDK", setup_android_sdk);
    ("Installing SDK components", install_sdk_components);
    ("Fixing launcher icons", fix_launcher_icons);
    ("Configuring Flutter", configure_flutter_sdk) ]
  ++ (if skip_clean then [] else [("Cleaning build", clean_build)]))%list.

(** [run(build_type, skip_clean)]; [None] when the build ran out of
    [fuel]. *)
Definition run (fuel : nat) (build_type : string) (skip_clean : bool)
  : M W (option bool) :=
  emit (Banner "Flutter APK Automated Build Script") ;;
  passed <- run_steps (steps skip_clean) ;;
  if negb passed then ret (Some false)
  else
    try_except
      (r <- build_apk fuel build_type ;;
       match r with
       | None => ret None
       | Some (success, apk) =>
           if negb success then ret (Some false)
           else
             emit (Banner "BUILD COMPLETED SUCCESSFULLY!") ;;
             emit PrintElapsed ;;
             print ("APK Location: "
                    ++ match apk with Some p => p | None => "None" end) ;;
             print "Next Steps:" ;;
             print "   1. Right-click the APK in VS Code and select 'Download'" ;;
             print "   2. Transfer to your Android device" ;;
             print "   3. Install/Update the app" ;;
             ret (Some true)
       end)
      (fun e =>
         print_error ("Exception during build: " ++ exn_str e) ;;
         ret (Some false)).

End WithHost.
End Builder.

(** ** [finsight_runner.py]: class [FinSightRunner] *)

Module Runner.
Section WithHost.
Context {W : Type} {HW : Host W}.

Definition java_install_cmd : string :=
  "apt-get update && apt-get install -y openjdk-17-jdk".
Definition java_version_cmd : string := "java -version".
Definition flutter_version_cmd : string :=
  flutter_dir ++ "/bin/flutter --version".
Definition flutter_clone_cmd : string :=
  "git clone https://github.com/flutter/flutter.git -b stable --depth 1 "
    ++ flutter_dir.
Definition flutter_no_analytics_cmd : string :=
  flutter_dir ++ "/bin/flutter config --no-analytics".
Definition flutter_precache_cmd : string :=
  flutter_dir ++ "/bin/flutter precache --android".

Definition cmdline_tools : string :=
  android_sdk_dir </> "cmdline-tools" </> "latest".
Definition sdkmanager_version_cmd : string :=
  cmdline_tools ++ "/bin/sdkmanager --version".
Definition sdk_url : string :=
  "https://dl.google.com/android/repository/commandlinetools-linux-11076708_latest.zip".
Definition sdk_zip : string := "/tmp/commandlinetools.zip".
Definition sdk_download_cmd : string :=
  "wget -q -O " ++ sdk_zip ++ " " ++ sdk_url.
Definition sdk_extract_cmd : string :=
  "unzip -q " ++ sdk_zip ++ " -d /tmp/cmdline-tools-tmp && "
    ++ "mv /tmp/cmdline-tools-tmp/cmdline-tools/* " ++ cmdline_tools ++ "/ && "
    ++ "rm -rf /tmp/cmdline-tools-tmp " ++ sdk_zip.

Definition sdkmanager : string :=
  android_sdk_dir </> "cmdline-tools" </> "latest" </> "bin" </> "sdkmanager".
Definition license_cmd : string := "yes | " ++ sdkmanager ++ " --licenses".
Definition quoted_components : string :=
  PyStr.join " " (map (fun comp => PyStr.dq ++ comp ++ PyStr.dq) sdk_components).
Definition install_cmd : string := sdkmanager ++ " " ++ quoted_components.

Definition flutter_bin : string := flutter_dir </> "bin" </> "flutter".
Definition configure_cmd : string :=
  flutter_bin ++ " config --android-sdk " ++ android_sdk_dir.
Definition pub_get_cmd : string :=
  "cd " ++ project_dir ++ " && " ++ flutter_bin ++ " pub get".
Definition clean_cmd : string :=
  "cd " ++ project_dir ++ " && " ++ flutter_bin ++ " clean".
Definition run_cmd : string :=
  "cd " ++ project_dir ++ " && " ++ flutter_bin ++ " run".

Definition adb : string := android_sdk_dir </> "platform-tools" </> "adb".
Definition adb_devices_cmd : string := adb ++ " devices -l".
Definition adb_install_cmd (apk_path : string) : string :=
  adb ++ " install -r " ++ apk_path.

Definition build_cmd (build_type : string) : string :=
  if String.eqb build_type "release"
  then "cd " ++ project_dir ++ " && " ++ flutter_bin ++ " build apk --release"
  else "cd " ++ project_dir ++ " && " ++ flutter_bin ++ " build apk --debug".

Definition apk_path (build_type : string) : string :=
  project_dir </> "build" </> "app" </> "outputs" </> "flutter-apk"
    </> ("app-" ++ build_type ++ ".apk").

(** The test of line 331 on the text handed back as stderr. *)
Definition minify_marker (stderr : string) : bool :=
  PyStr.str_in "R8" stderr || PyStr.str_in "minify" (PyStr.lower stderr).

Definition check_java : M W bool :=
  let verify : M W bool :=
    '(success, _, _) <- run_command java_version_cmd true true ;;
    (if success then print_success "Java is installed" else ret tt) ;;
    ret success in
  print_step "Checking Java Installation" ;;
  present <- exists_ java_home ;;
  if negb present then
    print_warning "Java 17 not found, installing..." ;;
    '(success, _, _) <- run_command java_install_cmd true false ;;
    if negb success then
      print_error "Failed to install Java 17" ;;
      ret false
    else verify
  else verify.

Definition setup_flutter : M W bool :=
  let install : M W bool :=
    print_warning "Flutter not found, installing (this may take a few minutes)..." ;;
    '(success, _, _) <- run_command flutter_clone_cmd true false ;;
    if negb success then
      print_error "Failed to clone Flutter repository" ;;
      ret false
    else
      print_success "Flutter SDK installed successfully" ;;
      print_info "Configuring Flutter..." ;;
      run_command flutter_no_analytics_cmd true false ;;
      run_command flutter_precache_cmd true false ;;
      ret true in
  print_step "Setting Up Flutter SDK" ;;
  present <- exists_ flutter_dir ;;
  if present then
    print_success "Flutter directory exists" ;;
    '(success, _, _) <- run_command flutter_version_cmd true true ;;
    if success then
      print_success "Flutter is working correctly" ;;
      ret true
    else
      print_warning "Flutter directory exists but not working, reinstalling..." ;;
      rmtree flutter_dir false ;;
      install
  else install.

Definition setup_android_sdk : M W bool :=
  let install : M W bool :=
    print_warning "Android SDK not found, installing..." ;;
    print_info "Downloading Android SDK..." ;;
    '(success, _, _) <- run_command sdk_download_cmd true false ;;
    if negb success then
      print_error "Failed to download Android SDK" ;;
      ret false
    else
      print_info "Extracting Android SDK..." ;;
      mkdir cmdline_tools ;;
      '(success, _, _) <- run_command sdk_extract_cmd true false ;;
      if negb success then
        print_error "Failed to extract Android SDK" ;;
        ret false
      else
        print_success "Android SDK command line tools installed" ;;
        ret true in
  print_step "Setting Up Android SDK" ;;
  present <- exists_ cmdline_tools ;;
  if present then
    print_success "Android SDK command line tools exist" ;;
    '(success, _, _) <- run_command sdkmanager_version_cmd true true ;;
    if success then
      print_success "Android SDK tools are working" ;;
      ret true
    else
      print_warning "SDK tools exist but not working, reinstalling..." ;;
      rmtree android_sdk_dir true ;;
      install
  else install.

Definition install_sdk_components : M W bool :=
  print_step "Installing Android SDK Components" ;;
  print_info "Accepting SDK licenses..." ;;
  run_command license_cmd true false ;;
  print_info "Installing SDK components..." ;;
  '(success, _, _) <- run_command install_cmd true false ;;
  (if success then print_success "Android SDK components installed successfully"
   else print_error "Failed to install some SDK components") ;;
  ret success.

Definition configure_flutter_sdk : M W bool :=
  print_step "Configuring Flutter SDK" ;;
  '(success, _, _) <- run_command configure_cmd true false ;;
  (if success then print_success "Flutter configured with Android SDK"
   else ret tt) ;;
  ret success.

Definition get_flutter_dependencies : M W bool :=
  print_step "Installing Flutter Dependencies" ;;
  print_info "Running flutter pub get..." ;;
  '(success, _, _) <- run_command pub_get_cmd true false ;;
  (if success then print_success "Dependencies installed" else ret tt) ;;
  ret success.

Definition android_build : string := project_dir </> "android" </> "app" </> "build".

Definition clean_build : M W bool :=
  print_step "Cleaning Previous Build" ;;
  run_command clean_cmd true false ;;
  present <- exists_ android_build ;;
  (if present then rmtree android_build true else ret tt) ;;
  print_success "Build cleaned" ;;
  ret true.

(** Lines 259-260: the lines of the listing that stand for a device. *)
Definition is_device_line (line : string) : bool :=
  negb (String.eqb (PyStr.strip line) "") && negb (PyStr.startswith line "*").

Definition device_lines (stdout : string) : list string :=
  let lines := PyStr.split_lines (PyStr.strip stdout) in
  filter is_device_line (tl lines).

Definition check_connected_devices : M W (bool * nat) :=
  print_step "Checking for Connected Devices" ;;
  '(success, stdout, _) <- run_command adb_devices_cmd true true ;;
  if success && negb (String.eqb stdout "") then
    let devices := device_lines stdout in
    match devices with
    | _ :: _ =>
        print_success ("Found " ++ PyStr.str_of_nat (length devices)
                       ++ " connected device(s):") ;;
        for_each devices (fun device => print ("   " ++ device)) ;;
        ret (true, length devices)
    | [] =>
        print_warning "No devices found" ;;
        print_info "Make sure your device is:" ;;
        print_info "  1. Connected via USB" ;;
        print_info "  2. USB debugging is enabled" ;;
        print_info "  3. Device is unlocked" ;;
        ret (false, 0)
    end
  else ret (false, 0).

Definition run_app : M W bool :=
  print_step "Running App on Device" ;;
  '(has_device, _) <- check_connected_devices ;;
  if negb has_device then
    print_error "No devices connected. Cannot run app." ;;
    print_info (PyStr.nl ++ "Alternatives:") ;;
    print_info "  1. Connect a device and try again" ;;
    print_info "  2. Build an APK and install manually" ;;
    ret false
  else
    print_info "Starting app (this may take a minute)..." ;;
    print_info "Press Ctrl+C to stop the app" ;;
    '(success, _, _) <- run_command run_cmd false false ;;
    ret success.

(** [build_apk(build_type)], written over the executor [exec] it calls;
    [fuel] bounds the depth of the recursive call of line 333, and [None]
    is a run that needs more depth than [fuel]. *)
Fixpoint build_apk_with (exec : string -> bool -> bool -> M W (bool * string * string))
    (fuel : nat) (build_type : string) : M W (option (bool * option string)) :=
  match fuel with
  | O => ret None
  | S fuel' =>
      print_step ("Building " ++ PyStr.upper build_type ++ " APK") ;;
      print_info "Building APK (this may take several minutes)..." ;;
      '(success, _, stderr) <- exec (build_cmd build_type) true true ;;
      if success then
        present <- exists_ (apk_path build_type) ;;
        if present then
          size <- stat_size (apk_path build_type) ;;
          print_success "APK built successfully!" ;;
          print_success ("Location: " ++ apk_path build_type) ;;
          emit (PrintSize size) ;;
          ret (Some (true, Some (apk_path build_type)))
        else
          print_error "APK file not found after build" ;;
          ret (Some (false, None))
      else
        print_error "Build failed" ;;
        if minify_marker stderr then
          print_warning "R8 minification failed, trying debug build instead..." ;;
          build_apk_with exec fuel' "debug"
        else
          (if negb (String.eqb stderr "") then
             print (PyStr.nl ++ "Error details:" ++ PyStr.nl
                    ++ PyStr.take 500 stderr)
           else ret tt) ;;
          ret (Some (false, None))
  end.

(** [FinSightRunner.build_apk]: the executor is [run_command]. *)
Definition build_apk : nat -> string -> M W (option (bool * option string)) :=
  build_apk_with run_command.

Definition install_apk (apk_path : string) : M W bool :=
  print_step "Installing APK on Device" ;;
  '(has_device, _) <- check_connected_devices ;;
  if negb has_device then
    print_error "No device connected for installation" ;;
    ret false
  else
    print_info ("Installing " ++ PyStr.basename apk_path ++ "...") ;;
    '(success, _, stderr) <- run_command (adb_install_cmd apk_path) true true ;;
    if success then
      print_success "APK installed successfully!" ;;
      print_info "You can now launch the app from your device" ;;
      ret true
    else
      print_error ("Installation failed: " ++ stderr) ;;
      ret false.

(** The loop of lines 377-384: [true] when every step passed, [false] when
    the method returned [False] from inside the loop. *)
Fixpoint run_steps (steps : list (string * M W bool)) : M W bool :=
  match steps with
  | [] => ret true
  | (step_name, step_func) :: rest =>
      passed <- try_except
        (ok <- step_func ;;
         if negb ok then
           print_error ("Setup failed at: " ++ step_name) ;;
           ret false
         else ret true)
        (fun e =>
           print_error ("Exception in " ++ step_name ++ ": " ++ exn_str e) ;;
           ret false) ;;
      if passed then run_steps rest else ret false
  end.

Definition steps : list (string * M W bool) :=
  [ ("Checking Java", check_java);
    ("Setting up Flutter", setup_flutter);
    ("Setting up Android SDK", setup_android_sdk);
    ("Installing SDK components", install_sdk_components);
    ("Configuring Flutter", configure_flutter_sdk);
    ("Getting dependencies", get_flutter_dependencies) ].

Definition run_setup : M W bool :=
  emit (Banner "FinSight App - Complete Runner & Builder") ;;
  passed <- run_steps steps ;;
  if negb passed then ret false
  else
    emit (Banner "SETUP COMPLETED SUCCESSFULLY!") ;;
    ret true.

End WithHost.
End Runner.

(** ** Reading a log *)

(** The commands spawned in a log, oldest first. *)
Fixpoint spawned (l : list event) : list string :=
  match l with
  | [] => []
  | Spawn cmd _ :: r => cmd :: spawned r
  | _ :: r => spawned r
  end.

(** The trees removed in a log, oldest first. *)
Fixpoint removed (l : list event) : list string :=
  match l with
  | [] => []
  | Rmtree p :: r => p :: removed r
  | _ :: r => removed r
  end.

(** The texts printed through [print_error], oldest first. *)
Fixpoint errors (l : list event) : list string :=
  match l with
  | [] => []
  | Say ChError m :: r => m :: errors r
  | _ :: r => errors r
  end.

(** How often a command was spawned. *)
Definition times_spawned (cmd : string) (l : list event) : nat :=
  length (filter (String.eqb cmd) (spawned l)).

(** Runs the steps of [pre] in order from [w]: the host state and the log
    they leave when each of them returned [True], [None] otherwise. *)
Fixpoint all_pass {W : Type} (pre : list (string * M W bool)) (w : W)
  : option (W * list event) :=
  match pre with
  | [] => Some (w, [])
  | (_, step_func) :: rest =>
      match step_func w with
      | (Ok true, w1, l1) =>
          match all_pass rest w1 with
          | Some (w2, l2) => Some (w2, (l1 ++ l2)%list)
          | None => None
          end
      | _ => None
      end
  end.

(** ** Text without a given pattern *)

Fixpoint all_chars (P : ascii -> bool) (s : string) : bool :=
  match s with
  | EmptyString => true
  | String c t => P c && all_chars P t
  end.

(** No occurrence of [p] starts inside [u], whatever text follows [u]: at
    no place of [u] does [p] match, or could a match run past the end. *)
Fixpoint clean (p u : string) : bool :=
  match u with
  | EmptyString => true
  | String _ t =>
      negb (String.prefix p u) && negb (String.prefix u p) && clean p t
  end.

Definition is_digit_or_minus (c : ascii) : bool :=
  let n := nat_of_ascii c in ((n =? 45) || ((48 <=? n) && (n <=? 57)))%nat.

(** ** Verification calls and install actions *)

(** The commands by which the resolver verifies an installation. *)
Definition verification_cmds : list string :=
  [ Runner.java_version_cmd; Runner.flutter_version_cmd;
    Runner.sdkmanager_version_cmd ].

(** The events that install, remove or write something: every command
    that is not a verification, and every change of the file system. *)
Definition is_install_action (ev : event) : bool :=
  match ev with
  | Spawn cmd _ => negb (existsb (String.eqb cmd) verification_cmds)
  | Rmtree _ | Mkdir _ | WriteText _ _ => true
  | _ => false
  end.

Definition install_actions (l : list event) : list event :=
  filter is_install_action l.

(** ** Lines of a listing *)

(** Only white space. *)
Definition blank (s : string) : bool := all_chars PyStr.is_space s.

Definition no_newline (s : string) : bool :=
  all_chars (fun c => negb (Ascii.eqb c PyStr.newline)) s.

(** The text that follows a first line: each further line after a line
    break. *)
Fixpoint tail_text (lines : list string) : string :=
  match lines with
  | [] => EmptyString
  | l :: r => PyStr.nl ++ l ++ tail_text r
  end.

(** What [rstrip] leaves of the lines of a text: the blank lines at the end
    are gone, and the last line left has lost the white space at its end. *)
Fixpoint rstrip_lines (lines : list string) : list string :=
  match lines with
  | [] => []
  | l :: r =>
      match rstrip_lines r with
      | [] => if blank l then [] else [PyStr.rstrip l]
      | r' => l :: r'
      end
  end.

(** ** A concrete host for running the scripts on examples

    A world lists the paths that exist (with their sizes), says what each
    command line does when it is run, and holds the text of the files that
    are read.  Processes do not change the file system here. *)

Module Sim.

Record world : Type := mkWorld {
  files : list (string * Z);
  proc : string -> Completed;
  text : string -> string
}.

Definition has (p : string) (w : world) : bool :=
  existsb (fun e => String.eqb (fst e) p) (files w).

Definition under (dir p : string) : bool :=
  String.eqb p dir || String.prefix (dir ++ "/") p.

Definition size_of (p : string) (w : world) : Z :=
  match find (fun e => String.eqb (fst e) p) (files w) with
  | Some e => snd e
  | None => 0%Z
  end.

(** The part of a glob pattern before its star. *)
Fixpoint stem (pattern : string) : string :=
  match pattern with
  | EmptyString => EmptyString
  | String c t => if Ascii.eqb c "*" then EmptyString else String c (stem t)
  end.

Definition remove (p : string) (w : world) : world :=
  mkWorld (filter (fun e => negb (under p (fst e))) (files w)) (proc w) (text w).

Definition add (p : string) (w : world) : world :=
  if has p w then w else mkWorld ((p, 0%Z) :: files w) (proc w) (text w).

#[global] Instance host : Host world := {|
  subprocess_run := fun cmd _ w => (inr (proc w cmd), w);
  path_exists := has;
  path_is_dir := has;
  shutil_rmtree := fun p w =>
    if has p w then (None, remove p w)
    else (Some (OSError "No such file or directory"), w);
  path_mkdir := fun p w => (None, add p w);
  st_size := size_of;
  path_glob := fun dir pattern w =>
    map fst (filter (fun e => String.prefix (dir ++ "/" ++ stem pattern) (fst e))
                    (files w));
  path_read_text := fun p w => inr (text w p);
  path_write_text := fun p content w =>
    (None, mkWorld (files (add p w)) (proc w)
             (fun q => if String.eqb q p then content else text w q))
|}.

(** A process that exits with status 0 and writes nothing. *)
Definition quiet : Completed := mkCompleted 0 "" "".

(** The commands and outputs of interest for a world: [script] lists what
    chosen command lines do, every other command is [quiet]. *)
Fixpoint behaviour (script : list (string * Completed)) (cmd : string)
  : Completed :=
  match script with
  | [] => quiet
  | (c, r) :: rest => if String.eqb c cmd then r else behaviour rest cmd
  end.

Definition make (paths : list (string * Z)) (script : list (string * Completed))
  : world :=
  mkWorld paths (behaviour script) (fun _ => "").

End Sim.

(** ** Example worlds *)

(** A tool that fails: it writes to both streams and exits with status 1. *)
Definition world_tool_fails : Sim.world :=
  Sim.make [] [("flutter doctor",
                mkCompleted 1 "Doctor summary" "fatal: cannot find the SDK")].

(** The release build fails in the shrinking stage, and so would the debug
    build fail. *)
Definition r8_failure : Completed :=
  mkCompleted 1 "" "ERROR: R8: Missing class com.example.Widget".

Definition world_release_and_debug_fail : Sim.world :=
  Sim.make []
    [ (Builder.build_cmd "release", r8_failure);
      (Builder.build_cmd "debug", mkCompleted 1 "" "Gradle task failed") ].

(** The release build fails in the shrinking stage; a debug build would
    succeed, and its artifact is in place. *)
Definition minify_failure : Completed :=
  mkCompleted 1 "" "Execution failed for task ':app:minifyReleaseWithR8'.".

Definition world_release_fails_debug_builds : Sim.world :=
  Sim.make [ (Builder.apk_path "debug", 41943040%Z) ]
    [ (Builder.build_cmd "release", minify_failure);
      (Runner.build_cmd "release", minify_failure) ].

(** The debug build reports success; its artifact is missing in the first
    world and present, with 5 MB, in the second. *)
Definition world_build_without_artifact : Sim.world := Sim.make [] [].

Definition world_build_with_artifact : Sim.world :=
  Sim.make [ (Builder.apk_path "debug", 5242880%Z) ] [].

(** Java is installed; Flutter is missing and cannot be cloned. *)
Definition world_clone_fails : Sim.world :=
  Sim.make [ (java_home, 4096%Z) ]
    [ (Runner.flutter_clone_cmd,
       mkCompleted 128 "" "fatal: unable to access the repository") ].

(** Java, Flutter and the SDK tools are installed and work; the batched
    installation of the SDK packages exits with status 1. *)
Definition world_install_fails : Sim.world :=
  Sim.make [ (java_home, 4096%Z); (flutter_dir, 4096%Z);
             (Runner.cmdline_tools, 4096%Z) ]
    [ (Runner.install_cmd,
       mkCompleted 1 "" "Warning: Failed to find package") ].

(** A header line alone, as [adb devices -l] prints it when nothing is
    attached; and a listing of two devices with an advisory line. *)
Definition listing_empty : string :=
  "List of devices attached" ++ PyStr.nl ++ PyStr.nl.

Definition listing_two : string :=
  PyStr.join PyStr.nl
    [ "List of devices attached";
      "emulator-5554          device product:sdk_gphone64 model:sdk";
      "* daemon started successfully";
      "R58M42ABCDE            device usb:1-1 product:a52 model:SM_A525F";
      "" ].

Definition world_no_device : Sim.world :=
  Sim.make [] [ (Runner.adb_devices_cmd, mkCompleted 0 listing_empty "") ].

Definition world_two_devices : Sim.world :=
  Sim.make []
    [ (Runner.adb_devices_cmd, mkCompleted 0 listing_two "");
      (Runner.run_cmd, mkCompleted 1 "" "") ].

(** Everything is installed and every command succeeds. *)
Definition world_provisioned : Sim.world :=
  Sim.make [ (java_home, 4096%Z); (flutter_dir, 4096%Z);
             (Runner.cmdline_tools, 4096%Z) ] [].

(** Java, Flutter and the SDK tools are on disk, but none of the three
    verification commands works, before or after a fresh installation;
    every installation command succeeds. *)
Definition world_corrupted : Sim.world :=
  Sim.make [ (java_home, 4096%Z); (flutter_dir, 4096%Z);
             (android_sdk_dir, 4096%Z); (Runner.cmdline_tools, 4096%Z) ]
    [ (Runner.java_version_cmd, mkCompleted 127 "" "java: not found");
      (Runner.flutter_version_cmd, mkCompleted 1 "" "bad interpreter");
      (Runner.sdkmanager_version_cmd, mkCompleted 1 "" "NoClassDefFoundError") ].

(** Everything is installed and works, but the license acceptance exits
    with status 1. *)
Definition world_license_fails : Sim.world :=
  Sim.make [ (java_home, 4096%Z); (flutter_dir, 4096%Z);
             (Runner.cmdline_tools, 4096%Z) ]
    [ (Runner.license_cmd, mkCompleted 1 "" "licenses not accepted") ].

(** Java is installed, and [java -version] succeeds and writes one line
    break to its stdout. *)
Definition world_java_blank_stdout : Sim.world :=
  Sim.make [ (java_home, 4096%Z) ]
    [ (Runner.java_version_cmd, mkCompleted 0 PyStr.nl "openjdk 17") ].

(** Nothing is installed and every command succeeds. *)
Definition world_bare : Sim.world := Sim.make [] [].

(** [flutter clean] fails, and the Android build directory exists. *)
Definition world_clean_fails : Sim.world :=
  Sim.make [ (Runner.android_build, 4096%Z) ]
    [ (Runner.clean_cmd, mkCompleted 1 "" "pubspec.yaml not found") ].

(** ** [build_apk.py]: [main] *)

Module BuilderCli.

(** The parsed command line: [--release] and [--skip-clean]. *)
Record args : Type := mkArgs { release : bool; skip_clean : bool }.

Section WithHost.
Context {W : Type} {HW : Host W}.

(** [main()] after [parse_args]: the value is the status given to
    [sys.exit]; [None] when the build ran out of [fuel]. *)
Definition main (fuel : nat) (a : args) : M W (option Z) :=
  let build_type := if release a then "release" else "debug" in
  success <- Builder.run fuel build_type (skip_clean a) ;;
  ret (option_map (fun ok : bool => if ok then 0%Z else 1%Z) success).

End WithHost.
End BuilderCli.

(** ** [finsight_runner.py]: [interactive_menu] and [main] *)

Module RunnerCli.

(** [choices=['debug', 'release']] of [--build]. *)
Inductive variant : Type := debug | release.

Definition variant_str (v : variant) : string :=
  match v with debug => "debug" | release => "release" end.

(** The parsed command line. *)
Record args : Type := mkArgs {
  setup : bool;
  run : bool;
  build : option variant;
  install : bool;
  clean : bool;
  interactive : bool
}.

(** How the program ends when no exception escapes: [sys.exit(status)];
    [input()] at the end of the standard input (Python raises [EOFError],
    which nothing catches); or a build that ran out of fuel. *)
Inductive session : Type :=
| Exit (status : Z)
| EndOfInput
| OutOfFuel.

Section WithHost.
Context {W : Type} {HW : Host W}.

(** What [interactive_menu] prints before it reads the choice. *)
Definition interactive_menu : M W unit :=
  emit (Banner "FinSight App - Complete Runner & Builder") ;;
  print "Select an action:" ;;
  print "  1. Run app on connected device (debug mode)" ;;
  print "  2. Build debug APK" ;;
  print "  3. Build release APK" ;;
  print "  4. Build and install debug APK" ;;
  print "  5. Run initial setup/verify installation" ;;
  print "  6. Clean build and rebuild debug APK" ;;
  print "  0. Exit" ;;
  print "" ;;
  print "Enter choice (1-6, 0 to exit): ".

(** The branches of lines 440-471 for the choices 1 to 6, up to the
    [input] that ends each of them: [false] when a build ran out of
    fuel, [None] for any other choice. *)
Definition action (fuel : nat) (choice : string) : option (M W bool) :=
  if String.eqb choice "1" then Some (
    ok <- Runner.run_app ;;
    (if negb ok then print_error "Failed to run app" else ret tt) ;;
    ret true)
  else if String.eqb choice "2" then Some (
    r <- Runner.build_apk fuel "debug" ;;
    match r with
    | None => ret false
    | Some (success, _) =>
        (if negb success then print_error "Build failed" else ret tt) ;;
        ret true
    end)
  else if String.eqb choice "3" then Some (
    r <- Runner.build_apk fuel "release" ;;
    match r with
    | None => ret false
    | Some (success, _) =>
        (if negb success then print_error "Build failed" else ret tt) ;;
        ret true
    end)
  else if String.eqb choice "4" then Some (
    r <- Runner.build_apk fuel "debug" ;;
    match r with
    | None => ret false
    | Some (success, apk_path) =>
        match apk_path with
        | Some p => if success then Runner.install_apk p ;; ret tt else ret tt
        | None => ret tt
        end ;;
        ret true
    end)
  else if String.eqb choice "5" then Some (
    Runner.run_setup ;;
    ret true)
  else if String.eqb choice "6" then Some (
    Runner.clean_build ;;
    r <- Runner.build_apk fuel "debug" ;;
    match r with
    | None => ret false
    | Some _ => ret true
    end)
  else None.

(** The [while True] loop of lines 434-474 over the lines [stdin] still to
    be read: every pass reads the choice, and the passes for the choices 1
    to 6 read one more line at [Press Enter to continue...].  The pause of
    one second after an invalid choice has no event. *)
Fixpoint menu_loop (fuel : nat) (stdin : list string) {struct stdin}
  : M W session :=
  interactive_menu ;;
  match stdin with
  | [] => ret EndOfInput
  | line :: rest =>
      let choice := PyStr.strip line in
      if String.eqb choice "0" then
        print_info "Exiting..." ;;
        ret (Exit 0)
      else
        match action fuel choice with
        | Some act =>
            done <- act ;;
            if done then
              print "Press Enter to continue..." ;;
              match rest with
              | [] => ret EndOfInput
              | _ :: rest' => menu_loop fuel rest'
              end
            else ret OutOfFuel
        | None =>
            print_error "Invalid choice" ;;
            menu_loop fuel rest
        end
  end.

(** The command line mode of lines 475-497. *)
Definition command_line (fuel : nat) (a : args) : M W session :=
  success <- (if setup a then Runner.run_setup else ret true) ;;
  (if success && clean a then Runner.clean_build ;; ret tt else ret tt) ;;
  r <- (if success then
          match build a with
          | Some v =>
              r <- Runner.build_apk fuel (variant_str v) ;;
              match r with
              | None => ret None
              | Some (success, apk_path) =>
                  match apk_path with
                  | Some p =>
                      if success && install a
                      then Runner.install_apk p ;; ret tt
                      else ret tt
                  | None => ret tt
                  end ;;
                  ret (Some success)
              end
          | None => ret (Some success)
          end
        else ret (Some success)) ;;
  match r with
  | None => ret OutOfFuel
  | Some success =>
      success <- (if success && run a then Runner.run_app else ret success) ;;
      emit PrintElapsed ;;
      ret (Exit (if success then 0 else 1))
  end.

(** [main()] after [parse_args]; [no_arguments] is [len(sys.argv) == 1]. *)
Definition main (fuel : nat) (no_arguments : bool) (a : args)
    (stdin : list string) : M W session :=
  if no_arguments || interactive a then menu_loop fuel stdin
  else command_line fuel a.

End WithHost.
End RunnerCli.

(** Nothing is installed; every command succeeds except
    [flutter precache], which exits with status 1. *)
Definition world_precache_fails : Sim.world :=
  Sim.make []
    [ (Runner.flutter_precache_cmd, mkCompleted 1 "" "Connection reset");
      (Builder.flutter_precache_cmd, mkCompleted 1 "" "Connection reset") ].

(** Nothing is installed; the SDK archive is downloaded, and unpacking it
    exits with status 9. *)
Definition world_extract_fails : Sim.world :=
  Sim.make []
    [ (Runner.sdk_extract_cmd, mkCompleted 9 "" "End-of-central-directory");
      (Builder.sdk_extract_cmd, mkCompleted 9 "" "End-of-central-directory") ].

(** ** The two parts of [fix_launcher_icons] *)

Section LauncherParts.
Context {W : Type} {HW : Host W}.



End LauncherParts.


(** * [test_classification.py] *)

Module Classification.

(** How [subprocess.run(..., timeout=60)] ends: the process exits in
    time, the time runs out, or the call raises another exception (the
    [flutter] binary cannot be started, say). *)
Inductive run_end : Type :=
| Finished (c : Completed)
| TimeoutExpired
| Failed (e : exn).

(** What the script does to the outside.  Headings are logged without
    their padding and rule lines, messages without their symbols. *)
Inductive action : Type :=
| Heading (title : string)
| Out (text : string)
| RunTest (test_name : string)
| WriteFile (path content : string)
| Unlink (path : string).

(** What the script needs from the machine; [flutter_test name] stands
    for [flutter test name --no-pub] in the project directory. *)
Class TestHost (W : Type) : Type := {
  flutter_test : string -> W -> run_end * W;
  file_exists : string -> W -> bool;
  file_size : string -> W -> Z;
  file_read_text : string -> W -> exn + string;
  file_write_text : string -> string -> W -> option exn * W;
  file_unlink : string -> W -> option exn * W
}.

(** A run from a state of the machine: its result or the exception it
    raises, the state it leaves, and what it did, oldest first. *)
Definition T (W A : Type) : Type := W -> result A * W * list action.

Section Monad.
Context {W : Type}.

Definition ret {A} (a : A) : T W A := fun w => (Ok a, w, []).

(** The outcome [r] of a run, with the actions [l] done before it. *)
Definition after {A} (l : list action) (r : result A * W * list action)
  : result A * W * list action :=
  match r with (x, w, l') => (x, w, (l ++ l')%list) end.

Definition bind {A B} (m : T W A) (k : A -> T W B) : T W B := fun w =>
  match m w with
  | (Ok a, w1, l1) => after l1 (k a w1)
  | (Raise e, w1, l1) => (Raise e, w1, l1)
  end.

(** [try: m  except Exception as e: h e] *)
Definition try_except {A} (m : T W A) (h : exn -> T W A) : T W A := fun w =>
  match m w with
  | (Ok a, w1, l1) => (Ok a, w1, l1)
  | (Raise e, w1, l1) => after l1 (h e w1)
  end.

Definition act (a : action) : T W unit := fun w => (Ok tt, w, [a]).

(** [for x in xs: body x] *)
Fixpoint for_each {A} (xs : list A) (body : A -> T W unit) : T W unit :=
  match xs with
  | [] => ret tt
  | x :: r => bind (body x) (fun _ => for_each r body)
  end.

End Monad.

Declare Scope test_scope.
Notation "x <- m ;; k" := (bind m (fun x => k)) : test_scope.
Notation "m ;; k" := (bind m (fun _ => k)) : test_scope.
Local Open Scope test_scope.

Section WithHost.
Context {W : Type} {HW : TestHost W}.

Definition heading (title : string) : T W unit := act (Heading title).
Definition print (text : string) : T W unit := act (Out text).

Definition exists_ (p : string) : T W bool :=
  fun w => (Ok (file_exists p w), w, []).

Definition stat_size (p : string) : T W Z :=
  fun w => (Ok (file_size p w), w, []).

Definition read_text (p : string) : T W string :=
  fun w =>
    match file_read_text p w with
    | inr s => (Ok s, w, [])
    | inl e => (Raise e, w, [])
    end.

Definition write_text (p content : string) : T W unit :=
  fun w =>
    match file_write_text p content w with
    | (None, w') => (Ok tt, w', [WriteFile p content])
    | (Some e, w') => (Raise e, w', [WriteFile p content])
    end.

Definition unlink (p : string) : T W unit :=
  fun w =>
    match file_unlink p w with
    | (None, w') => (Ok tt, w', [Unlink p])
    | (Some e, w') => (Raise e, w', [Unlink p])
    end.

Definition subprocess_run (test_name : string) : T W run_end :=
  fun w =>
    match flutter_test test_name w with
    | (r, w') => (Ok r, w', [RunTest test_name])
    end.

(** [run_flutter_test(test_name)] *)
Definition run_flutter_test (test_name : string) : T W bool :=
  heading ("Running: " ++ test_name) ;;
  r <- subprocess_run test_name ;;
  match r with
  | Finished result =>
      print (stdout result) ;;
      (if negb (String.eqb (stderr result) "")
       then print ("STDERR: " ++ stderr result) else ret tt) ;;
      ret (returncode result =? 0)%Z
  | TimeoutExpired =>
      print ("TEST TIMEOUT: " ++ test_name
             ++ " took longer than 60 seconds!") ;;
      ret false
  | Failed e =>
      print ("ERROR running test: " ++ exn_str e) ;;
      ret false
  end.

Definition test_file : string :=
  project_dir ++ "/test/classification_performance_test.dart".

(** [test_classification_dart()] *)
Definition test_classification_dart : T W bool :=
  heading "TESTING CLASSIFICATION PERFORMANCE" ;;
  present <- exists_ test_file ;;
  if negb present then
    print ("Test file not found: " ++ test_file) ;;
    ret false
  else
    print ("Test file: " ++ PyStr.basename test_file) ;;
    size <- stat_size test_file ;;
    print ("File size: " ++ PyStr.str_of_Z size ++ " bytes") ;;
    success <- run_flutter_test "test/classification_performance_test.dart" ;;
    (if success then print "Classification tests PASSED"
     else print "Classification tests FAILED") ;;
    ret success.

(** The Dart test of lines 69-101; the two symbols in its messages are
    kept as the bytes of their encoding. *)
Definition test_code : string :=
  PyStr.join PyStr.nl
    [ "";
      "import 'package:flutter_test/flutter_test.dart';";
      "import '../lib/services/category_classifier.dart';";
      "import '../lib/services/llm_service.dart';";
      "";
      "void main() {";
      "  test('Classification completes within timeout', () async {";
      "    final classifier = CategoryClassifier(llmService: MockLlmService());";
      "    ";
      "    final stopwatch = Stopwatch()..start();";
      "    ";
      "    try {";
      "      final result = await classifier.classifyHybrid(";
      "        merchantName: 'Walmart',";
      "        description: 'groceries',";
      "        amount: 50.0,";
      "      ).timeout(Duration(seconds: 2));";
      "      ";
      "      stopwatch.stop();";
      "      ";
      "      expect(result.category, isNotNull);";
      "      expect(stopwatch.elapsedMilliseconds, lessThan(2000));";
      "      ";
      "      print('✅ Classification completed in ${stopwatch.elapsedMilliseconds}ms');";
      "    } catch (e) {";
      "      stopwatch.stop();";
      "      print('❌ Classification failed: $e');";
      "      print('   Time: ${stopwatch.elapsedMilliseconds}ms');";
      "      rethrow;";
      "    }";
      "  });";
      "}";
      "" ].

Definition temp_test : string := project_dir ++ "/test/temp_timeout_test.dart".

(** [test_classification_timeout()] *)
Definition test_classification_timeout : T W bool :=
  heading "TESTING CLASSIFICATION TIMEOUTS" ;;
  write_text temp_test test_code ;;
  try_except
    (success <- run_flutter_test "test/temp_timeout_test.dart" ;;
     unlink temp_test ;;
     ret success)
    (fun e =>
       print ("Error: " ++ exn_str e) ;;
       present <- exists_ temp_test ;;
       (if present then unlink temp_test else ret tt) ;;
       ret false).

Definition llm_file : string := project_dir ++ "/lib/services/llm_service.dart".

(** [check_llm_service()] *)
Definition check_llm_service : T W bool :=
  heading "CHECKING LLM SERVICE CONFIGURATION" ;;
  present <- exists_ llm_file ;;
  if negb present then
    print "LLM service file not found!" ;;
    ret false
  else
    content <- read_text llm_file ;;
    if PyStr.str_in "class FastLlmService" content then
      print "FastLlmService class found" ;;
      (if PyStr.str_in "gpt-3.5-turbo" content
       then print "GPT-3.5-turbo model configured"
       else print "GPT-3.5-turbo not found in config") ;;
      (if PyStr.str_in "timeout: 3" content
          || PyStr.str_in "timeout: Duration(seconds: 3)" content
       then print "3-second timeout configured"
       else print "Timeout not set to 3 seconds") ;;
      ret true
    else
      print "FastLlmService class not found!" ;;
      ret false.

Definition classifier_file : string :=
  project_dir ++ "/lib/services/category_classifier.dart".

(** [check_classifier_service()] *)
Definition check_classifier_service : T W bool :=
  heading "CHECKING CLASSIFIER CONFIGURATION" ;;
  present <- exists_ classifier_file ;;
  if negb present then
    print "Classifier file not found!" ;;
    ret false
  else
    content <- read_text classifier_file ;;
    if PyStr.str_in "classifyHybrid" content then
      print "classifyHybrid method found" ;;
      (if PyStr.str_in "_cache" content
          || PyStr.str_in "cache" (PyStr.lower content)
       then print "Caching implemented"
       else print "Caching not found") ;;
      (if PyStr.str_in "timeout" (PyStr.lower content)
       then print "Timeout protection found"
       else print "No timeout protection found") ;;
      ret true
    else
      print "classifyHybrid method not found!" ;;
      ret false.

(** [main()]: the value is the status given to [sys.exit]. *)
Definition main : T W Z :=
  heading "CLASSIFICATION TEST SUITE" ;;
  print "Testing classification performance and timeouts" ;;
  llm_service_check <- check_llm_service ;;
  classifier_check <- check_classifier_service ;;
  dart_tests <- test_classification_dart ;;
  timeout_tests <- test_classification_timeout ;;
  let results :=
    [ ("llm_service_check", llm_service_check);
      ("classifier_check", classifier_check);
      ("dart_tests", dart_tests);
      ("timeout_tests", timeout_tests) ] in
  heading "TEST SUMMARY" ;;
  let passed := length (filter (fun kv : string * bool => snd kv) results) in
  let total := length results in
  for_each results (fun kv : string * bool =>
    print ((if snd kv then "PASS" else "FAIL") ++ " - " ++ fst kv)) ;;
  print ("Result: " ++ PyStr.str_of_nat passed ++ "/"
         ++ PyStr.str_of_nat total ++ " checks passed") ;;
  if (passed =? total)%nat then
    print "All tests PASSED!" ;;
    ret 0%Z
  else
    print (PyStr.str_of_nat (total - passed) ++ " test(s) FAILED") ;;
    ret 1%Z.

End WithHost.

(** *** What a log of the script shows *)

(** The tests run, the files written and the files removed, oldest
    first. *)
Fixpoint tests_run (l : list action) : list string :=
  match l with
  | [] => []
  | RunTest n :: r => n :: tests_run r
  | _ :: r => tests_run r
  end.

Fixpoint written (l : list action) : list (string * string) :=
  match l with
  | [] => []
  | WriteFile p content :: r => (p, content) :: written r
  | _ :: r => written r
  end.

Fixpoint unlinked (l : list action) : list string :=
  match l with
  | [] => []
  | Unlink p :: r => p :: unlinked r
  | _ :: r => unlinked r
  end.

(** Whether a run of the test tool counts as passed. *)
Definition passed (r : run_end) : bool :=
  match r with
  | Finished c => (returncode c =? 0)%Z
  | _ => false
  end.

(** *** A machine to run the script on *)

(** The files with their text, how each test ends, and whether the test
    directory refuses to have files removed. *)
Record world : Type := mkWorld {
  files : list (string * string);
  ends : string -> run_end;
  read_only : bool
}.

Definition lookup (p : string) (w : world) : option string :=
  option_map snd (find (fun e => String.eqb (fst e) p) (files w)).

Definition put (p content : string) (w : world) : world :=
  mkWorld ((p, content)
           :: filter (fun e => negb (String.eqb (fst e) p)) (files w))
          (ends w) (read_only w).

Definition drop (p : string) (w : world) : world :=
  mkWorld (filter (fun e => negb (String.eqb (fst e) p)) (files w))
          (ends w) (read_only w).

#[global] Instance sim : TestHost world := {|
  flutter_test := fun name w => (ends w name, w);
  file_exists := fun p w =>
    match lookup p w with Some _ => true | None => false end;
  file_size := fun p w =>
    match lookup p w with
    | Some s => Z.of_nat (String.length s)
    | None => 0%Z
    end;
  file_read_text := fun p w =>
    match lookup p w with
    | Some s => inr s
    | None => inl (OSError "No such file or directory")
    end;
  file_write_text := fun p content w => (None, put p content w);
  file_unlink := fun p w =>
    if read_only w then (Some (OSError "Permission denied"), w)
    else match lookup p w with
         | Some _ => (None, drop p w)
         | None => (Some (OSError "No such file or directory"), w)
         end
|}.

End Classification.

(** The temporary test passes, and the test directory lets files be
    written but not removed. *)
Definition world_cannot_unlink : Classification.world :=
  Classification.mkWorld []
    (fun _ => Classification.Finished (mkCompleted 0 "All tests passed!" ""))
    true.

(** The two services are in place with their class and method, without
    the model name, the timeout and the cache the checks look for; the
    performance test is missing and the temporary test runs out of
    time. *)
Definition world_services_only : Classification.world :=
  Classification.mkWorld
    [ (Classification.llm_file, "class FastLlmService {}");
      (Classification.classifier_file, "Future classifyHybrid() async {}") ]
    (fun _ => Classification.TimeoutExpired)
    false.

(** Everything is in place and both tests pass. *)
Definition world_all_green : Classification.world :=
  Classification.mkWorld
    [ (Classification.llm_file,
       "class FastLlmService { model: 'gpt-3.5-turbo', timeout: 3 }");
      (Classification.classifier_file,
       "final _cache = {}; classifyHybrid().timeout(d);");
      (Classification.test_file, "void main() {}") ]
    (fun _ => Classification.Finished (mkCompleted 0 "All tests passed!" ""))
    false.

(** * Properties of the embedding *)

(** ** The text operations on examples *)

Example strip_example : PyStr.strip "  ab c  " = "ab c".
Proof. reflexivity. Qed.

Example split_lines_example :
  PyStr.split_lines ("a" ++ PyStr.nl ++ PyStr.nl ++ "b") = ["a"; ""; "b"].
Proof. reflexivity. Qed.

Example str_in_example :
  (PyStr.str_in "R8" "ERROR: R8: failed", PyStr.str_in "R8" "R 8",
   PyStr.str_in "minify" (PyStr.lower "task :app:MinifyRelease"))
  = (true, false, true).
Proof. reflexivity. Qed.

Example basename_example :
  PyStr.basename "/a/b/app-debug.apk" = "app-debug.apk".
Proof. reflexivity. Qed.

Example replace_example :
  PyStr.replace "@mipmap/ic" "@drawable/ic" "x @mipmap/ic y @mipmap/ic"
  = "x @drawable/ic y @drawable/ic".
Proof. reflexivity. Qed.

Example str_of_Z_example :
  (PyStr.str_of_Z 0, PyStr.str_of_Z 127, PyStr.str_of_Z (-9)) = ("0", "127", "-9").
Proof. reflexivity. Qed.

Example first_word_example :
  (PyStr.first_word "  openjdk 17", PyStr.first_word "   ") = (Some "openjdk", None).
Proof. reflexivity. Qed.

Example error_text_example :
  ( CalledProcessError_str "adb install" 1,
    CalledProcessError_str "adb install" (-9),
    CalledProcessError_str "adb install" (-40) )
  = ( "Command 'adb install' returned non-zero exit status 1.",
      "Command 'adb install' died with <Signals.SIGKILL: 9>.",
      "Command 'adb install' died with unknown signal 40." ).
Proof. reflexivity. Qed.

Example quoted_components_example :
  Builder.install_cmd
  = "/tmp/android-sdk/cmdline-tools/latest/bin/sdkmanager "
      ++ PyStr.dq ++ "platform-tools" ++ PyStr.dq ++ " "
      ++ PyStr.dq ++ "platforms;android-34" ++ PyStr.dq ++ " "
      ++ PyStr.dq ++ "build-tools;34.0.0" ++ PyStr.dq.
Proof. reflexivity. Qed.

(** ** Text lemmas *)

Lemma prefix_app_false (p x s : string) :
  String.prefix p x = false -> String.prefix x p = false ->
  String.prefix p (x ++ s) = false.
Proof.
  revert x; induction p as [|a p IH]; intros [|b x]; simpl; try discriminate.
  destruct (ascii_dec a b) as [->|Hab].
  - destruct (ascii_dec b b) as [_|Hbb]; [|contradiction].
    apply IH.
  - reflexivity.
Qed.

Lemma clean_skip (p u s : string) :
  clean p u = true -> PyStr.str_in p (u ++ s) = PyStr.str_in p s.
Proof.
  induction u as [|c u IH]; [reflexivity|].
  cbn [clean]. intros H.
  apply andb_true_iff in H as [H Hu].
  apply andb_true_iff in H as [H1 H2].
  apply negb_true_iff in H1, H2.
  change (String c u ++ s) with (String c (u ++ s)).
  cbn [PyStr.str_in].
  change (String c (u ++ s)) with (String c u ++ s).
  rewrite (prefix_app_false _ _ s H1 H2).
  apply IH, Hu.
Qed.

Lemma clean_of_chars (c : ascii) (p d : string) :
  all_chars (fun a => negb (Ascii.eqb a c)) d = true ->
  clean (String c p) d = true.
Proof.
  induction d as [|a d IH]; [reflexivity|].
  cbn [all_chars clean]. intros H.
  apply andb_true_iff in H as [Ha Hd].
  apply negb_true_iff in Ha.
  rewrite (IH Hd), andb_true_r.
  simpl String.prefix.
  destruct (ascii_dec c a) as [->|_].
  - rewrite Ascii.eqb_refl in Ha; discriminate.
  - destruct (ascii_dec a c) as [->|_].
    + rewrite Ascii.eqb_refl in Ha; discriminate.
    + reflexivity.
Qed.

Lemma all_chars_impl (P Q : ascii -> bool) (s : string) :
  (forall c, P c = true -> Q c = true) ->
  all_chars P s = true -> all_chars Q s = true.
Proof.
  intros HPQ; induction s as [|c s IH]; [reflexivity|].
  cbn [all_chars]. intros H.
  apply andb_true_iff in H as [Hc Hs].
  rewrite (HPQ _ Hc), (IH Hs); reflexivity.
Qed.

Lemma map_str_app (f : ascii -> ascii) (a b : string) :
  PyStr.map_str f (a ++ b) = PyStr.map_str f a ++ PyStr.map_str f b.
Proof.
  induction a as [|c a IH]; [reflexivity|].
  simpl. now rewrite IH.
Qed.

Lemma map_str_fixed (f : ascii -> ascii) (P : ascii -> bool) (s : string) :
  (forall c, P c = true -> f c = c) ->
  all_chars P s = true -> PyStr.map_str f s = s.
Proof.
  intros Hf; induction s as [|c s IH]; [reflexivity|].
  cbn [all_chars]. intros H.
  apply andb_true_iff in H as [Hc Hs].
  simpl. now rewrite (Hf _ Hc), (IH Hs).
Qed.

Lemma uint_chars (d : Decimal.uint) :
  all_chars is_digit_or_minus (NilEmpty.string_of_uint d) = true.
Proof.
  induction d; simpl; auto.
Qed.

Lemma str_of_Z_chars (z : Z) :
  all_chars is_digit_or_minus (PyStr.str_of_Z z) = true.
Proof.
  unfold PyStr.str_of_Z, NilZero.string_of_int, NilZero.string_of_uint.
  destruct (Z.to_int z) as [d|d]; destruct d;
    try reflexivity; apply (uint_chars (_ d)) || (simpl; apply uint_chars).
Qed.

Lemma lower_digit (c : ascii) :
  is_digit_or_minus c = true -> PyStr.lower_char c = c.
Proof.
  destruct c as [[|] [|] [|] [|] [|] [|] [|] [|]];
    vm_compute; intros H; try reflexivity; discriminate.
Qed.

Lemma digit_not (c : ascii) :
  is_digit_or_minus c = false ->
  forall a, is_digit_or_minus a = true -> negb (Ascii.eqb a c) = true.
Proof.
  intros Hc a Ha. apply negb_true_iff.
  destruct (Ascii.eqb_spec a c) as [->|]; [congruence|reflexivity].
Qed.

Lemma lower_str_of_Z (z : Z) : PyStr.lower (PyStr.str_of_Z z) = PyStr.str_of_Z z.
Proof.
  apply map_str_fixed with (P := is_digit_or_minus).
  - apply lower_digit.
  - apply str_of_Z_chars.
Qed.

(** A decimal number holds no occurrence of a pattern that starts with a
    character other than a digit or the sign. *)
Lemma clean_str_of_Z (c : ascii) (p : string) (z : Z) :
  is_digit_or_minus c = false -> clean (String c p) (PyStr.str_of_Z z) = true.
Proof.
  intros Hc. apply clean_of_chars.
  apply all_chars_impl with (P := is_digit_or_minus); [|apply str_of_Z_chars].
  apply digit_not, Hc.
Qed.

(** ** The text of a [CalledProcessError] *)

Lemma signal_name_in (tbl : list (Z * string)) (n : Z) (nm : string) :
  signal_name tbl n = Some nm -> In nm (map snd tbl).
Proof.
  induction tbl as [|[k x] tbl IH]; simpl; [discriminate|].
  destruct (Z.eqb k n).
  - intros [= ->]; now left.
  - intros H; right; apply IH, H.
Qed.

Lemma str_app_assoc (a b c : string) : (a ++ b) ++ c = a ++ b ++ c.
Proof.
  induction a as [|x a IH]; [reflexivity|].
  simpl. now rewrite IH.
Qed.

(** A signal name is shown followed by a colon; the two together start no
    occurrence of a marker. *)
Lemma signal_names_clean (nm : string) :
  In nm (map snd signals) ->
  clean "R8" (nm ++ ": ") = true
  /\ clean "minify" (PyStr.lower nm ++ ": ") = true.
Proof.
  intros Hin.
  assert (Hall : forallb (fun x => clean "R8" (x ++ ": ")
                                  && clean "minify" (PyStr.lower x ++ ": "))
                   (map snd signals) = true) by (vm_compute; reflexivity).
  rewrite forallb_forall in Hall.
  apply andb_true_iff, Hall, Hin.
Qed.

(** The text of a [CalledProcessError] names the command, and apart from
    the command it holds neither of the two markers: whenever the command
    line itself is free of them, so is the whole text. *)
Lemma error_text_no_marker (cmd : string) (rc : Z) :
  clean "R8" cmd = true ->
  clean "minify" (PyStr.lower cmd) = true ->
  PyStr.str_in "R8" (CalledProcessError_str cmd rc)
  || PyStr.str_in "minify" (PyStr.lower (CalledProcessError_str cmd rc)) = false.
Proof.
  intros Hr Hm. unfold CalledProcessError_str.
  assert (Hd1 : forall z, clean "R8" (PyStr.str_of_Z z) = true)
    by (intros z; apply clean_str_of_Z; reflexivity).
  assert (Hd2 : forall z, clean "minify" (PyStr.str_of_Z z) = true)
    by (intros z; apply clean_str_of_Z; reflexivity).
  destruct (rc <? 0)%Z.
  - destruct (signal_name signals (- rc)) as [nm|] eqn:Hs.
    + destruct (signal_names_clean nm (signal_name_in _ _ _ Hs)) as [Hn1 Hn2].
      apply orb_false_iff; split.
      * rewrite (clean_skip "R8" "Command '") by reflexivity.
        rewrite (clean_skip "R8" cmd) by exact Hr.
        rewrite (clean_skip "R8" "' died with <Signals.") by reflexivity.
        rewrite <- (str_app_assoc nm ": ").
        rewrite (clean_skip "R8" (nm ++ ": ")) by exact Hn1.
        rewrite (clean_skip "R8" (PyStr.str_of_Z (- rc))) by apply Hd1.
        reflexivity.
      * unfold PyStr.lower in *. rewrite !map_str_app.
        fold PyStr.lower. rewrite lower_str_of_Z.
        rewrite (clean_skip "minify" (PyStr.lower "Command '")) by reflexivity.
        rewrite (clean_skip "minify" (PyStr.lower cmd)) by exact Hm.
        rewrite (clean_skip "minify" (PyStr.lower "' died with <Signals."))
          by reflexivity.
        change (PyStr.lower ": ") with ": ".
        rewrite <- (str_app_assoc (PyStr.lower nm) ": ").
        rewrite (clean_skip "minify" (PyStr.lower nm ++ ": ")) by exact Hn2.
        rewrite (clean_skip "minify" (PyStr.str_of_Z (- rc))) by apply Hd2.
        reflexivity.
    + apply orb_false_iff; split.
      * rewrite (clean_skip "R8" "Command '") by reflexivity.
        rewrite (clean_skip "R8" cmd) by exact Hr.
        rewrite (clean_skip "R8" "' died with unknown signal ") by reflexivity.
        rewrite (clean_skip "R8" (PyStr.str_of_Z (- rc))) by apply Hd1.
        reflexivity.
      * unfold PyStr.lower in *. rewrite !map_str_app.
        fold PyStr.lower. rewrite lower_str_of_Z.
        rewrite (clean_skip "minify" (PyStr.lower "Command '")) by reflexivity.
        rewrite (clean_skip "minify" (PyStr.lower cmd)) by exact Hm.
        rewrite (clean_skip "minify" (PyStr.lower "' died with unknown signal "))
          by reflexivity.
        rewrite (clean_skip "minify" (PyStr.str_of_Z (- rc))) by apply Hd2.
        reflexivity.
  - apply orb_false_iff; split.
    + rewrite (clean_skip "R8" "Command '") by reflexivity.
      rewrite (clean_skip "R8" cmd) by exact Hr.
      rewrite (clean_skip "R8" "' returned non-zero exit status ") by reflexivity.
      rewrite (clean_skip "R8" (PyStr.str_of_Z rc)) by apply Hd1.
      reflexivity.
    + unfold PyStr.lower in *. rewrite !map_str_app.
      fold PyStr.lower. rewrite lower_str_of_Z.
      rewrite (clean_skip "minify" (PyStr.lower "Command '")) by reflexivity.
      rewrite (clean_skip "minify" (PyStr.lower cmd)) by exact Hm.
      rewrite (clean_skip "minify" (PyStr.lower "' returned non-zero exit status "))
        by reflexivity.
      rewrite (clean_skip "minify" (PyStr.str_of_Z rc)) by apply Hd2.
      reflexivity.
Qed.

(** ** Running a program step by step *)

Section Steps.
Context {W : Type}.

Lemma bind_ok {A B} (m : M W A) (k : A -> M W B) (w w1 : W) (a : A)
    (l1 : list event) :
  m w = (Ok a, w1, l1) -> bind m k w = logged l1 (k a w1).
Proof. intros H. unfold bind. now rewrite H. Qed.

Lemma bind_raise {A B} (m : M W A) (k : A -> M W B) (w w1 : W) (e : exn)
    (l1 : list event) :
  m w = (Raise e, w1, l1) -> bind m k w = (Raise e, w1, l1).
Proof. intros H. unfold bind. now rewrite H. Qed.

Lemma try_ok {A} (m : M W A) (h : exn -> M W A) (w w1 : W) (a : A)
    (l1 : list event) :
  m w = (Ok a, w1, l1) -> try_except m h w = (Ok a, w1, l1).
Proof. intros H. unfold try_except. now rewrite H. Qed.

Lemma try_raise {A} (m : M W A) (h : exn -> M W A) (w w1 : W) (e : exn)
    (l1 : list event) :
  m w = (Raise e, w1, l1) -> try_except m h w = logged l1 (h e w1).
Proof. intros H. unfold try_except. now rewrite H. Qed.

Lemma logged_nil {A} (r : result A * W * list event) : logged [] r = r.
Proof. now destruct r as [[x w] l]. Qed.

Lemma logged_logged {A} (l1 l2 : list event) (r : result A * W * list event) :
  logged l1 (logged l2 r) = logged (l1 ++ l2) r.
Proof. destruct r as [[x w] l]. cbn. now rewrite app_assoc. Qed.

End Steps.

Arguments bind_ok {W A B m} k {w w1 a l1} _.
Arguments bind_raise {W A B m} k {w w1 e l1} _.
Arguments try_ok {W A m} h {w w1 a l1} _.
Arguments try_raise {W A m} h {w w1 e l1} _.

(** Unfolds the monad on the parts of a program that do not depend on the
    host. *)
Ltac run_prog :=
  cbn [bind ret raise emit try_except for_each logged print_step
       print_success print_warning print_error print_info print exists_
       is_dir stat_size glob app fst snd negb andb orb].

(** Replaces a call whose outcome [H] states by that outcome. *)
Ltac with_call H :=
  repeat first [ rewrite (bind_ok _ H) | rewrite (bind_raise _ H)
               | rewrite (try_ok _ H) | rewrite (try_raise _ H)
               | rewrite H ];
  run_prog.

(** Closes the leaves of a case analysis on what the host answers. *)
Ltac leaf :=
  cbn [fst snd]; repeat split; try reflexivity; try discriminate;
  try congruence.

(** ** The process executor *)

Section RunCommand.
Context {W : Type} {HW : Host W}.

Lemma run_command_completed (cmd : string) (check cap : bool) (w w' : W)
    (c : Completed) :
  subprocess_run cmd cap w = (inr c, w') ->
  run_command cmd check cap w =
    (Ok (if check && negb (returncode c =? 0)%Z
         then (false, "", CalledProcessError_str cmd (returncode c))
         else if cap then ((returncode c =? 0)%Z, stdout c, stderr c)
         else ((returncode c =? 0)%Z, "", "")),
     w', [Spawn cmd cap]).
Proof.
  intros H. unfold run_command, bind, subprocess, ret. rewrite H.
  destruct (check && negb (returncode c =? 0)%Z); [reflexivity|].
  destruct cap; reflexivity.
Qed.

Lemma run_command_not_started (cmd : string) (check cap : bool) (w w' : W)
    (e : exn) :
  subprocess_run cmd cap w = (inl e, w') ->
  run_command cmd check cap w = (Raise e, w', [Spawn cmd cap]).
Proof.
  intros H. unfold run_command, bind, subprocess. now rewrite H.
Qed.

(** A call with [check] set (the default) ends in one of three ways: the
    child could not be started and the error propagates; the child exited
    with status 0; or it exited otherwise, and then the call hands back an
    empty stdout and the text of the [CalledProcessError]. *)
Lemma run_command_checked (cmd : string) (cap : bool) (w : W) :
  exists w',
    (exists e, run_command cmd true cap w = (Raise e, w', [Spawn cmd cap]))
    \/ (exists out err,
          run_command cmd true cap w = (Ok (true, out, err), w', [Spawn cmd cap]))
    \/ (exists rc,
          run_command cmd true cap w =
            (Ok (false, "", CalledProcessError_str cmd rc), w', [Spawn cmd cap])).
Proof.
  destruct (subprocess_run cmd cap w) as [[e|c] w'] eqn:H; exists w'.
  - left. exists e. now apply run_command_not_started.
  - right. rewrite (run_command_completed cmd true cap w w' c H). simpl.
    destruct (returncode c =? 0)%Z; simpl.
    + left. destruct cap; eauto.
    + right. eauto.
Qed.

End RunCommand.

(** ** The build orchestrator never retries *)

Lemma Builder_build_cmd_clean (build_type : string) :
  clean "R8" (Builder.build_cmd build_type) = true
  /\ clean "minify" (PyStr.lower (Builder.build_cmd build_type)) = true.
Proof.
  unfold Builder.build_cmd.
  destruct (String.eqb build_type "release"); split; vm_compute; reflexivity.
Qed.

Lemma Runner_build_cmd_clean (build_type : string) :
  clean "R8" (Runner.build_cmd build_type) = true
  /\ clean "minify" (PyStr.lower (Runner.build_cmd build_type)) = true.
Proof.
  unfold Runner.build_cmd.
  destruct (String.eqb build_type "release"); split; vm_compute; reflexivity.
Qed.

(** What [run_command] hands back as stderr when a build fails never
    matches the test of line 273 (line 331 in the runner). *)
Lemma Builder_error_text (build_type : string) (rc : Z) :
  Builder.minify_marker
    (CalledProcessError_str (Builder.build_cmd build_type) rc) = false.
Proof.
  destruct (Builder_build_cmd_clean build_type).
  now apply error_text_no_marker.
Qed.

Lemma Runner_error_text (build_type : string) (rc : Z) :
  Runner.minify_marker
    (CalledProcessError_str (Runner.build_cmd build_type) rc) = false.
Proof.
  destruct (Runner_build_cmd_clean build_type).
  now apply error_text_no_marker.
Qed.

Section BuildOnce.
Context {W : Type} {HW : Host W}.

(** One level of depth is all [build_apk] ever uses: the result is the
    same for every positive [fuel]. *)
Lemma Builder_build_apk_once (fuel : nat) (build_type : string) (w : W) :
  Builder.build_apk (S fuel) build_type w = Builder.build_apk 1 build_type w.
Proof.
  unfold Builder.build_apk. cbn [Builder.build_apk_with]. run_prog.
  destruct (run_command_checked (Builder.build_cmd build_type) true w)
    as [w' [[e H]|[[out [err H]]|[rc H]]]]; with_call H.
  - reflexivity.
  - reflexivity.
  - rewrite Builder_error_text. reflexivity.
Qed.

Lemma Runner_build_apk_once (fuel : nat) (build_type : string) (w : W) :
  Runner.build_apk (S fuel) build_type w = Runner.build_apk 1 build_type w.
Proof.
  unfold Runner.build_apk. cbn [Runner.build_apk_with]. run_prog.
  destruct (run_command_checked (Runner.build_cmd build_type) true w)
    as [w' [[e H]|[[out [err H]]|[rc H]]]]; with_call H.
  - reflexivity.
  - reflexivity.
  - rewrite Runner_error_text. reflexivity.
Qed.

End BuildOnce.

(** Every run of [build_apk] with room for one call ends, and the build
    command is the one command it spawns: nothing is retried. *)
Theorem build_apk_runs_the_build_once :
  forall (W : Type) (HW : Host W) (fuel : nat) (build_type : string) (w : W),
    (fst (fst (Builder.build_apk (S fuel) build_type w)) <> Ok None
     /\ spawned (snd (Builder.build_apk (S fuel) build_type w))
        = [Builder.build_cmd build_type])
    /\ (fst (fst (Runner.build_apk (S fuel) build_type w)) <> Ok None
        /\ spawned (snd (Runner.build_apk (S fuel) build_type w))
           = [Runner.build_cmd build_type]).
Proof.
  intros W HW fuel build_type w.
  rewrite Builder_build_apk_once, Runner_build_apk_once. split.
  - unfold Builder.build_apk. cbn [Builder.build_apk_with]. run_prog.
    destruct (run_command_checked (Builder.build_cmd build_type) true w)
      as [w1 [[e H]|[[out [err H]]|[rc H]]]]; with_call H.
    + leaf.
    + destruct (path_exists (Builder.apk_path build_type) w1); run_prog; leaf.
    + rewrite Builder_error_text. run_prog. leaf.
  - unfold Runner.build_apk. cbn [Runner.build_apk_with]. run_prog.
    destruct (run_command_checked (Runner.build_cmd build_type) true w)
      as [w1 [[e H]|[[out [err H]]|[rc H]]]]; with_call H.
    + leaf.
    + destruct (path_exists (Runner.apk_path build_type) w1); run_prog; leaf.
    + rewrite Runner_error_text. run_prog.
      destruct (negb _); run_prog; leaf.
Qed.

(** The test of line 273 looks at the text only, not at [build_type]: over
    an executor that reports every build as failed with a text holding a
    marker, a debug build calls itself again at every depth and never
    comes to a result. *)
Remark build_apk_with_retry_ignores_variant :
  forall (W : Type) (HW : Host W)
         (exec : string -> bool -> bool -> M W (bool * string * string))
         (text : string),
    Builder.minify_marker text = true ->
    (forall cmd w, exec cmd true true w = (Ok (false, "", text), w, [])) ->
    forall (fuel : nat) (w : W),
      fst (fst (Builder.build_apk_with exec fuel "debug" w)) = Ok None.
Proof.
  intros W HW exec text Hm Hexec fuel.
  induction fuel as [|fuel IH]; intros w; [reflexivity|].
  cbn [Builder.build_apk_with]. run_prog.
  pose proof (Hexec (Builder.build_cmd "debug") w) as H. with_call H.
  rewrite Hm. run_prog.
  specialize (IH w).
  destruct (Builder.build_apk_with exec fuel "debug" w) as [[r w'] l].
  cbn [fst snd logged] in *. exact IH.
Qed.

(** What the retry branch does once it is entered: over an executor that
    reports the release build as failed with a text holding a marker and
    the debug build as successful, [build_apk("release")] returns success
    with the debug artifact, in both scripts. *)
Remark build_apk_with_fallback_returns_debug_artifact :
  forall (W : Type) (HW : Host W)
         (exec : string -> bool -> bool -> M W (bool * string * string))
         (fuel : nat) (text o1 o2 e2 : string) (w w1 w2 : W)
         (l1 l2 : list event),
    Builder.minify_marker text = true ->
    path_exists (Builder.apk_path "debug") w2 = true ->
    (exec (Builder.build_cmd "release") true true w = (Ok (false, o1, text), w1, l1) ->
     exec (Builder.build_cmd "debug") true true w1 = (Ok (true, o2, e2), w2, l2) ->
     fst (fst (Builder.build_apk_with exec (S (S fuel)) "release" w))
     = Ok (Some (true, Some (Builder.apk_path "debug"))))
    /\ (exec (Runner.build_cmd "release") true true w = (Ok (false, o1, text), w1, l1) ->
        exec (Runner.build_cmd "debug") true true w1 = (Ok (true, o2, e2), w2, l2) ->
        fst (fst (Runner.build_apk_with exec (S (S fuel)) "release" w))
        = Ok (Some (true, Some (Runner.apk_path "debug")))).
Proof.
  intros W HW exec fuel text o1 o2 e2 w w1 w2 l1 l2 Hm Hex. split.
  - intros H1 H2. cbn [Builder.build_apk_with]. run_prog.
    with_call H1. rewrite Hm. run_prog. with_call H2.
    rewrite Hex. run_prog. reflexivity.
  - intros H1 H2. cbn [Runner.build_apk_with]. run_prog.
    with_call H1. change (Runner.minify_marker text) with (Builder.minify_marker text).
    rewrite Hm. run_prog. with_call H2.
    change (Runner.apk_path "debug") with (Builder.apk_path "debug").
    rewrite Hex. run_prog. reflexivity.
Qed.

(** ** C5: what [run_command] hands back when the child fails *)

(** C5.  Evaluation at the failing input: a command run with the default
    [check] and with output captured, whose child writes
    ["Doctor summary"] to stdout and ["fatal: cannot find the SDK"] to
    stderr and exits with status 1.  The caller receives [False], an empty
    stdout and the text of the [CalledProcessError] in place of the
    child's stderr; the failure is a result, nothing is raised. *)
Theorem run_command_drops_child_stderr :
  Sim.proc world_tool_fails "flutter doctor"
    = mkCompleted 1 "Doctor summary" "fatal: cannot find the SDK"
  /\ fst (fst (run_command "flutter doctor" true true world_tool_fails))
     = Ok (false, "", "Command 'flutter doctor' returned non-zero exit status 1.")
  /\ snd (run_command "flutter doctor" true true world_tool_fails)
     = [Spawn "flutter doctor" true].
Proof. repeat split. Qed.

(** ** C1 and C10: the fallback of [build_apk] *)

(** C1.  Evaluation at the failing input: a release build whose child
    fails with the R8 marker on its stderr, in a world where the debug
    build fails too.  [build_apk] returns the failure after spawning the
    release build alone: no fallback attempt is made, for any depth of
    recursion allowed. *)
Theorem build_apk_release_marker_no_fallback : forall fuel : nat,
  Builder.minify_marker
    (stderr (Sim.proc world_release_and_debug_fail (Builder.build_cmd "release")))
    = true
  /\ fst (fst (Builder.build_apk (S fuel) "release" world_release_and_debug_fail))
     = Ok (Some (false, None))
  /\ spawned (snd (Builder.build_apk (S fuel) "release" world_release_and_debug_fail))
     = [Builder.build_cmd "release"].
Proof.
  intros fuel. rewrite Builder_build_apk_once. repeat split.
Qed.

(** C10.  Evaluation at the failing input, in both scripts: a release
    build whose child fails with the minification marker on its stderr, in
    a world where the debug build succeeds and its artifact exists.
    [build_apk] returns failure with no artifact path, and the debug build
    is never spawned. *)
Theorem build_apk_release_marker_no_debug_artifact : forall fuel : nat,
  Builder.minify_marker
    (stderr (Sim.proc world_release_fails_debug_builds (Builder.build_cmd "release")))
    = true
  /\ returncode (Sim.proc world_release_fails_debug_builds (Builder.build_cmd "debug"))
     = 0%Z
  /\ path_exists (Builder.apk_path "debug") world_release_fails_debug_builds = true
  /\ fst (fst (Builder.build_apk (S fuel) "release" world_release_fails_debug_builds))
     = Ok (Some (false, None))
  /\ spawned (snd (Builder.build_apk (S fuel) "release" world_release_fails_debug_builds))
     = [Builder.build_cmd "release"]
  /\ fst (fst (Runner.build_apk (S fuel) "release" world_release_fails_debug_builds))
     = Ok (Some (false, None))
  /\ spawned (snd (Runner.build_apk (S fuel) "release" world_release_fails_debug_builds))
     = [Runner.build_cmd "release"].
Proof.
  intros fuel. rewrite Builder_build_apk_once, Runner_build_apk_once.
  repeat split.
Qed.

(** ** C6: the artifact-presence gate *)

Section ArtifactGate.
Context {W : Type} {HW : Host W}.

Lemma Builder_build_tool_ok_artifact_missing (fuel : nat) (build_type : string)
    (w w1 : W) (c : Completed) :
  subprocess_run (Builder.build_cmd build_type) true w = (inr c, w1) ->
  returncode c = 0%Z ->
  path_exists (Builder.apk_path build_type) w1 = false ->
  Builder.build_apk (S fuel) build_type w =
    (Ok (Some (false, None)), w1,
     [ Say ChStep ("Building " ++ PyStr.upper build_type ++ " APK");
       Say ChPlain "This may take a few minutes...";
       Spawn (Builder.build_cmd build_type) true;
       Say ChError "APK file not found after build" ]).
Proof.
  intros Hrun Hrc Hmiss.
  pose proof (run_command_completed _ true true _ _ _ Hrun) as H.
  rewrite Hrc in H. cbn [Z.eqb negb andb] in H.
  unfold Builder.build_apk. cbn [Builder.build_apk_with]. run_prog.
  with_call H. rewrite Hmiss. reflexivity.
Qed.

Lemma Runner_build_tool_ok_artifact_missing (fuel : nat) (build_type : string)
    (w w1 : W) (c : Completed) :
  subprocess_run (Runner.build_cmd build_type) true w = (inr c, w1) ->
  returncode c = 0%Z ->
  path_exists (Runner.apk_path build_type) w1 = false ->
  Runner.build_apk (S fuel) build_type w =
    (Ok (Some (false, None)), w1,
     [ Say ChStep ("Building " ++ PyStr.upper build_type ++ " APK");
       Say ChInfo "Building APK (this may take several minutes)...";
       Spawn (Runner.build_cmd build_type) true;
       Say ChError "APK file not found after build" ]).
Proof.
  intros Hrun Hrc Hmiss.
  pose proof (run_command_completed _ true true _ _ _ Hrun) as H.
  rewrite Hrc in H. cbn [Z.eqb negb andb] in H.
  unfold Runner.build_apk. cbn [Runner.build_apk_with]. run_prog.
  with_call H. rewrite Hmiss. reflexivity.
Qed.

Lemma Builder_build_success_has_artifact (fuel : nat) (build_type : string)
    (w w' : W) (p : option string) (l : list event) :
  Builder.build_apk fuel build_type w = (Ok (Some (true, p)), w', l) ->
  p = Some (Builder.apk_path build_type)
  /\ path_exists (Builder.apk_path build_type) w' = true
  /\ In (PrintSize (st_size (Builder.apk_path build_type) w')) l.
Proof.
  destruct fuel as [|fuel]; [discriminate|].
  rewrite Builder_build_apk_once.
  unfold Builder.build_apk. cbn [Builder.build_apk_with]. run_prog.
  destruct (run_command_checked (Builder.build_cmd build_type) true w)
    as [w1 [[e H]|[[out [err H]]|[rc H]]]]; with_call H.
  - discriminate.
  - destruct (path_exists (Builder.apk_path build_type) w1) eqn:Hex; run_prog.
    + intros [= <- <- <-]. repeat split; [exact Hex|]. simpl. tauto.
    + discriminate.
  - rewrite Builder_error_text. run_prog. discriminate.
Qed.

Lemma Runner_build_success_has_artifact (fuel : nat) (build_type : string)
    (w w' : W) (p : option string) (l : list event) :
  Runner.build_apk fuel build_type w = (Ok (Some (true, p)), w', l) ->
  p = Some (Runner.apk_path build_type)
  /\ path_exists (Runner.apk_path build_type) w' = true
  /\ In (PrintSize (st_size (Runner.apk_path build_type) w')) l.
Proof.
  destruct fuel as [|fuel]; [discriminate|].
  rewrite Runner_build_apk_once.
  unfold Runner.build_apk. cbn [Runner.build_apk_with]. run_prog.
  destruct (run_command_checked (Runner.build_cmd build_type) true w)
    as [w1 [[e H]|[[out [err H]]|[rc H]]]]; with_call H.
  - discriminate.
  - destruct (path_exists (Runner.apk_path build_type) w1) eqn:Hex; run_prog.
    + intros [= <- <- <-]. repeat split; [exact Hex|]. simpl. tauto.
    + discriminate.
  - rewrite Runner_error_text. run_prog.
    destruct (negb _); run_prog; discriminate.
Qed.

End ArtifactGate.

(** C6.  In both scripts: when the build tool exits with status 0 and the
    variant-named artifact does not exist, [build_apk] returns
    [(False, None)]; and whenever [build_apk] returns success, its path is
    the variant-named artifact, that file exists, and its size has been
    printed. *)
Theorem build_apk_artifact_gate :
  forall (W : Type) (HW : Host W) (fuel : nat) (build_type : string) (w : W),
    (forall (c : Completed) (w1 : W),
        subprocess_run (Builder.build_cmd build_type) true w = (inr c, w1) ->
        returncode c = 0%Z ->
        path_exists (Builder.apk_path build_type) w1 = false ->
        fst (fst (Builder.build_apk (S fuel) build_type w))
          = Ok (Some (false, None)))
    /\ (forall (p : option string) (w' : W) (l : list event),
           Builder.build_apk fuel build_type w = (Ok (Some (true, p)), w', l) ->
           p = Some (Builder.apk_path build_type)
           /\ path_exists (Builder.apk_path build_type) w' = true
           /\ In (PrintSize (st_size (Builder.apk_path build_type) w')) l)
    /\ (forall (c : Completed) (w1 : W),
           subprocess_run (Runner.build_cmd build_type) true w = (inr c, w1) ->
           returncode c = 0%Z ->
           path_exists (Runner.apk_path build_type) w1 = false ->
           fst (fst (Runner.build_apk (S fuel) build_type w))
             = Ok (Some (false, None)))
    /\ (forall (p : option string) (w' : W) (l : list event),
           Runner.build_apk fuel build_type w = (Ok (Some (true, p)), w', l) ->
           p = Some (Runner.apk_path build_type)
           /\ path_exists (Runner.apk_path build_type) w' = true
           /\ In (PrintSize (st_size (Runner.apk_path build_type) w')) l).
Proof.
  intros W HW fuel build_type w. repeat split.
  - intros c w1 H1 H2 H3.
    now rewrite (Builder_build_tool_ok_artifact_missing fuel _ _ _ _ H1 H2 H3).
  - eapply Builder_build_success_has_artifact; eassumption.
  - eapply Builder_build_success_has_artifact; eassumption.
  - eapply Builder_build_success_has_artifact; eassumption.
  - intros c w1 H1 H2 H3.
    now rewrite (Runner_build_tool_ok_artifact_missing fuel _ _ _ _ H1 H2 H3).
  - eapply Runner_build_success_has_artifact; eassumption.
  - eapply Runner_build_success_has_artifact; eassumption.
  - eapply Runner_build_success_has_artifact; eassumption.
Qed.

Lemma build_apk_artifact_gate_witness :
  (fst (fst (Builder.build_apk 1 "debug" world_build_without_artifact))
     = Ok (Some (false, None))
   /\ fst (fst (Runner.build_apk 1 "debug" world_build_without_artifact))
      = Ok (Some (false, None)))
  /\ (fst (fst (Builder.build_apk 1 "debug" world_build_with_artifact))
        = Ok (Some (true, Some (Builder.apk_path "debug")))
      /\ In (PrintSize 5242880)
            (snd (Builder.build_apk 1 "debug" world_build_with_artifact))
      /\ In (PrintSize 5242880)
            (snd (Runner.build_apk 1 "debug" world_build_with_artifact))).
Proof.
  split.
  - destruct (build_apk_artifact_gate Sim.world Sim.host 0 "debug"
                world_build_without_artifact) as [B [_ [R _]]].
    split.
    + apply (B Sim.quiet world_build_without_artifact); reflexivity.
    + apply (R Sim.quiet world_build_without_artifact); reflexivity.
  - destruct (build_apk_artifact_gate Sim.world Sim.host 1 "debug"
                world_build_with_artifact) as [_ [B [_ R]]].
    split; [reflexivity|]. split.
    + edestruct B as [_ [_ Hin]]; [reflexivity|exact Hin].
    + edestruct R as [_ [_ Hin]]; [reflexivity|exact Hin].
Defined.

(** ** C7: the step pipeline *)

Section Pipeline.
Context {W : Type} {HW : Host W}.

Lemma Builder_step_pass (name : string) (f : M W bool)
    (rest : list (string * M W bool)) (w w1 : W) (l1 : list event) :
  f w = (Ok true, w1, l1) ->
  Builder.run_steps ((name, f) :: rest) w = logged l1 (Builder.run_steps rest w1).
Proof.
  intros H. cbn [Builder.run_steps]. unfold bind at 1, try_except, bind at 1.
  rewrite H. cbn. now rewrite app_nil_r.
Qed.

Lemma Builder_step_stop (name : string) (f : M W bool)
    (rest : list (string * M W bool)) (w w1 : W) (l1 : list event)
    (r : result bool) :
  f w = (r, w1, l1) -> r <> Ok true ->
  Builder.run_steps ((name, f) :: rest) w =
    (Ok false, w1,
     l1 ++ [Say ChError
              match r with
              | Ok _ => "Failed at step: " ++ name
              | Raise e => "Exception in " ++ name ++ ": " ++ exn_str e
              end])%list.
Proof.
  intros H Hr. cbn [Builder.run_steps]. unfold bind at 1, try_except, bind at 1.
  rewrite H. destruct r as [[|]|e]; [congruence| |]; cbn; now rewrite app_nil_r.
Qed.

Lemma Runner_step_pass (name : string) (f : M W bool)
    (rest : list (string * M W bool)) (w w1 : W) (l1 : list event) :
  f w = (Ok true, w1, l1) ->
  Runner.run_steps ((name, f) :: rest) w = logged l1 (Runner.run_steps rest w1).
Proof.
  intros H. cbn [Runner.run_steps]. unfold bind at 1, try_except, bind at 1.
  rewrite H. cbn. now rewrite app_nil_r.
Qed.

Lemma Runner_step_stop (name : string) (f : M W bool)
    (rest : list (string * M W bool)) (w w1 : W) (l1 : list event)
    (r : result bool) :
  f w = (r, w1, l1) -> r <> Ok true ->
  Runner.run_steps ((name, f) :: rest) w =
    (Ok false, w1,
     l1 ++ [Say ChError
              match r with
              | Ok _ => "Setup failed at: " ++ name
              | Raise e => "Exception in " ++ name ++ ": " ++ exn_str e
              end])%list.
Proof.
  intros H Hr. cbn [Runner.run_steps]. unfold bind at 1, try_except, bind at 1.
  rewrite H. destruct r as [[|]|e]; [congruence| |]; cbn; now rewrite app_nil_r.
Qed.

(** The steps that pass are run one after the other, each from the state
    its predecessor left. *)
Lemma Builder_steps_pass (pre rest : list (string * M W bool)) (w w1 : W)
    (l1 : list event) :
  all_pass pre w = Some (w1, l1) ->
  Builder.run_steps (pre ++ rest) w = logged l1 (Builder.run_steps rest w1).
Proof.
  revert w l1. induction pre as [|[name f] pre IH]; intros w l1.
  - intros [= <- <-]. now rewrite logged_nil.
  - cbn [all_pass app].
    destruct (f w) as [[[[|]|e] wa] la] eqn:Hf; try discriminate.
    destruct (all_pass pre wa) as [[wb lb]|] eqn:Hp; [|discriminate].
    intros [= <- <-].
    rewrite (Builder_step_pass name f _ w wa la Hf), (IH _ _ Hp).
    apply logged_logged.
Qed.

Lemma Runner_steps_pass (pre rest : list (string * M W bool)) (w w1 : W)
    (l1 : list event) :
  all_pass pre w = Some (w1, l1) ->
  Runner.run_steps (pre ++ rest) w = logged l1 (Runner.run_steps rest w1).
Proof.
  revert w l1. induction pre as [|[name f] pre IH]; intros w l1.
  - intros [= <- <-]. now rewrite logged_nil.
  - cbn [all_pass app].
    destruct (f w) as [[[[|]|e] wa] la] eqn:Hf; try discriminate.
    destruct (all_pass pre wa) as [[wb lb]|] eqn:Hp; [|discriminate].
    intros [= <- <-].
    rewrite (Runner_step_pass name f _ w wa la Hf), (IH _ _ Hp).
    apply logged_logged.
Qed.

(** When every step passes, the loop ends with [True] after running them
    all in order. *)
Lemma Builder_run_steps_all_pass (steps : list (string * M W bool)) (w w1 : W)
    (l1 : list event) :
  all_pass steps w = Some (w1, l1) ->
  Builder.run_steps steps w = (Ok true, w1, l1).
Proof.
  intros H. rewrite <- (app_nil_r steps).
  rewrite (Builder_steps_pass steps [] w w1 l1 H).
  cbn [Builder.run_steps ret logged]. now rewrite app_nil_r.
Qed.

Lemma Runner_run_steps_all_pass (steps : list (string * M W bool)) (w w1 : W)
    (l1 : list event) :
  all_pass steps w = Some (w1, l1) ->
  Runner.run_steps steps w = (Ok true, w1, l1).
Proof.
  intros H. rewrite <- (app_nil_r steps).
  rewrite (Runner_steps_pass steps [] w w1 l1 H).
  cbn [Runner.run_steps ret logged]. now rewrite app_nil_r.
Qed.

(** The loop ends at the first step that does not return [True]. *)
Lemma Builder_run_steps_stop (pre post : list (string * M W bool))
    (name : string) (act : M W bool) (w w1 w2 : W) (l1 l2 : list event)
    (r : result bool) :
  all_pass pre w = Some (w1, l1) ->
  act w1 = (r, w2, l2) ->
  r <> Ok true ->
  Builder.run_steps (pre ++ (name, act) :: post) w =
    (Ok false, w2,
     l1 ++ l2 ++ [Say ChError
                    match r with
                    | Ok _ => "Failed at step: " ++ name
                    | Raise e => "Exception in " ++ name ++ ": " ++ exn_str e
                    end])%list.
Proof.
  intros Hpre Hact Hr.
  rewrite (Builder_steps_pass pre _ w w1 l1 Hpre).
  rewrite (Builder_step_stop name act post w1 w2 l2 r Hact Hr). reflexivity.
Qed.

Lemma Runner_run_steps_stop (pre post : list (string * M W bool))
    (name : string) (act : M W bool) (w w1 w2 : W) (l1 l2 : list event)
    (r : result bool) :
  all_pass pre w = Some (w1, l1) ->
  act w1 = (r, w2, l2) ->
  r <> Ok true ->
  Runner.run_steps (pre ++ (name, act) :: post) w =
    (Ok false, w2,
     l1 ++ l2 ++ [Say ChError
                    match r with
                    | Ok _ => "Setup failed at: " ++ name
                    | Raise e => "Exception in " ++ name ++ ": " ++ exn_str e
                    end])%list.
Proof.
  intros Hpre Hact Hr.
  rewrite (Runner_steps_pass pre _ w w1 l1 Hpre).
  rewrite (Runner_step_stop name act post w1 w2 l2 r Hact Hr). reflexivity.
Qed.

Lemma Builder_run_stop (pre post : list (string * M W bool))
    (name : string) (act : M W bool) (w w1 w2 : W) (l1 l2 : list event)
    (r : result bool) (fuel : nat) (build_type : string) (skip_clean : bool) :
  Builder.steps skip_clean = (pre ++ (name, act) :: post)%list ->
  all_pass pre w = Some (w1, l1) ->
  act w1 = (r, w2, l2) ->
  r <> Ok true ->
  Builder.run fuel build_type skip_clean w =
    (Ok (Some false), w2,
     Banner "Flutter APK Automated Build Script"
     :: l1 ++ l2 ++ [Say ChError
                       match r with
                       | Ok _ => "Failed at step: " ++ name
                       | Raise e => "Exception in " ++ name ++ ": " ++ exn_str e
                       end])%list.
Proof.
  intros Hs Hpre Hact Hr.
  pose proof (Builder_run_steps_stop pre post name act w w1 w2 l1 l2 r Hpre Hact Hr) as H.
  unfold Builder.run. run_prog. rewrite Hs. with_call H.
  now rewrite app_nil_r.
Qed.

Lemma Runner_run_setup_stop (pre post : list (string * M W bool))
    (name : string) (act : M W bool) (w w1 w2 : W) (l1 l2 : list event)
    (r : result bool) :
  Runner.steps = (pre ++ (name, act) :: post)%list ->
  all_pass pre w = Some (w1, l1) ->
  act w1 = (r, w2, l2) ->
  r <> Ok true ->
  Runner.run_setup w =
    (Ok false, w2,
     Banner "FinSight App - Complete Runner & Builder"
     :: l1 ++ l2 ++ [Say ChError
                       match r with
                       | Ok _ => "Setup failed at: " ++ name
                       | Raise e => "Exception in " ++ name ++ ": " ++ exn_str e
                       end])%list.
Proof.
  intros Hs Hpre Hact Hr.
  pose proof (Runner_run_steps_stop pre post name act w w1 w2 l1 l2 r Hpre Hact Hr) as H.
  unfold Runner.run_setup. run_prog. rewrite Hs. with_call H.
  now rewrite app_nil_r.
Qed.

End Pipeline.

(** C7.  The steps of a pipeline run in order, each from the state its
    predecessor left ([all_pass]).  At the first step that does not return
    [True], be it by returning [False] or by raising, the loop ends with
    [False], its last event is the error message that names the step, and
    the outcome does not depend on the steps after it: none of them is
    run.  An exception of the step is turned into that [False] and does
    not leave the pipeline.  The same holds of [run] and [run_setup],
    which run their fixed lists of steps through the loop. *)
Theorem pipeline_fail_fast :
  forall (W : Type) (HW : Host W) (pre post : list (string * M W bool))
         (name : string) (act : M W bool) (w w1 w2 : W)
         (l1 l2 : list event) (r : result bool),
    all_pass pre w = Some (w1, l1) ->
    act w1 = (r, w2, l2) ->
    r <> Ok true ->
    Builder.run_steps (pre ++ (name, act) :: post) w =
      (Ok false, w2,
       l1 ++ l2 ++ [Say ChError
                      match r with
                      | Ok _ => "Failed at step: " ++ name
                      | Raise e => "Exception in " ++ name ++ ": " ++ exn_str e
                      end])%list
    /\ Runner.run_steps (pre ++ (name, act) :: post) w =
         (Ok false, w2,
          l1 ++ l2 ++ [Say ChError
                         match r with
                         | Ok _ => "Setup failed at: " ++ name
                         | Raise e => "Exception in " ++ name ++ ": " ++ exn_str e
                         end])%list
    /\ (forall (fuel : nat) (build_type : string) (skip_clean : bool),
           Builder.steps skip_clean = (pre ++ (name, act) :: post)%list ->
           Builder.run fuel build_type skip_clean w =
             (Ok (Some false), w2,
              Banner "Flutter APK Automated Build Script"
              :: l1 ++ l2 ++ [Say ChError
                      match r with
                      | Ok _ => "Failed at step: " ++ name
                      | Raise e => "Exception in " ++ name ++ ": " ++ exn_str e
                      end])%list)
    /\ (Runner.steps = (pre ++ (name, act) :: post)%list ->
        Runner.run_setup w =
          (Ok false, w2,
           Banner "FinSight App - Complete Runner & Builder"
           :: l1 ++ l2 ++ [Say ChError
                      match r with
                      | Ok _ => "Setup failed at: " ++ name
                      | Raise e => "Exception in " ++ name ++ ": " ++ exn_str e
                      end])%list).
Proof.
  intros W HW pre post name act w w1 w2 l1 l2 r Hpre Hact Hr.
  repeat split.
  - eapply Builder_run_steps_stop; eassumption.
  - eapply Runner_run_steps_stop; eassumption.
  - intros fuel build_type skip_clean Hs.
    eapply Builder_run_stop; eassumption.
  - intros Hs. eapply Runner_run_setup_stop; eassumption.
Qed.

Lemma pipeline_fail_fast_witness :
  fst (fst (Runner.run_setup world_clone_fails)) = Ok false
  /\ errors (snd (Runner.run_setup world_clone_fails))
     = [ "Failed to clone Flutter repository";
         "Setup failed at: Setting up Flutter" ]
  /\ spawned (snd (Runner.run_setup world_clone_fails))
     = [ Runner.java_version_cmd; Runner.flutter_clone_cmd ].
Proof.
  edestruct (pipeline_fail_fast Sim.world Sim.host
               [("Checking Java", Runner.check_java)]
               (skipn 2 Runner.steps)
               "Setting up Flutter" Runner.setup_flutter world_clone_fails)
    as [_ [_ [_ HR]]].
  - reflexivity.
  - reflexivity.
  - discriminate.
  - rewrite (HR eq_refl). repeat split.
Defined.

(** ** C2: a failed installation of the SDK packages *)

Section InstallFailure.
Context {W : Type} {HW : Host W}.

Lemma Runner_install_fails (w1 wl w2 : W) (cl c : Completed) :
  subprocess_run Runner.license_cmd false w1 = (inr cl, wl) ->
  subprocess_run Runner.install_cmd false wl = (inr c, w2) ->
  returncode c <> 0%Z ->
  Runner.install_sdk_components w1 =
    (Ok false, w2,
     [ Say ChStep "Installing Android SDK Components";
       Say ChInfo "Accepting SDK licenses...";
       Spawn Runner.license_cmd false;
       Say ChInfo "Installing SDK components...";
       Spawn Runner.install_cmd false;
       Say ChError "Failed to install some SDK components" ]).
Proof.
  intros Hl Hi Hrc.
  pose proof (run_command_completed _ true false _ _ _ Hl) as H1.
  pose proof (run_command_completed _ true false _ _ _ Hi) as H2.
  apply Z.eqb_neq in Hrc. rewrite Hrc in H2. cbn [negb andb] in H2.
  unfold Runner.install_sdk_components. run_prog.
  with_call H1. with_call H2. reflexivity.
Qed.

Lemma Builder_install_fails (w1 wl w2 : W) (cl c : Completed) :
  subprocess_run Builder.license_cmd false w1 = (inr cl, wl) ->
  subprocess_run Builder.install_cmd false wl = (inr c, w2) ->
  returncode c <> 0%Z ->
  Builder.install_sdk_components w1 =
    (Ok false, w2,
     [ Say ChStep "Installing Android SDK Components";
       Say ChPlain "Accepting SDK licenses...";
       Spawn Builder.license_cmd false;
       Say ChPlain ("Installing components: "
                    ++ PyStr.join ", " sdk_components);
       Spawn Builder.install_cmd false;
       Say ChError "Failed to install some SDK components" ]).
Proof.
  intros Hl Hi Hrc.
  pose proof (run_command_completed _ true false _ _ _ Hl) as H1.
  pose proof (run_command_completed _ true false _ _ _ Hi) as H2.
  apply Z.eqb_neq in Hrc. rewrite Hrc in H2. cbn [negb andb] in H2.
  unfold Builder.install_sdk_components. run_prog.
  with_call H1. with_call H2. reflexivity.
Qed.

End InstallFailure.

(** C2, as the code has it.  When the batched installation of the SDK
    packages exits with a non-zero status, [install_sdk_components] prints
    the failure and returns [False]; [run_setup] and [run], whose first
    three steps passed, then stop at that step: they return [False], their
    last event is the error message naming the step
    "Installing SDK components", and no later step is run. *)
Theorem install_failure_stops_pipeline :
  forall (W : Type) (HW : Host W) (w w1 wl w2 : W) (cl c : Completed),
    subprocess_run Runner.license_cmd false w1 = (inr cl, wl) ->
    subprocess_run Runner.install_cmd false wl = (inr c, w2) ->
    returncode c <> 0%Z ->
    fst (fst (Runner.install_sdk_components w1)) = Ok false
    /\ fst (fst (Builder.install_sdk_components w1)) = Ok false
    /\ (forall l1 : list event,
        all_pass (firstn 3 Runner.steps) w = Some (w1, l1) ->
        Runner.run_setup w =
          (Ok false, w2,
           Banner "FinSight App - Complete Runner & Builder"
           :: l1 ++ snd (Runner.install_sdk_components w1)
              ++ [Say ChError "Setup failed at: Installing SDK components"])%list)
    /\ (forall (fuel : nat) (build_type : string) (skip_clean : bool)
                (l1 : list event),
           all_pass (firstn 3 (Builder.steps skip_clean)) w = Some (w1, l1) ->
           Builder.run fuel build_type skip_clean w =
             (Ok (Some false), w2,
              Banner "Flutter APK Automated Build Script"
              :: l1 ++ snd (Builder.install_sdk_components w1)
                 ++ [Say ChError "Failed at step: Installing SDK components"])%list).
Proof.
  intros W HW w w1 wl w2 cl c Hl Hi Hrc.
  pose proof (Runner_install_fails w1 wl w2 cl c Hl Hi Hrc) as HR.
  pose proof (Builder_install_fails w1 wl w2 cl c Hl Hi Hrc) as HB.
  repeat split.
  - now rewrite HR.
  - now rewrite HB.
  - intros l1 Hpre. rewrite HR at 1. cbn [snd].
    apply (Runner_run_setup_stop (firstn 3 Runner.steps) (skipn 4 Runner.steps)
             "Installing SDK components" Runner.install_sdk_components
             w w1 w2 l1 _ (Ok false) eq_refl Hpre HR).
    discriminate.
  - intros fuel build_type skip_clean l1 Hpre. rewrite HB at 1. cbn [snd].
    apply (Builder_run_stop (firstn 3 (Builder.steps skip_clean))
             (skipn 4 (Builder.steps skip_clean))
             "Installing SDK components" Builder.install_sdk_components
             w w1 w2 l1 _ (Ok false) fuel build_type skip_clean
             eq_refl Hpre HB).
    discriminate.
Qed.

Lemma install_failure_stops_pipeline_witness :
  fst (fst (Runner.run_setup world_install_fails)) = Ok false
  /\ errors (snd (Runner.run_setup world_install_fails))
     = [ "Failed to install some SDK components";
         "Setup failed at: Installing SDK components" ]
  /\ fst (fst (Builder.run 1 "debug" false world_install_fails)) = Ok (Some false)
  /\ errors (snd (Builder.run 1 "debug" false world_install_fails))
     = [ "Failed to install some SDK components";
         "Failed at step: Installing SDK components" ].
Proof.
  edestruct (install_failure_stops_pipeline Sim.world Sim.host
               world_install_fails world_install_fails world_install_fails
               world_install_fails)
    as [_ [_ [HR HB]]].
  - reflexivity.
  - reflexivity.
  - discriminate.
  - split; [|split; [|split]].
    + rewrite (HR _ eq_refl); reflexivity.
    + rewrite (HR _ eq_refl); reflexivity.
    + rewrite (HB 1 "debug" false _ eq_refl); reflexivity.
    + rewrite (HB 1 "debug" false _ eq_refl); reflexivity.
Defined.

(** C2, the claim refuted: in a world where everything is installed and
    works but the batched installation exits with status 1, [run_setup]
    and [run] return [False], and the step after the installation
    (configuring Flutter) is never started: the pipeline does not
    continue past the failure. *)
Lemma install_failure_is_not_soft :
  returncode (Sim.proc world_install_fails Runner.install_cmd) = 1%Z
  /\ fst (fst (Runner.run_setup world_install_fails)) = Ok false
  /\ ~ In Runner.configure_cmd
         (spawned (snd (Runner.run_setup world_install_fails)))
  /\ fst (fst (Builder.run 1 "debug" false world_install_fails)) = Ok (Some false)
  /\ ~ In Builder.configure_cmd
         (spawned (snd (Builder.run 1 "debug" false world_install_fails))).
Proof.
  repeat split; try reflexivity.
  - vm_compute. intuition discriminate.
  - vm_compute. intuition discriminate.
Qed.

(** ** C8: operations gated on a device *)

Section Devices.
Context {W : Type} {HW : Host W}.

Lemma for_each_print (f : string -> string) (ds : list string) (w : W) :
  for_each ds (fun d => print (f d)) w
  = (Ok tt, w, map (fun d => Say ChPlain (f d)) ds).
Proof.
  induction ds as [|d ds IH]; [reflexivity|].
  cbn [for_each map]. run_prog. rewrite IH. reflexivity.
Qed.

Lemma spawned_prints (f : string -> string) (ds : list string) :
  spawned (map (fun d => Say ChPlain (f d)) ds) = [].
Proof. induction ds; simpl; auto. Qed.

Lemma spawned_app (l1 l2 : list event) :
  spawned (l1 ++ l2) = (spawned l1 ++ spawned l2)%list.
Proof.
  induction l1 as [|[] l1 IH]; simpl; auto. now rewrite IH.
Qed.

(** Listing the devices spawns one command, [adb devices -l]. *)
Lemma check_devices_spawned (w : W) :
  spawned (snd (Runner.check_connected_devices w)) = [Runner.adb_devices_cmd].
Proof.
  unfold Runner.check_connected_devices. run_prog.
  destruct (run_command_checked Runner.adb_devices_cmd true w)
    as [w1 [[e H]|[[out [err H]]|[rc H]]]]; with_call H; try reflexivity.
  destruct (negb (out =? "")); run_prog; [|reflexivity].
  destruct (Runner.device_lines out) as [|d ds] eqn:Hd; run_prog; [reflexivity|].
  pose proof (for_each_print (fun d => "   " ++ d) (d :: ds) w1) as Hf.
  cbn [for_each] in Hf. with_call Hf. cbn [snd spawned].
  apply f_equal. rewrite spawned_app, spawned_prints. reflexivity.
Qed.

(** A listing that completed and shows no device line reports no device. *)
Lemma check_devices_none (w w1 : W) (c : Completed) :
  subprocess_run Runner.adb_devices_cmd true w = (inr c, w1) ->
  Runner.device_lines (stdout c) = [] ->
  exists l, Runner.check_connected_devices w = (Ok (false, 0), w1, l)
            /\ errors l = [].
Proof.
  intros Hrun Hnone.
  pose proof (run_command_completed _ true true _ _ _ Hrun) as H.
  unfold Runner.check_connected_devices. run_prog. with_call H.
  destruct (returncode c =? 0)%Z; cbn [negb andb]; run_prog.
  - destruct (negb (stdout c =? "")); run_prog.
    + rewrite Hnone. run_prog. eexists; split; reflexivity.
    + eexists; split; reflexivity.
  - eexists; split; reflexivity.
Qed.

Lemma install_apk_no_device (apk_path : string) (w w1 : W) (n : nat)
    (l1 : list event) :
  Runner.check_connected_devices w = (Ok (false, n), w1, l1) ->
  Runner.install_apk apk_path w =
    (Ok false, w1,
     Say ChStep "Installing APK on Device"
     :: l1 ++ [Say ChError "No device connected for installation"])%list.
Proof.
  intros H. unfold Runner.install_apk. run_prog. with_call H. reflexivity.
Qed.

Lemma run_app_no_device (w w1 : W) (n : nat) (l1 : list event) :
  Runner.check_connected_devices w = (Ok (false, n), w1, l1) ->
  Runner.run_app w =
    (Ok false, w1,
     Say ChStep "Running App on Device"
     :: l1 ++ [ Say ChError "No devices connected. Cannot run app.";
                Say ChInfo (PyStr.nl ++ "Alternatives:");
                Say ChInfo "  1. Connect a device and try again";
                Say ChInfo "  2. Build an APK and install manually" ])%list.
Proof.
  intros H. unfold Runner.run_app. run_prog. with_call H. reflexivity.
Qed.

Lemma install_apk_with_device (apk_path : string) (w w1 w2 : W) (n : nat)
    (l1 : list event) (c : Completed) :
  Runner.check_connected_devices w = (Ok (true, n), w1, l1) ->
  subprocess_run (Runner.adb_install_cmd apk_path) true w1 = (inr c, w2) ->
  fst (fst (Runner.install_apk apk_path w)) = Ok (returncode c =? 0)%Z
  /\ spawned (snd (Runner.install_apk apk_path w))
     = [Runner.adb_devices_cmd; Runner.adb_install_cmd apk_path].
Proof.
  intros H Hrun.
  pose proof (check_devices_spawned w) as Hs. rewrite H in Hs. cbn [snd] in Hs.
  pose proof (run_command_completed _ true true _ _ _ Hrun) as H2.
  unfold Runner.install_apk. run_prog. with_call H. with_call H2.
  destruct (returncode c =? 0)%Z; cbn [negb andb]; run_prog; cbn [fst snd];
    (split; [reflexivity|]);
    cbn [spawned]; rewrite spawned_app, Hs; reflexivity.
Qed.

Lemma run_app_with_device (w w1 w2 : W) (n : nat) (l1 : list event)
    (c : Completed) :
  Runner.check_connected_devices w = (Ok (true, n), w1, l1) ->
  subprocess_run Runner.run_cmd false w1 = (inr c, w2) ->
  fst (fst (Runner.run_app w)) = Ok (returncode c =? 0)%Z
  /\ spawned (snd (Runner.run_app w))
     = [Runner.adb_devices_cmd; Runner.run_cmd].
Proof.
  intros H Hrun.
  pose proof (check_devices_spawned w) as Hs. rewrite H in Hs. cbn [snd] in Hs.
  pose proof (run_command_completed _ false false _ _ _ Hrun) as H2.
  cbn [andb] in H2.
  unfold Runner.run_app. run_prog. with_call H. with_call H2.
  cbn [fst snd]. split; [reflexivity|].
  cbn [spawned]. rewrite spawned_app, Hs. reflexivity.
Qed.

End Devices.

(** C8.  [install_apk] and [run_app] first list the devices.  When the
    listing reports no device (as it does when it shows no device line),
    both return [False] after the no-device message, and the only command
    spawned is the listing itself: the install or run command is never
    started.  When a device is reported, the result is whether the install
    or run command exited with status 0. *)
Theorem device_gate :
  forall (W : Type) (HW : Host W) (apk_path : string) (w w1 : W)
         (has_device : bool) (n : nat) (l1 : list event),
    Runner.check_connected_devices w = (Ok (has_device, n), w1, l1) ->
    (forall (c : Completed) (w1' : W),
        subprocess_run Runner.adb_devices_cmd true w = (inr c, w1') ->
        Runner.device_lines (stdout c) = [] ->
        has_device = false)
    /\ (has_device = false ->
        Runner.install_apk apk_path w =
          (Ok false, w1,
           Say ChStep "Installing APK on Device"
           :: l1 ++ [Say ChError "No device connected for installation"])%list
        /\ spawned (snd (Runner.install_apk apk_path w))
           = [Runner.adb_devices_cmd]
        /\ Runner.run_app w =
             (Ok false, w1,
              Say ChStep "Running App on Device"
              :: l1 ++ [ Say ChError "No devices connected. Cannot run app.";
                         Say ChInfo (PyStr.nl ++ "Alternatives:");
                         Say ChInfo "  1. Connect a device and try again";
                         Say ChInfo "  2. Build an APK and install manually" ])%list
        /\ spawned (snd (Runner.run_app w)) = [Runner.adb_devices_cmd])
    /\ (has_device = true ->
        (forall (c : Completed) (w2 : W),
            subprocess_run (Runner.adb_install_cmd apk_path) true w1 = (inr c, w2) ->
            fst (fst (Runner.install_apk apk_path w)) = Ok (returncode c =? 0)%Z
            /\ spawned (snd (Runner.install_apk apk_path w))
               = [Runner.adb_devices_cmd; Runner.adb_install_cmd apk_path])
        /\ (forall (c : Completed) (w2 : W),
               subprocess_run Runner.run_cmd false w1 = (inr c, w2) ->
               fst (fst (Runner.run_app w)) = Ok (returncode c =? 0)%Z
               /\ spawned (snd (Runner.run_app w))
                  = [Runner.adb_devices_cmd; Runner.run_cmd])).
Proof.
  intros W HW apk_path w w1 has_device n l1 H.
  pose proof (check_devices_spawned w) as Hs. rewrite H in Hs. cbn [snd] in Hs.
  split; [|split].
  - intros c w1' Hrun Hnone.
    destruct (check_devices_none w w1' c Hrun Hnone) as [l [Hc _]].
    rewrite Hc in H. now injection H as <- _ _ _.
  - intros ->.
    rewrite (install_apk_no_device apk_path w w1 n l1 H).
    rewrite (run_app_no_device w w1 n l1 H).
    cbn [snd spawned]. rewrite !spawned_app, Hs. repeat split.
  - intros ->. split; intros c w2 Hrun.
    + exact (install_apk_with_device apk_path w w1 w2 n l1 c H Hrun).
    + exact (run_app_with_device w w1 w2 n l1 c H Hrun).
Qed.

Lemma device_gate_witness :
  (fst (fst (Runner.install_apk (Runner.apk_path "debug") world_no_device))
     = Ok false
   /\ spawned (snd (Runner.install_apk (Runner.apk_path "debug") world_no_device))
      = [Runner.adb_devices_cmd]
   /\ fst (fst (Runner.run_app world_no_device)) = Ok false
   /\ spawned (snd (Runner.run_app world_no_device)) = [Runner.adb_devices_cmd])
  /\ (fst (fst (Runner.install_apk (Runner.apk_path "debug") world_two_devices))
        = Ok true
      /\ fst (fst (Runner.run_app world_two_devices)) = Ok false).
Proof.
  split.
  - edestruct (device_gate Sim.world Sim.host (Runner.apk_path "debug")
                 world_no_device) as [Hz [[Hi [Hsi [Hr Hsr]]] _]].
    + reflexivity.
    + apply (Hz (mkCompleted 0 listing_empty "") world_no_device);
        reflexivity.
    + rewrite Hi, Hr. repeat split; assumption.
  - edestruct (device_gate Sim.world Sim.host (Runner.apk_path "debug")
                 world_two_devices) as [_ [_ [Hi Hr]]].
    + reflexivity.
    + reflexivity.
    + split.
      * apply (Hi Sim.quiet world_two_devices). reflexivity.
      * apply (Hr (mkCompleted 1 "" "") world_two_devices). reflexivity.
Defined.

(** ** C9: parsing the device listing *)

Lemma str_app_nil_r (s : string) : s ++ "" = s.
Proof. induction s as [|c s IH]; [reflexivity|]. simpl. now rewrite IH. Qed.

Lemma join_first (h : string) (lines : list string) :
  PyStr.join PyStr.nl (h :: lines) = h ++ tail_text lines.
Proof.
  revert h. induction lines as [|l r IH]; intros h.
  - simpl. now rewrite str_app_nil_r.
  - change (PyStr.join PyStr.nl (h :: l :: r))
      with (h ++ PyStr.nl ++ PyStr.join PyStr.nl (l :: r)).
    now rewrite IH.
Qed.

Lemma lstrip_app (h t : string) :
  blank h = false -> PyStr.lstrip (h ++ t) = PyStr.lstrip h ++ t.
Proof.
  induction h as [|c h IH]; [discriminate|].
  unfold blank. cbn [all_chars]. simpl.
  destruct (PyStr.is_space c); [exact IH|reflexivity].
Qed.

Lemma lstrip_blank (h : string) : blank (PyStr.lstrip h) = blank h.
Proof.
  induction h as [|c h IH]; [reflexivity|].
  unfold blank in *. cbn [all_chars PyStr.lstrip].
  destruct (PyStr.is_space c) eqn:Hc; [exact IH|].
  cbn [all_chars]. now rewrite Hc.
Qed.

Lemma lstrip_no_newline (h : string) :
  no_newline h = true -> no_newline (PyStr.lstrip h) = true.
Proof.
  induction h as [|c h IH]; [reflexivity|].
  unfold no_newline in *. cbn [all_chars PyStr.lstrip]. intros H.
  destruct (PyStr.is_space c); [|exact H].
  apply andb_true_iff in H as [_ H]. now apply IH.
Qed.

Lemma rstrip_empty (s : string) : PyStr.rstrip s = "" <-> blank s = true.
Proof.
  induction s as [|c s IH]; [now split|].
  unfold blank in *. cbn [all_chars PyStr.rstrip].
  destruct (PyStr.rstrip s) as [|x y].
  - destruct (PyStr.is_space c); simpl.
    + split; [intros _; now apply IH|reflexivity].
    + split; discriminate.
  - split; [discriminate|].
    intros H. apply andb_true_iff in H as [_ H].
    apply IH in H. discriminate.
Qed.

Lemma rstrip_app (a b : string) :
  PyStr.rstrip (a ++ b) =
    match PyStr.rstrip b with
    | EmptyString => PyStr.rstrip a
    | b' => a ++ b'
    end.
Proof.
  induction a as [|c a IH].
  - simpl. now destruct (PyStr.rstrip b).
  - change (String c a ++ b) with (String c (a ++ b)).
    cbn [PyStr.rstrip]. rewrite IH.
    destruct (PyStr.rstrip b) as [|x y]; [reflexivity|].
    now destruct a.
Qed.

Lemma rstrip_blank (s : string) : blank (PyStr.rstrip s) = blank s.
Proof.
  induction s as [|c s IH]; [reflexivity|].
  unfold blank in *. cbn [all_chars PyStr.rstrip].
  destruct (PyStr.rstrip s) as [|x y] eqn:Hr.
  - rewrite <- IH. cbn [all_chars].
    destruct (PyStr.is_space c) eqn:Hc; cbn [all_chars]; now rewrite ?Hc.
  - cbn [all_chars] in *. now rewrite IH.
Qed.

Lemma rstrip_no_newline (s : string) :
  no_newline s = true -> no_newline (PyStr.rstrip s) = true.
Proof.
  induction s as [|c s IH]; [reflexivity|].
  unfold no_newline in *. cbn [all_chars PyStr.rstrip]. intros H.
  apply andb_true_iff in H as [Hc H]. specialize (IH H).
  destruct (PyStr.rstrip s) as [|x y].
  - destruct (PyStr.is_space c); [reflexivity|].
    cbn [all_chars]. now rewrite Hc.
  - cbn [all_chars] in *. now rewrite Hc, IH.
Qed.

Lemma rstrip_startswith (s : string) (a : ascii) :
  PyStr.is_space a = false ->
  PyStr.startswith (PyStr.rstrip s) (String a "") =
  PyStr.startswith s (String a "").
Proof.
  intros Hp. unfold PyStr.startswith.
  destruct s as [|c s]; [reflexivity|].
  cbn [PyStr.rstrip].
  destruct (PyStr.rstrip s) as [|x y].
  - destruct (PyStr.is_space c) eqn:Hc; simpl.
    + destruct (ascii_dec a c) as [->|]; [congruence|reflexivity].
    + destruct (ascii_dec a c); [now destruct s|reflexivity].
  - simpl. destruct (ascii_dec a c); [now destruct s|reflexivity].
Qed.

Lemma strip_empty (s : string) : (PyStr.strip s =? "") = blank s.
Proof.
  unfold PyStr.strip. rewrite <- lstrip_blank.
  destruct (blank (PyStr.lstrip s)) eqn:Hb.
  - apply rstrip_empty in Hb. now rewrite Hb.
  - destruct (PyStr.rstrip (PyStr.lstrip s)) eqn:Hr; [|reflexivity].
    assert (H : PyStr.rstrip (PyStr.lstrip s) = "") by exact Hr.
    apply rstrip_empty in H. congruence.
Qed.

(** Whether a line counts as a device: it shows something, and its first
    character is no asterisk. *)
Lemma is_device_line_spec (l : string) :
  Runner.is_device_line l = negb (blank l) && negb (PyStr.startswith l "*").
Proof. unfold Runner.is_device_line. now rewrite strip_empty. Qed.

Lemma is_device_line_rstrip (l : string) :
  Runner.is_device_line (PyStr.rstrip l) = Runner.is_device_line l.
Proof.
  rewrite !is_device_line_spec, rstrip_blank, rstrip_startswith; reflexivity.
Qed.

Lemma rstrip_tail_text (lines : list string) :
  PyStr.rstrip (tail_text lines) = tail_text (rstrip_lines lines).
Proof.
  induction lines as [|l r IH]; [reflexivity|].
  cbn [tail_text rstrip_lines].
  change (PyStr.nl ++ l ++ tail_text r)
    with (String PyStr.newline (l ++ tail_text r)).
  cbn [PyStr.rstrip]. rewrite rstrip_app, IH.
  destruct (rstrip_lines r) as [|x y].
  - cbn [tail_text].
    destruct (blank l) eqn:Hb.
    + apply rstrip_empty in Hb. now rewrite Hb.
    + destruct (PyStr.rstrip l) as [|a b] eqn:Hr.
      * apply rstrip_empty in Hr. congruence.
      * cbn [tail_text]. now rewrite str_app_nil_r.
  - cbn [tail_text].
    change (PyStr.nl ++ x ++ tail_text y)
      with (String PyStr.newline (x ++ tail_text y)).
    now destruct l.
Qed.

Lemma rstrip_lines_no_newline (lines : list string) :
  forallb no_newline lines = true ->
  forallb no_newline (rstrip_lines lines) = true.
Proof.
  induction lines as [|l r IH]; [reflexivity|].
  cbn [forallb rstrip_lines]. intros H.
  apply andb_true_iff in H as [Hl Hr]. specialize (IH Hr).
  destruct (rstrip_lines r) as [|x y].
  - destruct (blank l); [reflexivity|].
    cbn [forallb]. now rewrite (rstrip_no_newline l Hl).
  - cbn [forallb] in *. now rewrite Hl, IH.
Qed.

Lemma split_lines_line (h : string) :
  no_newline h = true -> PyStr.split_lines h = [h].
Proof.
  induction h as [|c h IH]; [reflexivity|].
  unfold no_newline. cbn [all_chars PyStr.split_lines]. intros H.
  apply andb_true_iff in H as [Hc Hh]. apply negb_true_iff in Hc.
  rewrite Hc. now rewrite (IH Hh).
Qed.

Lemma split_lines_text (lines : list string) :
  forallb no_newline lines = true ->
  forall h : string,
    no_newline h = true ->
    PyStr.split_lines (h ++ tail_text lines) = h :: lines.
Proof.
  induction lines as [|l r IH]; intros Hall h Hh.
  - cbn [tail_text]. rewrite str_app_nil_r. now apply split_lines_line.
  - cbn [forallb] in Hall. apply andb_true_iff in Hall as [Hl Hr].
    induction h as [|c h IHh].
    + cbn [tail_text].
      change ("" ++ PyStr.nl ++ l ++ tail_text r)
        with (String PyStr.newline (l ++ tail_text r)).
      cbn [PyStr.split_lines]. rewrite Ascii.eqb_refl.
      now rewrite (IH Hr l Hl).
    + change (String c h ++ tail_text (l :: r))
        with (String c (h ++ tail_text (l :: r))).
      unfold no_newline in Hh. cbn [all_chars] in Hh.
      apply andb_true_iff in Hh as [Hc Hh]. apply negb_true_iff in Hc.
      cbn [PyStr.split_lines]. rewrite Hc. now rewrite (IHh Hh).
Qed.

(** The lines that the parser keeps: those after the header that stand for
    a device, read off the text as [strip] leaves it. *)
Lemma device_lines_text (header : string) (lines : list string) :
  blank header = false ->
  no_newline header = true ->
  forallb no_newline lines = true ->
  Runner.device_lines (PyStr.join PyStr.nl (header :: lines))
  = filter Runner.is_device_line (rstrip_lines lines).
Proof.
  intros Hb Hn Hall. unfold Runner.device_lines, PyStr.strip.
  rewrite join_first, (lstrip_app header _ Hb), rstrip_app, rstrip_tail_text.
  pose proof (rstrip_lines_no_newline lines Hall) as HR.
  pose proof (lstrip_no_newline header Hn) as Hn'.
  destruct (rstrip_lines lines) as [|x y] eqn:E.
  - cbn [tail_text].
    now rewrite (split_lines_line _ (rstrip_no_newline _ Hn')).
  - assert (Ht : tail_text (x :: y) = String PyStr.newline (x ++ tail_text y))
      by reflexivity.
    rewrite Ht, <- Ht.
    now rewrite (split_lines_text (x :: y) HR _ Hn').
Qed.

Lemma device_lines_count (lines : list string) :
  length (filter Runner.is_device_line (rstrip_lines lines))
  = length (filter Runner.is_device_line lines).
Proof.
  induction lines as [|l r IH]; [reflexivity|].
  cbn [rstrip_lines filter].
  destruct (rstrip_lines r) as [|x y].
  - cbn [filter length] in IH.
    destruct (blank l) eqn:Hb.
    + rewrite is_device_line_spec, Hb. exact IH.
    + cbn [filter]. rewrite is_device_line_rstrip.
      destruct (Runner.is_device_line l); cbn [length]; now rewrite <- IH.
  - cbn [filter].
    destruct (Runner.is_device_line l); cbn [length]; now rewrite <- IH.
Qed.

Lemma join_first_not_empty (header : string) (lines : list string) :
  blank header = false ->
  (PyStr.join PyStr.nl (header :: lines) =? "") = false.
Proof.
  intros Hb. rewrite join_first.
  destruct header; [discriminate|reflexivity].
Qed.

Lemma errors_prints (f : string -> string) (ds : list string) :
  errors (map (fun d => Say ChPlain (f d)) ds) = [].
Proof. induction ds; simpl; auto. Qed.

Section Listing.
Context {W : Type} {HW : Host W}.

(** A listing that completed and shows device lines reports them. *)
Lemma check_devices_some (w w1 : W) (c : Completed) (d : string)
    (ds : list string) :
  subprocess_run Runner.adb_devices_cmd true w = (inr c, w1) ->
  returncode c = 0%Z ->
  (stdout c =? "") = false ->
  Runner.device_lines (stdout c) = d :: ds ->
  exists l,
    Runner.check_connected_devices w = (Ok (true, S (length ds)), w1, l)
    /\ errors l = [].
Proof.
  intros Hrun Hrc Hout Hd.
  pose proof (run_command_completed _ true true _ _ _ Hrun) as H.
  rewrite Hrc in H. cbn [Z.eqb negb andb] in H.
  unfold Runner.check_connected_devices. run_prog. with_call H.
  rewrite Hout. cbn [negb]. rewrite Hd. run_prog.
  pose proof (for_each_print (fun d => "   " ++ d) (d :: ds) w1) as Hf.
  cbn [for_each] in Hf. with_call Hf.
  eexists; split; [reflexivity|].
  cbn [map]. rewrite app_nil_r. cbn [errors].
  apply (errors_prints (fun d => "   " ++ d)).
Qed.

End Listing.

(** C9.  For a listing made of a header line (a line that shows
    something) and further lines, the parser keeps exactly the lines after
    the header that show something and do not start with an asterisk, as
    [strip] leaves them (the last one without the white space at its end),
    so their number is the number of such lines.  [check_connected_devices]
    returns that number, with [True] when it is positive; for zero devices
    it returns [(False, 0)], raises nothing and prints no error. *)
Theorem device_listing_parsed :
  forall (W : Type) (HW : Host W) (w w1 : W) (c : Completed)
         (header : string) (lines : list string),
    blank header = false ->
    no_newline header = true ->
    forallb no_newline lines = true ->
    subprocess_run Runner.adb_devices_cmd true w = (inr c, w1) ->
    returncode c = 0%Z ->
    stdout c = PyStr.join PyStr.nl (header :: lines) ->
    Runner.device_lines (stdout c)
      = filter Runner.is_device_line (rstrip_lines lines)
    /\ length (Runner.device_lines (stdout c))
       = length (filter Runner.is_device_line lines)
    /\ ((forall l, In l lines -> blank l = true -> l = "") ->
        filter Runner.is_device_line lines
        = filter (fun l => negb (l =? "") && negb (PyStr.startswith l "*"))
            lines)
    /\ exists l,
         Runner.check_connected_devices w =
           (Ok (negb (length (filter Runner.is_device_line lines) =? 0)%nat,
                length (filter Runner.is_device_line lines)),
            w1, l)
         /\ errors l = [].
Proof.
  intros W HW w w1 c header lines Hb Hn Hall Hrun Hrc Hout.
  pose proof (device_lines_text header lines Hb Hn Hall) as Hd.
  rewrite <- Hout in Hd.
  assert (Hlen : length (Runner.device_lines (stdout c))
                 = length (filter Runner.is_device_line lines))
    by (rewrite Hd; apply device_lines_count).
  split; [exact Hd|]. split; [exact Hlen|]. split.
  - intros Hvis. apply filter_ext_in. intros l Hin.
    rewrite is_device_line_spec. f_equal. f_equal.
    destruct (blank l) eqn:Hbl.
    + now rewrite (Hvis l Hin Hbl).
    + destruct l; [discriminate|reflexivity].
  - rewrite <- Hlen.
    destruct (Runner.device_lines (stdout c)) as [|d ds] eqn:E.
    + apply (check_devices_none w w1 c Hrun E).
    + apply (check_devices_some w w1 c d ds Hrun Hrc); [|exact E].
      rewrite Hout. now apply join_first_not_empty.
Qed.

Lemma device_listing_parsed_witness :
  (fst (fst (Runner.check_connected_devices world_two_devices)) = Ok (true, 2)
   /\ Runner.device_lines listing_two
      = [ "emulator-5554          device product:sdk_gphone64 model:sdk";
          "R58M42ABCDE            device usb:1-1 product:a52 model:SM_A525F" ])
  /\ (fst (fst (Runner.check_connected_devices world_no_device)) = Ok (false, 0)
      /\ errors (snd (Runner.check_connected_devices world_no_device)) = []).
Proof.
  split.
  - destruct (device_listing_parsed Sim.world Sim.host
                world_two_devices world_two_devices
                (mkCompleted 0 listing_two "")
                "List of devices attached"
                [ "emulator-5554          device product:sdk_gphone64 model:sdk";
                  "* daemon started successfully";
                  "R58M42ABCDE            device usb:1-1 product:a52 model:SM_A525F";
                  "" ]
                eq_refl eq_refl eq_refl eq_refl eq_refl eq_refl)
      as [Hd [_ [_ [l [Hc _]]]]].
    rewrite Hc. split; [reflexivity|exact Hd].
  - destruct (device_listing_parsed Sim.world Sim.host
                world_no_device world_no_device
                (mkCompleted 0 listing_empty "")
                "List of devices attached" [ ""; "" ]
                eq_refl eq_refl eq_refl eq_refl eq_refl eq_refl)
      as [_ [_ [_ [l [Hc He]]]]].
    rewrite Hc. split; [reflexivity|exact He].
Defined.

(** ** C3: re-running the resolver on a provisioned machine *)

Section Provisioned.
Context {W : Type} {HW : Host W}.

Lemma Runner_check_java_present (w w1 : W) (c : Completed) :
  path_exists java_home w = true ->
  subprocess_run Runner.java_version_cmd true w = (inr c, w1) ->
  returncode c = 0%Z ->
  Runner.check_java w =
    (Ok true, w1,
     [ Say ChStep "Checking Java Installation";
       Spawn Runner.java_version_cmd true;
       Say ChSuccess "Java is installed" ]).
Proof.
  intros Hex Hrun Hrc.
  pose proof (run_command_completed _ true true _ _ _ Hrun) as H.
  rewrite Hrc in H. cbn [Z.eqb negb andb] in H.
  unfold Runner.check_java. run_prog. rewrite Hex. run_prog.
  with_call H. reflexivity.
Qed.

Lemma Runner_setup_flutter_present (w w1 : W) (c : Completed) :
  path_exists flutter_dir w = true ->
  subprocess_run Runner.flutter_version_cmd true w = (inr c, w1) ->
  returncode c = 0%Z ->
  Runner.setup_flutter w =
    (Ok true, w1,
     [ Say ChStep "Setting Up Flutter SDK";
       Say ChSuccess "Flutter directory exists";
       Spawn Runner.flutter_version_cmd true;
       Say ChSuccess "Flutter is working correctly" ]).
Proof.
  intros Hex Hrun Hrc.
  pose proof (run_command_completed _ true true _ _ _ Hrun) as H.
  rewrite Hrc in H. cbn [Z.eqb negb andb] in H.
  unfold Runner.setup_flutter. run_prog. rewrite Hex. run_prog.
  with_call H. reflexivity.
Qed.

Lemma Runner_setup_android_sdk_present (w w1 : W) (c : Completed) :
  path_exists Runner.cmdline_tools w = true ->
  subprocess_run Runner.sdkmanager_version_cmd true w = (inr c, w1) ->
  returncode c = 0%Z ->
  Runner.setup_android_sdk w =
    (Ok true, w1,
     [ Say ChStep "Setting Up Android SDK";
       Say ChSuccess "Android SDK command line tools exist";
       Spawn Runner.sdkmanager_version_cmd true;
       Say ChSuccess "Android SDK tools are working" ]).
Proof.
  intros Hex Hrun Hrc.
  pose proof (run_command_completed _ true true _ _ _ Hrun) as H.
  rewrite Hrc in H. cbn [Z.eqb negb andb] in H.
  unfold Runner.setup_android_sdk. run_prog. rewrite Hex. run_prog.
  with_call H. reflexivity.
Qed.

(** [install_sdk_components] has no check of what is installed: whatever
    the host, its first action is to spawn the license acceptance, and
    once that process has run, whatever its exit status, it spawns the
    batched installation. *)
Lemma Runner_install_always_spawns (w : W) :
  (exists rest,
      snd (Runner.install_sdk_components w) =
        Say ChStep "Installing Android SDK Components"
        :: Say ChInfo "Accepting SDK licenses..."
        :: Spawn Runner.license_cmd false :: rest)
  /\ (forall (cl : Completed) (wl : W),
         subprocess_run Runner.license_cmd false w = (inr cl, wl) ->
         exists rest,
           snd (Runner.install_sdk_components w) =
             Say ChStep "Installing Android SDK Components"
             :: Say ChInfo "Accepting SDK licenses..."
             :: Spawn Runner.license_cmd false
             :: Say ChInfo "Installing SDK components..."
             :: Spawn Runner.install_cmd false :: rest).
Proof.
  split.
  - unfold Runner.install_sdk_components. run_prog.
    destruct (run_command_checked Runner.license_cmd false w)
      as [w1 [[e H]|[[out [err H]]|[rc H]]]]; with_call H;
      try (eexists; reflexivity);
      destruct (run_command_checked Runner.install_cmd false w1)
        as [w2 [[e2 H2]|[[out2 [err2 H2]]|[rc2 H2]]]]; with_call H2;
      eexists; reflexivity.
  - intros cl wl Hl.
    pose proof (run_command_completed _ true false _ _ _ Hl) as H.
    unfold Runner.install_sdk_components. run_prog. with_call H.
    destruct (run_command_checked Runner.install_cmd false wl)
      as [w2 [[e2 H2]|[[out2 [err2 H2]]|[rc2 H2]]]]; with_call H2;
      eexists; reflexivity.
Qed.

End Provisioned.

(** C3, as the code has it.  [Provisioned] is any property of the host
    that makes the three installation paths exist and the three
    verification commands succeed, and that a verification command
    preserves.  From a provisioned state the first three resolution steps
    ([check_java], [setup_flutter], [setup_android_sdk]) pass, spawn the
    three verification commands and nothing else, perform no install
    action, and leave a provisioned state: they can be re-run at the same
    cost.  [install_sdk_components] is not guarded: from every state it
    spawns the license acceptance and, once that has run, the batched
    installation of the packages, both install actions. *)
Theorem provisioned_rerun_only_verifies :
  forall (W : Type) (HW : Host W) (Provisioned : W -> Prop),
    (forall w, Provisioned w ->
       path_exists java_home w = true
       /\ path_exists flutter_dir w = true
       /\ path_exists Runner.cmdline_tools w = true) ->
    (forall w cmd, Provisioned w -> In cmd verification_cmds ->
       exists c w',
         subprocess_run cmd true w = (inr c, w')
         /\ returncode c = 0%Z /\ Provisioned w') ->
    forall w : W, Provisioned w ->
      (exists w' l,
          Runner.run_steps (firstn 3 Runner.steps) w = (Ok true, w', l)
          /\ Provisioned w'
          /\ spawned l = verification_cmds
          /\ install_actions l = [])
      /\ (forall w0 : W,
             In (Spawn Runner.license_cmd false)
                (install_actions (snd (Runner.install_sdk_components w0)))
             /\ forall (cl : Completed) (wl : W),
                 subprocess_run Runner.license_cmd false w0 = (inr cl, wl) ->
                 In (Spawn Runner.install_cmd false)
                    (install_actions (snd (Runner.install_sdk_components w0)))).
Proof.
  intros W HW Provisioned Hpaths Hverify w Hw. split.
  - destruct (Hpaths w Hw) as [Hj _].
    destruct (Hverify w Runner.java_version_cmd Hw) as [c1 [w1 [R1 [Z1 P1]]]];
      [simpl; tauto|].
    destruct (Hpaths w1 P1) as [_ [Hf _]].
    destruct (Hverify w1 Runner.flutter_version_cmd P1) as [c2 [w2 [R2 [Z2 P2]]]];
      [simpl; tauto|].
    destruct (Hpaths w2 P2) as [_ [_ Hs]].
    destruct (Hverify w2 Runner.sdkmanager_version_cmd P2)
      as [c3 [w3 [R3 [Z3 P3]]]]; [simpl; tauto|].
    exists w3. eexists.
    cbn [firstn Runner.steps].
    rewrite (Runner_step_pass _ _ _ w w1 _ (Runner_check_java_present w w1 c1 Hj R1 Z1)).
    rewrite (Runner_step_pass _ _ _ w1 w2 _
               (Runner_setup_flutter_present w1 w2 c2 Hf R2 Z2)).
    rewrite (Runner_step_pass _ _ _ w2 w3 _
               (Runner_setup_android_sdk_present w2 w3 c3 Hs R3 Z3)).
    cbn [Runner.run_steps ret logged app].
    split; [reflexivity|]. split; [exact P3|]. split; reflexivity.
  - intros w0. destruct (Runner_install_always_spawns w0) as [[rest E] Hi].
    split.
    + rewrite E. apply filter_In. split; [simpl; tauto|reflexivity].
    + intros cl wl Hl. destruct (Hi cl wl Hl) as [rest' ->].
      apply filter_In. split; [simpl; tauto|reflexivity].
Qed.

Lemma provisioned_rerun_only_verifies_witness :
  (exists w' l,
      Runner.run_steps (firstn 3 Runner.steps) world_provisioned = (Ok true, w', l)
      /\ w' = world_provisioned
      /\ spawned l = verification_cmds
      /\ install_actions l = [])
  /\ In (Spawn Runner.license_cmd false)
        (install_actions (snd (Runner.install_sdk_components world_provisioned)))
  /\ In (Spawn Runner.install_cmd false)
        (install_actions (snd (Runner.install_sdk_components world_provisioned))).
Proof.
  destruct (provisioned_rerun_only_verifies Sim.world Sim.host
              (fun w => w = world_provisioned)) with (w := world_provisioned)
    as [H1 H2].
  - intros w ->. repeat split.
  - intros w cmd -> Hin. exists Sim.quiet, world_provisioned.
    repeat split.
  - reflexivity.
  - split; [exact H1|]. destruct (H2 world_provisioned) as [L I].
    split; [exact L|].
    apply (I Sim.quiet world_provisioned). reflexivity.
Defined.

(** C3, the claim refuted: on a machine where everything is installed and
    every command succeeds, the four resolution steps pass and leave the
    machine as it was; run again, they spawn the license acceptance and
    the batched installation of the SDK packages, two install actions. *)
Lemma install_sdk_components_reinstalls :
  fst (Runner.run_steps (firstn 4 Runner.steps) world_provisioned)
    = (Ok true, world_provisioned)
  /\ install_actions
       (snd (Runner.run_steps (firstn 4 Runner.steps)
               (snd (fst (Runner.run_steps (firstn 4 Runner.steps)
                            world_provisioned)))))
     = [ Spawn Runner.license_cmd false; Spawn Runner.install_cmd false ]
  /\ install_actions
       (snd (Runner.run_steps (firstn 4 Runner.steps)
               (snd (fst (Runner.run_steps (firstn 4 Runner.steps)
                            world_provisioned)))))
     <> [].
Proof.
  repeat split. discriminate.
Qed.

(** ** C4: an installation that exists and does not work *)

Section Corrupted.
Context {W : Type} {HW : Host W}.

Lemma rmtree_done (p : string) (ignore_errors : bool) (w w' : W) :
  shutil_rmtree p w = (None, w') ->
  rmtree p ignore_errors w = (Ok tt, w', [Rmtree p]).
Proof. intros H. unfold rmtree. now rewrite H. Qed.

Lemma rmtree_ignoring (p : string) (w w' : W) (o : option exn) :
  shutil_rmtree p w = (o, w') ->
  rmtree p true w = (Ok tt, w', [Rmtree p]).
Proof. intros H. unfold rmtree. rewrite H. now destruct o. Qed.

Lemma mkdir_done (p : string) (w w' : W) :
  path_mkdir p w = (None, w') -> mkdir p w = (Ok tt, w', [Mkdir p]).
Proof. intros H. unfold mkdir. now rewrite H. Qed.

Lemma Builder_setup_flutter_reinstalls (w w1 w2 w3 : W) (c c2 : Completed) :
  path_exists flutter_dir w = true ->
  subprocess_run Builder.flutter_version_cmd true w = (inr c, w1) ->
  returncode c <> 0%Z ->
  shutil_rmtree flutter_dir w1 = (None, w2) ->
  subprocess_run Builder.flutter_clone_cmd false w2 = (inr c2, w3) ->
  removed (snd (Builder.setup_flutter w)) = [flutter_dir]
  /\ times_spawned Builder.flutter_version_cmd (snd (Builder.setup_flutter w)) = 1
  /\ times_spawned Builder.flutter_clone_cmd (snd (Builder.setup_flutter w)) = 1
  /\ (returncode c2 <> 0%Z -> fst (Builder.setup_flutter w) = (Ok false, w3))
  /\ (returncode c2 = 0%Z -> fst (fst (Builder.setup_flutter w)) <> Ok false).
Proof.
  intros Hex Hver Hrc Hrm Hclone.
  pose proof (run_command_completed _ true true _ _ _ Hver) as H1.
  apply Z.eqb_neq in Hrc. rewrite Hrc in H1. cbn [negb andb] in H1.
  pose proof (rmtree_done flutter_dir false w1 w2 Hrm) as H2.
  pose proof (run_command_completed _ true false _ _ _ Hclone) as H3.
  unfold Builder.setup_flutter. run_prog. rewrite Hex. run_prog.
  with_call H1. with_call H2. with_call H3.
  destruct (returncode c2 =? 0)%Z eqn:Hc2; cbn [negb andb]; run_prog.
  - apply Z.eqb_eq in Hc2.
    destruct (run_command_checked Builder.flutter_no_analytics_cmd false w3)
      as [w4 [[e4 H4]|[[o4 [r4 H4]]|[rc4 H4]]]]; with_call H4; [leaf| |];
      destruct (run_command_checked Builder.flutter_precache_cmd false w4)
        as [w5 [[e5 H5]|[[o5 [r5 H5]]|[rc5 H5]]]]; with_call H5; leaf.
  - apply Z.eqb_neq in Hc2. leaf.
Qed.

Lemma Builder_setup_flutter_reinstalled (w w1 w2 w3 w4 w5 : W)
    (c c2 c3 c4 : Completed) :
  path_exists flutter_dir w = true ->
  subprocess_run Builder.flutter_version_cmd true w = (inr c, w1) ->
  returncode c <> 0%Z ->
  shutil_rmtree flutter_dir w1 = (None, w2) ->
  subprocess_run Builder.flutter_clone_cmd false w2 = (inr c2, w3) ->
  returncode c2 = 0%Z ->
  subprocess_run Builder.flutter_no_analytics_cmd false w3 = (inr c3, w4) ->
  subprocess_run Builder.flutter_precache_cmd false w4 = (inr c4, w5) ->
  Builder.setup_flutter w =
    (Ok true, w5,
     [ Say ChStep "Setting Up Flutter";
       Say ChSuccess "Flutter directory exists";
       Spawn Builder.flutter_version_cmd true;
       Say ChWarning "Flutter directory exists but not working, reinstalling...";
       Rmtree flutter_dir;
       Say ChWarning "Flutter not found, installing...";
       Spawn Builder.flutter_clone_cmd false;
       Say ChSuccess "Flutter installed successfully";
       Spawn Builder.flutter_no_analytics_cmd false;
       Spawn Builder.flutter_precache_cmd false ]).
Proof.
  intros Hex Hver Hrc Hrm Hclone Hc2 Hna Hpc.
  pose proof (run_command_completed _ true true _ _ _ Hver) as H1.
  apply Z.eqb_neq in Hrc. rewrite Hrc in H1. cbn [negb andb] in H1.
  pose proof (rmtree_done flutter_dir false w1 w2 Hrm) as H2.
  pose proof (run_command_completed _ true false _ _ _ Hclone) as H3.
  rewrite Hc2 in H3. cbn [Z.eqb negb andb] in H3.
  pose proof (run_command_completed _ true false _ _ _ Hna) as H4.
  pose proof (run_command_completed _ true false _ _ _ Hpc) as H5.
  unfold Builder.setup_flutter. run_prog. rewrite Hex. run_prog.
  with_call H1. with_call H2. with_call H3. with_call H4. with_call H5.
  reflexivity.
Qed.

Lemma Runner_setup_flutter_reinstalls (w w1 w2 w3 : W) (c c2 : Completed) :
  path_exists flutter_dir w = true ->
  subprocess_run Runner.flutter_version_cmd true w = (inr c, w1) ->
  returncode c <> 0%Z ->
  shutil_rmtree flutter_dir w1 = (None, w2) ->
  subprocess_run Runner.flutter_clone_cmd false w2 = (inr c2, w3) ->
  removed (snd (Runner.setup_flutter w)) = [flutter_dir]
  /\ times_spawned Runner.flutter_version_cmd (snd (Runner.setup_flutter w)) = 1
  /\ times_spawned Runner.flutter_clone_cmd (snd (Runner.setup_flutter w)) = 1
  /\ (returncode c2 <> 0%Z -> fst (Runner.setup_flutter w) = (Ok false, w3))
  /\ (returncode c2 = 0%Z -> fst (fst (Runner.setup_flutter w)) <> Ok false).
Proof.
  intros Hex Hver Hrc Hrm Hclone.
  pose proof (run_command_completed _ true true _ _ _ Hver) as H1.
  apply Z.eqb_neq in Hrc. rewrite Hrc in H1. cbn [negb andb] in H1.
  pose proof (rmtree_done flutter_dir false w1 w2 Hrm) as H2.
  pose proof (run_command_completed _ true false _ _ _ Hclone) as H3.
  unfold Runner.setup_flutter. run_prog. rewrite Hex. run_prog.
  with_call H1. with_call H2. with_call H3.
  destruct (returncode c2 =? 0)%Z eqn:Hc2; cbn [negb andb]; run_prog.
  - apply Z.eqb_eq in Hc2.
    destruct (run_command_checked Runner.flutter_no_analytics_cmd false w3)
      as [w4 [[e4 H4]|[[o4 [r4 H4]]|[rc4 H4]]]]; with_call H4; [leaf| |];
      destruct (run_command_checked Runner.flutter_precache_cmd false w4)
        as [w5 [[e5 H5]|[[o5 [r5 H5]]|[rc5 H5]]]]; with_call H5; leaf.
  - apply Z.eqb_neq in Hc2. leaf.
Qed.

Lemma Runner_setup_flutter_reinstalled (w w1 w2 w3 w4 w5 : W)
    (c c2 c3 c4 : Completed) :
  path_exists flutter_dir w = true ->
  subprocess_run Runner.flutter_version_cmd true w = (inr c, w1) ->
  returncode c <> 0%Z ->
  shutil_rmtree flutter_dir w1 = (None, w2) ->
  subprocess_run Runner.flutter_clone_cmd false w2 = (inr c2, w3) ->
  returncode c2 = 0%Z ->
  subprocess_run Runner.flutter_no_analytics_cmd false w3 = (inr c3, w4) ->
  subprocess_run Runner.flutter_precache_cmd false w4 = (inr c4, w5) ->
  Runner.setup_flutter w =
    (Ok true, w5,
     [ Say ChStep "Setting Up Flutter SDK";
       Say ChSuccess "Flutter directory exists";
       Spawn Runner.flutter_version_cmd true;
       Say ChWarning "Flutter directory exists but not working, reinstalling...";
       Rmtree flutter_dir;
       Say ChWarning "Flutter not found, installing (this may take a few minutes)...";
       Spawn Runner.flutter_clone_cmd false;
       Say ChSuccess "Flutter SDK installed successfully";
       Say ChInfo "Configuring Flutter...";
       Spawn Runner.flutter_no_analytics_cmd false;
       Spawn Runner.flutter_precache_cmd false ]).
Proof.
  intros Hex Hver Hrc Hrm Hclone Hc2 Hna Hpc.
  pose proof (run_command_completed _ true true _ _ _ Hver) as H1.
  apply Z.eqb_neq in Hrc. rewrite Hrc in H1. cbn [negb andb] in H1.
  pose proof (rmtree_done flutter_dir false w1 w2 Hrm) as H2.
  pose proof (run_command_completed _ true false _ _ _ Hclone) as H3.
  rewrite Hc2 in H3. cbn [Z.eqb negb andb] in H3.
  pose proof (run_command_completed _ true false _ _ _ Hna) as H4.
  pose proof (run_command_completed _ true false _ _ _ Hpc) as H5.
  unfold Runner.setup_flutter. run_prog. rewrite Hex. run_prog.
  with_call H1. with_call H2. with_call H3. with_call H4. with_call H5.
  reflexivity.
Qed.

Lemma Builder_setup_android_sdk_reinstalls (w w1 w2 w3 : W) (c c2 : Completed)
    (o : option exn) :
  path_exists Builder.cmdline_tools w = true ->
  subprocess_run Builder.sdkmanager_version_cmd true w = (inr c, w1) ->
  returncode c <> 0%Z ->
  shutil_rmtree android_sdk_dir w1 = (o, w2) ->
  subprocess_run Builder.sdk_download_cmd false w2 = (inr c2, w3) ->
  removed (snd (Builder.setup_android_sdk w)) = [android_sdk_dir]
  /\ times_spawned Builder.sdkmanager_version_cmd (snd (Builder.setup_android_sdk w)) = 1
  /\ times_spawned Builder.sdk_download_cmd (snd (Builder.setup_android_sdk w)) = 1
  /\ (returncode c2 <> 0%Z -> fst (Builder.setup_android_sdk w) = (Ok false, w3)).
Proof.
  intros Hex Hver Hrc Hrm Hdl.
  pose proof (run_command_completed _ true true _ _ _ Hver) as H1.
  apply Z.eqb_neq in Hrc. rewrite Hrc in H1. cbn [negb andb] in H1.
  pose proof (rmtree_ignoring android_sdk_dir w1 w2 o Hrm) as H2.
  pose proof (run_command_completed _ true false _ _ _ Hdl) as H3.
  unfold Builder.setup_android_sdk. run_prog. rewrite Hex. run_prog.
  with_call H1. with_call H2. with_call H3.
  destruct (returncode c2 =? 0)%Z eqn:Hc2; cbn [negb andb]; run_prog.
  - apply Z.eqb_eq in Hc2.
    destruct (path_mkdir Builder.cmdline_tools w3) as [[e|] w4] eqn:Hmk.
    + assert (H4 : mkdir Builder.cmdline_tools w3
                   = (Raise e, w4, [Mkdir Builder.cmdline_tools]))
        by (unfold mkdir; now rewrite Hmk).
      with_call H4. leaf.
    + pose proof (mkdir_done _ _ _ Hmk) as H4. with_call H4.
      destruct (run_command_checked Builder.sdk_extract_cmd false w4)
        as [w5 [[e5 H5]|[[o5 [r5 H5]]|[rc5 H5]]]]; with_call H5; leaf.
  - apply Z.eqb_neq in Hc2. leaf.
Qed.

Lemma Builder_setup_android_sdk_reinstalled (w w1 w2 w3 w4 w5 : W)
    (c c2 c3 : Completed) (o : option exn) :
  path_exists Builder.cmdline_tools w = true ->
  subprocess_run Builder.sdkmanager_version_cmd true w = (inr c, w1) ->
  returncode c <> 0%Z ->
  shutil_rmtree android_sdk_dir w1 = (o, w2) ->
  subprocess_run Builder.sdk_download_cmd false w2 = (inr c2, w3) ->
  returncode c2 = 0%Z ->
  path_mkdir Builder.cmdline_tools w3 = (None, w4) ->
  subprocess_run Builder.sdk_extract_cmd false w4 = (inr c3, w5) ->
  fst (Builder.setup_android_sdk w) = (Ok (returncode c3 =? 0)%Z, w5)
  /\ spawned (snd (Builder.setup_android_sdk w))
     = [ Builder.sdkmanager_version_cmd; Builder.sdk_download_cmd;
         Builder.sdk_extract_cmd ].
Proof.
  intros Hex Hver Hrc Hrm Hdl Hc2 Hmk Hex3.
  pose proof (run_command_completed _ true true _ _ _ Hver) as H1.
  apply Z.eqb_neq in Hrc. rewrite Hrc in H1. cbn [negb andb] in H1.
  pose proof (rmtree_ignoring android_sdk_dir w1 w2 o Hrm) as H2.
  pose proof (run_command_completed _ true false _ _ _ Hdl) as H3.
  rewrite Hc2 in H3. cbn [Z.eqb negb andb] in H3.
  pose proof (mkdir_done _ _ _ Hmk) as H4.
  pose proof (run_command_completed _ true false _ _ _ Hex3) as H5.
  unfold Builder.setup_android_sdk. run_prog. rewrite Hex. run_prog.
  with_call H1. with_call H2. with_call H3. with_call H4. with_call H5.
  destruct (returncode c3 =? 0)%Z; cbn [negb andb]; run_prog; leaf.
Qed.

Lemma Runner_setup_android_sdk_reinstalls (w w1 w2 w3 : W) (c c2 : Completed)
    (o : option exn) :
  path_exists Runner.cmdline_tools w = true ->
  subprocess_run Runner.sdkmanager_version_cmd true w = (inr c, w1) ->
  returncode c <> 0%Z ->
  shutil_rmtree android_sdk_dir w1 = (o, w2) ->
  subprocess_run Runner.sdk_download_cmd false w2 = (inr c2, w3) ->
  removed (snd (Runner.setup_android_sdk w)) = [android_sdk_dir]
  /\ times_spawned Runner.sdkmanager_version_cmd (snd (Runner.setup_android_sdk w)) = 1
  /\ times_spawned Runner.sdk_download_cmd (snd (Runner.setup_android_sdk w)) = 1
  /\ (returncode c2 <> 0%Z -> fst (Runner.setup_android_sdk w) = (Ok false, w3)).
Proof.
  intros Hex Hver Hrc Hrm Hdl.
  pose proof (run_command_completed _ true true _ _ _ Hver) as H1.
  apply Z.eqb_neq in Hrc. rewrite Hrc in H1. cbn [negb andb] in H1.
  pose proof (rmtree_ignoring android_sdk_dir w1 w2 o Hrm) as H2.
  pose proof (run_command_completed _ true false _ _ _ Hdl) as H3.
  unfold Runner.setup_android_sdk. run_prog. rewrite Hex. run_prog.
  with_call H1. with_call H2. with_call H3.
  destruct (returncode c2 =? 0)%Z eqn:Hc2; cbn [negb andb]; run_prog.
  - apply Z.eqb_eq in Hc2.
    destruct (path_mkdir Runner.cmdline_tools w3) as [[e|] w4] eqn:Hmk.
    + assert (H4 : mkdir Runner.cmdline_tools w3
                   = (Raise e, w4, [Mkdir Runner.cmdline_tools]))
        by (unfold mkdir; now rewrite Hmk).
      with_call H4. leaf.
    + pose proof (mkdir_done _ _ _ Hmk) as H4. with_call H4.
      destruct (run_command_checked Runner.sdk_extract_cmd false w4)
        as [w5 [[e5 H5]|[[o5 [r5 H5]]|[rc5 H5]]]]; with_call H5; leaf.
  - apply Z.eqb_neq in Hc2. leaf.
Qed.

Lemma Runner_setup_android_sdk_reinstalled (w w1 w2 w3 w4 w5 : W)
    (c c2 c3 : Completed) (o : option exn) :
  path_exists Runner.cmdline_tools w = true ->
  subprocess_run Runner.sdkmanager_version_cmd true w = (inr c, w1) ->
  returncode c <> 0%Z ->
  shutil_rmtree android_sdk_dir w1 = (o, w2) ->
  subprocess_run Runner.sdk_download_cmd false w2 = (inr c2, w3) ->
  returncode c2 = 0%Z ->
  path_mkdir Runner.cmdline_tools w3 = (None, w4) ->
  subprocess_run Runner.sdk_extract_cmd false w4 = (inr c3, w5) ->
  fst (Runner.setup_android_sdk w) = (Ok (returncode c3 =? 0)%Z, w5)
  /\ spawned (snd (Runner.setup_android_sdk w))
     = [ Runner.sdkmanager_version_cmd; Runner.sdk_download_cmd;
         Runner.sdk_extract_cmd ].
Proof.
  intros Hex Hver Hrc Hrm Hdl Hc2 Hmk Hex3.
  pose proof (run_command_completed _ true true _ _ _ Hver) as H1.
  apply Z.eqb_neq in Hrc. rewrite Hrc in H1. cbn [negb andb] in H1.
  pose proof (rmtree_ignoring android_sdk_dir w1 w2 o Hrm) as H2.
  pose proof (run_command_completed _ true false _ _ _ Hdl) as H3.
  rewrite Hc2 in H3. cbn [Z.eqb negb andb] in H3.
  pose proof (mkdir_done _ _ _ Hmk) as H4.
  pose proof (run_command_completed _ true false _ _ _ Hex3) as H5.
  unfold Runner.setup_android_sdk. run_prog. rewrite Hex. run_prog.
  with_call H1. with_call H2. with_call H3. with_call H4. with_call H5.
  destruct (returncode c3 =? 0)%Z; cbn [negb andb]; run_prog; leaf.
Qed.

(** Java has no recovery: an installation that exists and does not work
    makes [check_java] return [False]; nothing is removed or installed. *)
Lemma Builder_check_java_broken (w w1 : W) (c : Completed) :
  path_exists java_home w = true ->
  subprocess_run Builder.java_version_cmd true w = (inr c, w1) ->
  returncode c <> 0%Z ->
  Builder.check_java w =
    (Ok false, w1,
     [ Say ChStep "Checking Java Installation";
       Spawn Builder.java_version_cmd true ]).
Proof.
  intros Hex Hver Hrc.
  pose proof (run_command_completed _ true true _ _ _ Hver) as H1.
  apply Z.eqb_neq in Hrc. rewrite Hrc in H1. cbn [negb andb] in H1.
  unfold Builder.check_java. run_prog. rewrite Hex. run_prog.
  with_call H1. reflexivity.
Qed.

Lemma Runner_check_java_broken (w w1 : W) (c : Completed) :
  path_exists java_home w = true ->
  subprocess_run Runner.java_version_cmd true w = (inr c, w1) ->
  returncode c <> 0%Z ->
  Runner.check_java w =
    (Ok false, w1,
     [ Say ChStep "Checking Java Installation";
       Spawn Runner.java_version_cmd true ]).
Proof.
  intros Hex Hver Hrc.
  pose proof (run_command_completed _ true true _ _ _ Hver) as H1.
  apply Z.eqb_neq in Hrc. rewrite Hrc in H1. cbn [negb andb] in H1.
  unfold Runner.check_java. run_prog. rewrite Hex. run_prog.
  with_call H1. reflexivity.
Qed.

End Corrupted.

(** C4, as the code has it, in both scripts.  When the Flutter directory
    exists and [flutter --version] fails, [setup_flutter] removes the
    directory once, clones Flutter once and never runs the verification
    again: it returns [False] when the clone fails, and cannot return
    [False] when the clone succeeds; with the two configuration commands
    completed it returns [True].  When the SDK tools exist and
    [sdkmanager --version] fails, [setup_android_sdk] removes the SDK tree
    once (errors ignored), downloads once and never runs the verification
    again: it returns [False] when the download fails, and otherwise
    whether the extraction succeeded.  When Java exists and [java -version]
    fails, [check_java] returns [False]; it removes and installs
    nothing. *)
Theorem corrupted_install_is_reinstalled_once :
  forall (W : Type) (HW : Host W) (w w1 : W) (c : Completed),
    returncode c <> 0%Z ->
    (* Flutter, build_apk.py *)
    (path_exists flutter_dir w = true ->
     subprocess_run Builder.flutter_version_cmd true w = (inr c, w1) ->
     forall (w2 w3 : W) (c2 : Completed),
       shutil_rmtree flutter_dir w1 = (None, w2) ->
       subprocess_run Builder.flutter_clone_cmd false w2 = (inr c2, w3) ->
       removed (snd (Builder.setup_flutter w)) = [flutter_dir]
       /\ times_spawned Builder.flutter_version_cmd (snd (Builder.setup_flutter w)) = 1
       /\ times_spawned Builder.flutter_clone_cmd (snd (Builder.setup_flutter w)) = 1
       /\ (returncode c2 <> 0%Z -> fst (Builder.setup_flutter w) = (Ok false, w3))
       /\ (returncode c2 = 0%Z ->
           fst (fst (Builder.setup_flutter w)) <> Ok false
           /\ forall (w4 w5 : W) (c3 c4 : Completed),
               subprocess_run Builder.flutter_no_analytics_cmd false w3 = (inr c3, w4) ->
               subprocess_run Builder.flutter_precache_cmd false w4 = (inr c4, w5) ->
               fst (Builder.setup_flutter w) = (Ok true, w5)))
    (* Flutter, finsight_runner.py *)
    /\ (path_exists flutter_dir w = true ->
        subprocess_run Runner.flutter_version_cmd true w = (inr c, w1) ->
        forall (w2 w3 : W) (c2 : Completed),
          shutil_rmtree flutter_dir w1 = (None, w2) ->
          subprocess_run Runner.flutter_clone_cmd false w2 = (inr c2, w3) ->
          removed (snd (Runner.setup_flutter w)) = [flutter_dir]
          /\ times_spawned Runner.flutter_version_cmd (snd (Runner.setup_flutter w)) = 1
          /\ times_spawned Runner.flutter_clone_cmd (snd (Runner.setup_flutter w)) = 1
          /\ (returncode c2 <> 0%Z -> fst (Runner.setup_flutter w) = (Ok false, w3))
          /\ (returncode c2 = 0%Z ->
              fst (fst (Runner.setup_flutter w)) <> Ok false
              /\ forall (w4 w5 : W) (c3 c4 : Completed),
                  subprocess_run Runner.flutter_no_analytics_cmd false w3 = (inr c3, w4) ->
                  subprocess_run Runner.flutter_precache_cmd false w4 = (inr c4, w5) ->
                  fst (Runner.setup_flutter w) = (Ok true, w5)))
    (* SDK tools, build_apk.py *)
    /\ (path_exists Builder.cmdline_tools w = true ->
        subprocess_run Builder.sdkmanager_version_cmd true w = (inr c, w1) ->
        forall (w2 w3 : W) (c2 : Completed) (o : option exn),
          shutil_rmtree android_sdk_dir w1 = (o, w2) ->
          subprocess_run Builder.sdk_download_cmd false w2 = (inr c2, w3) ->
          removed (snd (Builder.setup_android_sdk w)) = [android_sdk_dir]
          /\ times_spawned Builder.sdkmanager_version_cmd
               (snd (Builder.setup_android_sdk w)) = 1
          /\ times_spawned Builder.sdk_download_cmd
               (snd (Builder.setup_android_sdk w)) = 1
          /\ (returncode c2 <> 0%Z ->
              fst (Builder.setup_android_sdk w) = (Ok false, w3))
          /\ (returncode c2 = 0%Z ->
              forall (w4 w5 : W) (c3 : Completed),
                path_mkdir Builder.cmdline_tools w3 = (None, w4) ->
                subprocess_run Builder.sdk_extract_cmd false w4 = (inr c3, w5) ->
                fst (Builder.setup_android_sdk w) = (Ok (returncode c3 =? 0)%Z, w5)))
    (* SDK tools, finsight_runner.py *)
    /\ (path_exists Runner.cmdline_tools w = true ->
        subprocess_run Runner.sdkmanager_version_cmd true w = (inr c, w1) ->
        forall (w2 w3 : W) (c2 : Completed) (o : option exn),
          shutil_rmtree android_sdk_dir w1 = (o, w2) ->
          subprocess_run Runner.sdk_download_cmd false w2 = (inr c2, w3) ->
          removed (snd (Runner.setup_android_sdk w)) = [android_sdk_dir]
          /\ times_spawned Runner.sdkmanager_version_cmd
               (snd (Runner.setup_android_sdk w)) = 1
          /\ times_spawned Runner.sdk_download_cmd
               (snd (Runner.setup_android_sdk w)) = 1
          /\ (returncode c2 <> 0%Z ->
              fst (Runner.setup_android_sdk w) = (Ok false, w3))
          /\ (returncode c2 = 0%Z ->
              forall (w4 w5 : W) (c3 : Completed),
                path_mkdir Runner.cmdline_tools w3 = (None, w4) ->
                subprocess_run Runner.sdk_extract_cmd false w4 = (inr c3, w5) ->
                fst (Runner.setup_android_sdk w) = (Ok (returncode c3 =? 0)%Z, w5)))
    (* Java, both scripts *)
    /\ (path_exists java_home w = true ->
        subprocess_run Runner.java_version_cmd true w = (inr c, w1) ->
        Builder.check_java w =
          (Ok false, w1,
           [ Say ChStep "Checking Java Installation";
             Spawn Builder.java_version_cmd true ])
        /\ Runner.check_java w =
             (Ok false, w1,
              [ Say ChStep "Checking Java Installation";
                Spawn Runner.java_version_cmd true ])).
Proof.
  intros W HW w w1 c Hrc. repeat apply conj.
  - intros Hex Hver w2 w3 c2 Hrm Hcl.
    destruct (Builder_setup_flutter_reinstalls w w1 w2 w3 c c2 Hex Hver Hrc Hrm Hcl)
      as [A [B [C [D E]]]].
    split; [exact A|]. split; [exact B|]. split; [exact C|]. split; [exact D|].
    intros Hc2. split; [now apply E|].
    intros w4 w5 c3 c4 Hna Hpc.
    now rewrite (Builder_setup_flutter_reinstalled w w1 w2 w3 w4 w5 c c2 c3 c4).
  - intros Hex Hver w2 w3 c2 Hrm Hcl.
    destruct (Runner_setup_flutter_reinstalls w w1 w2 w3 c c2 Hex Hver Hrc Hrm Hcl)
      as [A [B [C [D E]]]].
    split; [exact A|]. split; [exact B|]. split; [exact C|]. split; [exact D|].
    intros Hc2. split; [now apply E|].
    intros w4 w5 c3 c4 Hna Hpc.
    now rewrite (Runner_setup_flutter_reinstalled w w1 w2 w3 w4 w5 c c2 c3 c4).
  - intros Hex Hver w2 w3 c2 o Hrm Hdl.
    destruct (Builder_setup_android_sdk_reinstalls w w1 w2 w3 c c2 o
                Hex Hver Hrc Hrm Hdl) as [A [B [C D]]].
    split; [exact A|]. split; [exact B|]. split; [exact C|]. split; [exact D|].
    intros Hc2 w4 w5 c3 Hmk Hx.
    now apply (Builder_setup_android_sdk_reinstalled w w1 w2 w3 w4 w5 c c2 c3 o).
  - intros Hex Hver w2 w3 c2 o Hrm Hdl.
    destruct (Runner_setup_android_sdk_reinstalls w w1 w2 w3 c c2 o
                Hex Hver Hrc Hrm Hdl) as [A [B [C D]]].
    split; [exact A|]. split; [exact B|]. split; [exact C|]. split; [exact D|].
    intros Hc2 w4 w5 c3 Hmk Hx.
    now apply (Runner_setup_android_sdk_reinstalled w w1 w2 w3 w4 w5 c c2 c3 o).
  - intros Hex Hver. split.
    + now apply Builder_check_java_broken with (c := c).
    + now apply Runner_check_java_broken with (c := c).
Qed.

Lemma corrupted_install_is_reinstalled_once_witness :
  (removed (snd (Builder.setup_flutter world_corrupted)) = [flutter_dir]
   /\ fst (fst (Builder.setup_flutter world_corrupted)) = Ok true)
  /\ (removed (snd (Runner.setup_android_sdk world_corrupted)) = [android_sdk_dir]
      /\ fst (fst (Runner.setup_android_sdk world_corrupted)) = Ok true)
  /\ fst (fst (Runner.check_java world_corrupted)) = Ok false.
Proof.
  split; [|split].
  - destruct (corrupted_install_is_reinstalled_once Sim.world Sim.host
                world_corrupted world_corrupted
                (mkCompleted 1 "" "bad interpreter"))
      as [F _]; [discriminate|].
    destruct (F eq_refl eq_refl
                (Sim.remove flutter_dir world_corrupted)
                (Sim.remove flutter_dir world_corrupted)
                Sim.quiet eq_refl eq_refl)
      as [R [_ [_ [_ T]]]].
    split; [exact R|].
    destruct (T eq_refl) as [_ T'].
    now rewrite (T' (Sim.remove flutter_dir world_corrupted)
                    (Sim.remove flutter_dir world_corrupted)
                    Sim.quiet Sim.quiet eq_refl eq_refl).
  - destruct (corrupted_install_is_reinstalled_once Sim.world Sim.host
                world_corrupted world_corrupted
                (mkCompleted 1 "" "NoClassDefFoundError"))
      as [_ [_ [_ [S _]]]]; [discriminate|].
    destruct (S eq_refl eq_refl
                (Sim.remove android_sdk_dir world_corrupted)
                (Sim.remove android_sdk_dir world_corrupted)
                Sim.quiet None eq_refl eq_refl)
      as [R [_ [_ [_ T]]]].
    split; [exact R|].
    now rewrite (T eq_refl
                   (Sim.add Runner.cmdline_tools
                      (Sim.remove android_sdk_dir world_corrupted))
                   (Sim.add Runner.cmdline_tools
                      (Sim.remove android_sdk_dir world_corrupted))
                   Sim.quiet eq_refl eq_refl).
  - destruct (corrupted_install_is_reinstalled_once Sim.world Sim.host
                world_corrupted world_corrupted
                (mkCompleted 127 "" "java: not found"))
      as [_ [_ [_ [_ J]]]]; [discriminate|].
    destruct (J eq_refl eq_refl) as [_ J'].
    now rewrite J'.
Defined.

(** C4, the claim refuted: on a machine where Flutter and the SDK tools
    exist and their verification fails before and after a fresh
    installation, [setup_flutter] and [setup_android_sdk] reinstall and
    return [True]; the verification command was spawned once, before the
    installation, and although it still fails in the state they leave,
    no failure is reported.  And [check_java], whose verification fails,
    removes and installs nothing. *)
Lemma fresh_install_is_not_verified :
  (fst (fst (Builder.setup_flutter world_corrupted)) = Ok true
   /\ spawned (snd (Builder.setup_flutter world_corrupted))
      = [ Builder.flutter_version_cmd; Builder.flutter_clone_cmd;
          Builder.flutter_no_analytics_cmd; Builder.flutter_precache_cmd ]
   /\ returncode (Sim.proc (snd (fst (Builder.setup_flutter world_corrupted)))
                    Builder.flutter_version_cmd) = 1%Z)
  /\ (fst (fst (Runner.setup_android_sdk world_corrupted)) = Ok true
      /\ spawned (snd (Runner.setup_android_sdk world_corrupted))
         = [ Runner.sdkmanager_version_cmd; Runner.sdk_download_cmd;
             Runner.sdk_extract_cmd ]
      /\ returncode (Sim.proc (snd (fst (Runner.setup_android_sdk world_corrupted)))
                       Runner.sdkmanager_version_cmd) = 1%Z)
  /\ (fst (fst (Runner.check_java world_corrupted)) = Ok false
      /\ install_actions (snd (Runner.check_java world_corrupted)) = []).
Proof.
  repeat split.
Qed.

(** ** The outcomes of [run_command], in full *)


(** * Further properties of the two scripts *)

(** ** The verdict of the step loop *)

Section Verdict.
Context {W : Type} {HW : Host W}.

Lemma all_pass_stops (name : string) (f : M W bool)
    (rest : list (string * M W bool)) (w w1 : W) (l1 : list event)
    (r : result bool) :
  f w = (r, w1, l1) -> r <> Ok true -> all_pass ((name, f) :: rest) w = None.
Proof.
  intros H Hr. cbn [all_pass]. rewrite H.
  destruct r as [[|]|e]; [congruence|reflexivity|reflexivity].
Qed.

Lemma Builder_run_steps_verdict (steps : list (string * M W bool)) (w : W) :
  exists b w' l,
    Builder.run_steps steps w = (Ok b, w', l)
    /\ ((b = true /\ all_pass steps w = Some (w', l))
        \/ (b = false /\ all_pass steps w = None)).
Proof.
  revert w. induction steps as [|[name f] rest IH]; intros w.
  - exists true, w, []. split; [reflexivity|]. left. now split.
  - destruct (f w) as [[r w1] l1] eqn:Hf.
    destruct r as [[|]|e].
    + destruct (IH w1) as [b [w' [l [Hrun Hv]]]].
      exists b, w', (l1 ++ l)%list. split.
      * rewrite (Builder_step_pass name f rest w w1 l1 Hf), Hrun. reflexivity.
      * cbn [all_pass]. rewrite Hf.
        destruct Hv as [[-> Hp]|[-> Hp]]; rewrite Hp; [left|right]; now split.
    + exists false, w1. eexists. split.
      * apply (Builder_step_stop name f rest w w1 l1 (Ok false) Hf). discriminate.
      * right. split; [reflexivity|].
        apply (all_pass_stops name f rest w w1 l1 (Ok false) Hf). discriminate.
    + exists false, w1. eexists. split.
      * apply (Builder_step_stop name f rest w w1 l1 (Raise e) Hf). discriminate.
      * right. split; [reflexivity|].
        apply (all_pass_stops name f rest w w1 l1 (Raise e) Hf). discriminate.
Qed.

Lemma Runner_run_steps_verdict (steps : list (string * M W bool)) (w : W) :
  exists b w' l,
    Runner.run_steps steps w = (Ok b, w', l)
    /\ ((b = true /\ all_pass steps w = Some (w', l))
        \/ (b = false /\ all_pass steps w = None)).
Proof.
  revert w. induction steps as [|[name f] rest IH]; intros w.
  - exists true, w, []. split; [reflexivity|]. left. now split.
  - destruct (f w) as [[r w1] l1] eqn:Hf.
    destruct r as [[|]|e].
    + destruct (IH w1) as [b [w' [l [Hrun Hv]]]].
      exists b, w', (l1 ++ l)%list. split.
      * rewrite (Runner_step_pass name f rest w w1 l1 Hf), Hrun. reflexivity.
      * cbn [all_pass]. rewrite Hf.
        destruct Hv as [[-> Hp]|[-> Hp]]; rewrite Hp; [left|right]; now split.
    + exists false, w1. eexists. split.
      * apply (Runner_step_stop name f rest w w1 l1 (Ok false) Hf). discriminate.
      * right. split; [reflexivity|].
        apply (all_pass_stops name f rest w w1 l1 (Ok false) Hf). discriminate.
    + exists false, w1. eexists. split.
      * apply (Runner_step_stop name f rest w w1 l1 (Raise e) Hf). discriminate.
      * right. split; [reflexivity|].
        apply (all_pass_stops name f rest w w1 l1 (Raise e) Hf). discriminate.
Qed.

End Verdict.

(** The step loop of either script never raises: whatever the steps do, it
    ends with a boolean, and that boolean is [True] exactly when every
    step, run in order from the state its predecessor left, returned
    [True].  [run_setup] therefore never raises either. *)
Theorem step_loop_verdict :
  forall (W : Type) (HW : Host W) (steps : list (string * M W bool)) (w : W),
    (exists b w' l,
        Builder.run_steps steps w = (Ok b, w', l)
        /\ ((b = true /\ all_pass steps w = Some (w', l))
            \/ (b = false /\ all_pass steps w = None)))
    /\ (exists b w' l,
           Runner.run_steps steps w = (Ok b, w', l)
           /\ ((b = true /\ all_pass steps w = Some (w', l))
               \/ (b = false /\ all_pass steps w = None)))
    /\ (exists b w' l, Runner.run_setup w = (Ok b, w', l)
           /\ (b = true <-> exists w1 l1, all_pass Runner.steps w = Some (w1, l1))).
Proof.
  intros W HW steps w. split; [apply Builder_run_steps_verdict|].
  split; [apply Runner_run_steps_verdict|].
  destruct (Runner_run_steps_verdict Runner.steps w) as [b [w' [l [H Hv]]]].
  unfold Runner.run_setup. run_prog. with_call H.
  destruct Hv as [[-> Hp]|[-> Hp]]; run_prog.
  - exists true. do 2 eexists. split; [reflexivity|].
    split; [intros _; eauto|reflexivity].
  - exists false. do 2 eexists. split; [reflexivity|].
    split; [discriminate|]. intros [w1 [l1 E]]. congruence.
Qed.

(** ** The license acceptance is best effort *)

Section Licenses.
Context {W : Type} {HW : Host W}.

Lemma Runner_install_result (w wl w2 : W) (cl c : Completed) :
  subprocess_run Runner.license_cmd false w = (inr cl, wl) ->
  subprocess_run Runner.install_cmd false wl = (inr c, w2) ->
  fst (Runner.install_sdk_components w) = (Ok (returncode c =? 0)%Z, w2)
  /\ spawned (snd (Runner.install_sdk_components w))
     = [Runner.license_cmd; Runner.install_cmd].
Proof.
  intros Hl Hi.
  pose proof (run_command_completed _ true false _ _ _ Hl) as H1.
  pose proof (run_command_completed _ true false _ _ _ Hi) as H2.
  unfold Runner.install_sdk_components. run_prog.
  with_call H1. with_call H2.
  destruct (returncode c =? 0)%Z; cbn [negb andb]; run_prog; leaf.
Qed.

Lemma Builder_install_result (w wl w2 : W) (cl c : Completed) :
  subprocess_run Builder.license_cmd false w = (inr cl, wl) ->
  subprocess_run Builder.install_cmd false wl = (inr c, w2) ->
  fst (Builder.install_sdk_components w) = (Ok (returncode c =? 0)%Z, w2)
  /\ spawned (snd (Builder.install_sdk_components w))
     = [Builder.license_cmd; Builder.install_cmd].
Proof.
  intros Hl Hi.
  pose proof (run_command_completed _ true false _ _ _ Hl) as H1.
  pose proof (run_command_completed _ true false _ _ _ Hi) as H2.
  unfold Builder.install_sdk_components. run_prog.
  with_call H1. with_call H2.
  destruct (returncode c =? 0)%Z; cbn [negb andb]; run_prog; leaf.
Qed.

End Licenses.

(** In both scripts the exit status of the license acceptance has no
    influence on [install_sdk_components]: once the two processes have
    run, the result is whether the batched installation exited with
    status 0, whatever the license acceptance did. *)
Theorem license_acceptance_is_best_effort :
  forall (W : Type) (HW : Host W) (w wl w2 : W) (cl c : Completed),
    subprocess_run Runner.license_cmd false w = (inr cl, wl) ->
    subprocess_run Runner.install_cmd false wl = (inr c, w2) ->
    (fst (Runner.install_sdk_components w) = (Ok (returncode c =? 0)%Z, w2)
     /\ spawned (snd (Runner.install_sdk_components w))
        = [Runner.license_cmd; Runner.install_cmd])
    /\ (fst (Builder.install_sdk_components w) = (Ok (returncode c =? 0)%Z, w2)
        /\ spawned (snd (Builder.install_sdk_components w))
           = [Builder.license_cmd; Builder.install_cmd]).
Proof.
  intros W HW w wl w2 cl c Hl Hi. split.
  - exact (Runner_install_result w wl w2 cl c Hl Hi).
  - exact (Builder_install_result w wl w2 cl c Hl Hi).
Qed.

Lemma license_acceptance_is_best_effort_witness :
  returncode (Sim.proc world_license_fails Runner.license_cmd) = 1%Z
  /\ fst (fst (Runner.install_sdk_components world_license_fails)) = Ok true
  /\ fst (fst (Builder.install_sdk_components world_license_fails)) = Ok true.
Proof.
  destruct (license_acceptance_is_best_effort Sim.world Sim.host
              world_license_fails world_license_fails world_license_fails
              (mkCompleted 1 "" "licenses not accepted") Sim.quiet
              eq_refl eq_refl) as [[R _] [B _]].
  rewrite R, B. repeat split.
Defined.

(** ** [check_java]: success means verified *)

Section Java.
Context {W : Type} {HW : Host W}.

Lemma run_command_true_inv (cmd : string) (check cap : bool) (w w' : W)
    (out err : string) (l : list event) :
  run_command cmd check cap w = (Ok (true, out, err), w', l) ->
  exists c,
    subprocess_run cmd cap w = (inr c, w') /\ returncode c = 0%Z
    /\ l = [Spawn cmd cap].
Proof.
  destruct (subprocess_run cmd cap w) as [[e|c] w1] eqn:H.
  - rewrite (run_command_not_started cmd check cap w w1 e H). discriminate.
  - rewrite (run_command_completed cmd check cap w w1 c H).
    destruct (returncode c =? 0)%Z eqn:Hrc.
    + apply Z.eqb_eq in Hrc. rewrite andb_false_r.
      destruct cap; intros [= _ _ <- <-]; exists c; auto.
    + rewrite andb_true_r. destruct check; cbn [negb]; [discriminate|].
      destruct cap; discriminate.
Qed.

Lemma Runner_check_java_true (w w' : W) (l : list event) :
  Runner.check_java w = (Ok true, w', l) ->
  exists w0 c,
    subprocess_run Runner.java_version_cmd true w0 = (inr c, w')
    /\ returncode c = 0%Z
    /\ spawned l = if path_exists java_home w
                   then [Runner.java_version_cmd]
                   else [Runner.java_install_cmd; Runner.java_version_cmd].
Proof.
  unfold Runner.check_java. run_prog.
  destruct (path_exists java_home w) eqn:Hex; run_prog.
  - destruct (run_command Runner.java_version_cmd true true w)
      as [[[[[s out] err]|e] w1] l1] eqn:Hv; with_call Hv; [|discriminate].
    destruct s; run_prog; [|discriminate].
    intros [= <- <-].
    destruct (run_command_true_inv _ _ _ _ _ _ _ _ Hv) as [c [H1 [H2 ->]]].
    exists w, c. repeat split; assumption.
  - destruct (run_command_checked Runner.java_install_cmd false w)
      as [wi [[e H]|[[o [r H]]|[rc H]]]]; with_call H; try discriminate.
    destruct (run_command Runner.java_version_cmd true true wi)
      as [[[[[s out] err]|e] w1] l1] eqn:Hv; with_call Hv; [|discriminate].
    destruct s; run_prog; [|discriminate].
    intros [= <- <-].
    destruct (run_command_true_inv _ _ _ _ _ _ _ _ Hv) as [c [H1 [H2 ->]]].
    exists wi, c. repeat split; assumption.
Qed.

Lemma Builder_check_java_true (w w' : W) (l : list event) :
  Builder.check_java w = (Ok true, w', l) ->
  exists w0 c,
    subprocess_run Builder.java_version_cmd true w0 = (inr c, w')
    /\ returncode c = 0%Z
    /\ spawned l = if path_exists java_home w
                   then [Builder.java_version_cmd]
                   else [Builder.java_install_cmd; Builder.java_version_cmd].
Proof.
  unfold Builder.check_java. run_prog.
  destruct (path_exists java_home w) eqn:Hex; run_prog.
  - destruct (run_command Builder.java_version_cmd true true w)
      as [[[[[s out] err]|e] w1] l1] eqn:Hv; with_call Hv; [|discriminate].
    destruct s; run_prog; [|discriminate].
    destruct (out =? ""); run_prog;
      [|destruct (PyStr.first_word out); run_prog; [|discriminate]];
      intros [= <- <-];
      destruct (run_command_true_inv _ _ _ _ _ _ _ _ Hv) as [c [H1 [H2 ->]]];
      exists w, c; repeat split; assumption.
  - destruct (run_command_checked Builder.java_install_cmd false w)
      as [wi [[e H]|[[o [r H]]|[rc H]]]]; with_call H; try discriminate.
    destruct (run_command Builder.java_version_cmd true true wi)
      as [[[[[s out] err]|e] w1] l1] eqn:Hv; with_call Hv; [|discriminate].
    destruct s; run_prog; [|discriminate].
    destruct (out =? ""); run_prog;
      [|destruct (PyStr.first_word out); run_prog; [|discriminate]];
      intros [= <- <-];
      destruct (run_command_true_inv _ _ _ _ _ _ _ _ Hv) as [c [H1 [H2 ->]]];
      exists wi, c; repeat split; assumption.
Qed.

End Java.

(** In both scripts [check_java] returns [True] only after
    [java -version] has run and exited with status 0, as the last command
    of the step; when the Java directory was missing, the installation
    through the package manager ran before it.  Installing alone never
    makes the step succeed. *)
Theorem check_java_true_means_verified :
  forall (W : Type) (HW : Host W) (w w' : W) (l : list event),
    Runner.check_java w = (Ok true, w', l)
    \/ Builder.check_java w = (Ok true, w', l) ->
    exists w0 c,
      subprocess_run Runner.java_version_cmd true w0 = (inr c, w')
      /\ returncode c = 0%Z
      /\ spawned l = if path_exists java_home w
                     then [Runner.java_version_cmd]
                     else [Runner.java_install_cmd; Runner.java_version_cmd].
Proof.
  intros W HW w w' l [H|H].
  - exact (Runner_check_java_true w w' l H).
  - exact (Builder_check_java_true w w' l H).
Qed.

Lemma check_java_true_means_verified_witness :
  spawned (snd (Runner.check_java world_bare))
  = [Runner.java_install_cmd; Runner.java_version_cmd]
  /\ spawned (snd (Builder.check_java world_provisioned))
     = [Runner.java_version_cmd].
Proof.
  assert (HR : Runner.check_java world_bare
               = (Ok true, world_bare, snd (Runner.check_java world_bare)))
    by (vm_compute; reflexivity).
  assert (HB : Builder.check_java world_provisioned
               = (Ok true, world_provisioned,
                  snd (Builder.check_java world_provisioned)))
    by (vm_compute; reflexivity).
  split.
  - destruct (check_java_true_means_verified Sim.world Sim.host
                world_bare world_bare (snd (Runner.check_java world_bare))
                (or_introl HR)) as [w0 [c [_ [_ E]]]].
    exact E.
  - destruct (check_java_true_means_verified Sim.world Sim.host
                world_provisioned world_provisioned
                (snd (Builder.check_java world_provisioned))
                (or_intror HB)) as [w0 [c [_ [_ E]]]].
    exact E.
Defined.

(** ** [check_java] of [build_apk.py]: the version text *)

Section JavaVersionText.
Context {W : Type} {HW : Host W}.

Lemma first_word_blank (s : string) :
  blank s = true -> PyStr.first_word s = None.
Proof.
  intros H. unfold PyStr.first_word.
  assert (E : PyStr.lstrip s = "").
  { induction s as [|c t IH]; [reflexivity|].
    unfold blank in H. cbn [all_chars] in H.
    apply andb_true_iff in H. destruct H as [Hc Ht].
    cbn [PyStr.lstrip]. rewrite Hc. exact (IH Ht). }
  now rewrite E.
Qed.

Lemma Builder_check_java_blank (w w1 : W) (c : Completed) :
  path_exists java_home w = true ->
  subprocess_run Builder.java_version_cmd true w = (inr c, w1) ->
  returncode c = 0%Z ->
  stdout c <> "" ->
  blank (stdout c) = true ->
  Builder.check_java w =
    (Raise (IndexError "list index out of range"), w1,
     [Say ChStep "Checking Java Installation";
      Spawn Builder.java_version_cmd true]).
Proof.
  intros Hex Hrun Hrc Hne Hb.
  pose proof (run_command_completed Builder.java_version_cmd true true w w1 c Hrun)
    as Hc.
  rewrite Hrc in Hc. cbn in Hc.
  unfold Builder.check_java. run_prog. rewrite Hex. run_prog.
  with_call Hc.
  destruct (String.eqb_spec (stdout c) ""); [contradiction|].
  rewrite (first_word_blank _ Hb). reflexivity.
Qed.

Lemma Runner_check_java_blank (w w1 : W) (c : Completed) :
  path_exists java_home w = true ->
  subprocess_run Runner.java_version_cmd true w = (inr c, w1) ->
  returncode c = 0%Z ->
  Runner.check_java w =
    (Ok true, w1,
     [Say ChStep "Checking Java Installation";
      Spawn Runner.java_version_cmd true;
      Say ChSuccess "Java is installed"]).
Proof.
  intros Hex Hrun Hrc.
  pose proof (run_command_completed Runner.java_version_cmd true true w w1 c Hrun)
    as Hc.
  rewrite Hrc in Hc. cbn in Hc.
  unfold Runner.check_java. run_prog. rewrite Hex. run_prog.
  with_call Hc. reflexivity.
Qed.

End JavaVersionText.

(** When Java is installed and [java -version] exits with status 0 but
    writes only white space to its standard output (a line break, say),
    [check_java] of [build_apk.py] raises [IndexError]: the text is not
    empty, so [stdout.split()[0]] is evaluated on an empty list.  The step
    loop of [run] catches it, and the build stops with
    [Exception in Checking Java: list index out of range] although Java
    works.  [check_java] of [finsight_runner.py] does not read the text and
    returns [True] on the same host. *)
Theorem check_java_blank_version_text :
  forall (W : Type) (HW : Host W) (w w1 : W) (c : Completed)
         (fuel : nat) (build_type : string) (skip_clean : bool),
    path_exists java_home w = true ->
    subprocess_run Builder.java_version_cmd true w = (inr c, w1) ->
    returncode c = 0%Z ->
    stdout c <> "" ->
    blank (stdout c) = true ->
    fst (Builder.check_java w)
      = (Raise (IndexError "list index out of range"), w1)
    /\ Builder.run fuel build_type skip_clean w =
         (Ok (Some false), w1,
          [Banner "Flutter APK Automated Build Script";
           Say ChStep "Checking Java Installation";
           Spawn Builder.java_version_cmd true;
           Say ChError "Exception in Checking Java: list index out of range"])
    /\ fst (Runner.check_java w) = (Ok true, w1).
Proof.
  intros W HW w w1 c fuel bt sc Hex Hrun Hrc Hne Hb.
  pose proof (Builder_check_java_blank w w1 c Hex Hrun Hrc Hne Hb) as HB.
  split; [now rewrite HB|]. split.
  - rewrite (Builder_run_stop [] _ "Checking Java" Builder.check_java
               w w w1 [] _ _ fuel bt sc eq_refl eq_refl HB);
      [reflexivity | discriminate].
  - now rewrite (Runner_check_java_blank w w1 c Hex Hrun Hrc).
Qed.

Lemma check_java_blank_version_text_witness :
  Builder.run 1 "release" false world_java_blank_stdout =
    (Ok (Some false), world_java_blank_stdout,
     [Banner "Flutter APK Automated Build Script";
      Say ChStep "Checking Java Installation";
      Spawn Builder.java_version_cmd true;
      Say ChError "Exception in Checking Java: list index out of range"]).
Proof.
  refine (proj1 (proj2 (check_java_blank_version_text Sim.world Sim.host
            world_java_blank_stdout world_java_blank_stdout
            (mkCompleted 0 PyStr.nl "openjdk 17") 1 "release" false
            _ _ _ _ _))).
  - reflexivity.
  - reflexivity.
  - reflexivity.
  - discriminate.
  - reflexivity.
Defined.

(** ** The exit status of [build_apk.py] *)

Section BuilderMain.
Context {W : Type} {HW : Host W}.

Lemma Builder_run_outcome (fuel : nat) (build_type : string)
    (skip_clean : bool) (w : W) :
  exists b w' l,
    Builder.run (S fuel) build_type skip_clean w = (Ok (Some b), w', l)
    /\ (b = true ->
        path_exists (Builder.apk_path build_type) w' = true
        /\ exists w1 l1,
             all_pass (Builder.steps skip_clean) w = Some (w1, l1)
             /\ fst (Builder.build_apk 1 build_type w1)
                = (Ok (Some (true, Some (Builder.apk_path build_type))), w')).
Proof.
  destruct (Builder_run_steps_verdict (Builder.steps skip_clean) w)
    as [b [w1 [l1 [H Hv]]]].
  unfold Builder.run. run_prog. with_call H.
  destruct Hv as [[-> Hp]|[-> Hp]]; run_prog.
  - unfold try_except. unfold bind at 1. rewrite Builder_build_apk_once.
    destruct (Builder.build_apk 1 build_type w1) as [[r w2] l2] eqn:Hb.
    destruct r as [[[[|] p]|]|e]; run_prog.
    + destruct (Builder_build_success_has_artifact 1 build_type w1 w2 p l2 Hb)
        as [-> [Hex _]].
      exists true. do 2 eexists. split; [reflexivity|].
      intros _. split; [exact Hex|]. exists w1, l1. split; [exact Hp|].
      now rewrite Hb.
    + exists false. do 2 eexists. split; [reflexivity|discriminate].
    + exfalso. revert Hb. unfold Builder.build_apk.
      cbn [Builder.build_apk_with]. run_prog.
      destruct (run_command_checked (Builder.build_cmd build_type) true w1)
        as [w3 [[e H']|[[out [err H']]|[rc H']]]]; with_call H'.
      * discriminate.
      * destruct (path_exists (Builder.apk_path build_type) w3); run_prog;
          discriminate.
      * rewrite Builder_error_text. run_prog. discriminate.
    + exists false. do 2 eexists. split; [reflexivity|discriminate].
  - exists false. do 2 eexists. split; [reflexivity|discriminate].
Qed.

End BuilderMain.

(** [main] of [build_apk.py] never lets an exception escape and always
    exits with status 0 or 1.  It exits with status 0 only when every
    step of the pipeline returned [True] and the build that followed
    returned the artifact named after the chosen variant, and that file
    exists when the script ends: [app-release.apk] with [--release],
    [app-debug.apk] without. *)
Theorem build_script_exit_status :
  forall (W : Type) (HW : Host W) (fuel : nat) (a : BuilderCli.args) (w : W),
    exists (status : Z) (w' : W) (l : list event),
      BuilderCli.main (S fuel) a w = (Ok (Some status), w', l)
      /\ (status = 0 \/ status = 1)%Z
      /\ (status = 0%Z ->
          let build_type :=
            if BuilderCli.release a then "release" else "debug" in
          path_exists (Builder.apk_path build_type) w' = true
          /\ exists w1 l1,
               all_pass (Builder.steps (BuilderCli.skip_clean a)) w
               = Some (w1, l1)
               /\ fst (Builder.build_apk 1 build_type w1)
                  = (Ok (Some (true, Some (Builder.apk_path build_type))), w')).
Proof.
  intros W HW fuel a w. unfold BuilderCli.main.
  destruct (Builder_run_outcome fuel
              (if BuilderCli.release a then "release" else "debug")
              (BuilderCli.skip_clean a) w) as [b [w' [l [H Hb]]]].
  with_call H. rewrite app_nil_r.
  destruct b.
  - exists 0%Z, w', l. split; [reflexivity|]. split; [now left|].
    intros _. exact (Hb eq_refl).
  - exists 1%Z, w', l. split; [reflexivity|]. split; [now right|].
    discriminate.
Qed.


(** ** The command line mode of [finsight_runner.py] *)

Section RunnerCommandLine.
Context {W : Type} {HW : Host W}.

Lemma bind_assoc {A B C : Type} (m : M W A) (k1 : A -> M W B)
    (k2 : B -> M W C) (w : W) :
  bind (bind m k1) k2 w = bind m (fun a => bind (k1 a) k2) w.
Proof.
  unfold bind. destruct (m w) as [[[a|e] w1] l1]; [|reflexivity].
  destruct (k1 a w1) as [[[b|e] w2] l2]; cbn [logged]; [|reflexivity].
  destruct (k2 b w2) as [[r w3] l3]. cbn [logged].
  now rewrite app_assoc.
Qed.

Lemma Runner_run_setup_failed (w : W) :
  all_pass Runner.steps w = None ->
  exists w1 l1, Runner.run_setup w = (Ok false, w1, l1).
Proof.
  intros Hnone.
  destruct (Runner_run_steps_verdict Runner.steps w) as [b [w' [l [H Hv]]]].
  destruct Hv as [[_ Hp]|[-> _]]; [congruence|].
  unfold Runner.run_setup. run_prog. with_call H.
  do 2 eexists. reflexivity.
Qed.

Lemma command_line_setup_failed (fuel : nat) (a : RunnerCli.args)
    (w w1 : W) (l1 : list event) :
  RunnerCli.setup a = true ->
  Runner.run_setup w = (Ok false, w1, l1) ->
  RunnerCli.command_line fuel a w
  = (Ok (RunnerCli.Exit 1), w1, (l1 ++ [PrintElapsed])%list).
Proof.
  intros Hs H. unfold RunnerCli.command_line. rewrite Hs.
  with_call H. reflexivity.
Qed.

Lemma command_line_install_discarded (fuel : nat) (a : RunnerCli.args)
    (v : RunnerCli.variant) (w w1 w2 : W) (p : option string)
    (l1 l2 : list event) (r : result bool) :
  RunnerCli.setup a = false ->
  RunnerCli.clean a = false ->
  RunnerCli.build a = Some v ->
  RunnerCli.install a = true ->
  RunnerCli.run a = false ->
  Runner.build_apk fuel (RunnerCli.variant_str v) w
  = (Ok (Some (true, p)), w1, l1) ->
  Runner.install_apk (Runner.apk_path (RunnerCli.variant_str v)) w1
  = (r, w2, l2) ->
  RunnerCli.command_line fuel a w
  = match r with
    | Ok _ => (Ok (RunnerCli.Exit 0), w2, (l1 ++ l2 ++ [PrintElapsed])%list)
    | Raise e => (Raise e, w2, (l1 ++ l2)%list)
    end.
Proof.
  intros Hs Hc Hb Hi Hr Hbuild Hinst.
  destruct (Runner_build_success_has_artifact fuel _ w w1 p l1 Hbuild)
    as [-> _].
  unfold RunnerCli.command_line. rewrite Hs, Hc, Hb, Hi, Hr. run_prog.
  rewrite !logged_nil, bind_assoc.
  with_call Hbuild. rewrite !bind_assoc.
  destruct r as [b|e]; with_call Hinst.
  - cbn [logged app]. reflexivity.
  - cbn [logged]. reflexivity.
Qed.

End RunnerCommandLine.

(** In the command line mode of [finsight_runner.py], a setup that fails
    ends the run: when [--setup] is given and some step of the setup does
    not return [True], [main] exits with status 1 right after the setup,
    and nothing is cleaned, built, installed or run, whatever the other
    options are. *)
Theorem command_line_stops_after_failed_setup :
  forall (W : Type) (HW : Host W) (fuel : nat) (a : RunnerCli.args)
         (stdin : list string) (w : W),
    RunnerCli.interactive a = false ->
    RunnerCli.setup a = true ->
    all_pass Runner.steps w = None ->
    exists w1 l1,
      Runner.run_setup w = (Ok false, w1, l1)
      /\ RunnerCli.main fuel false a stdin w
         = (Ok (RunnerCli.Exit 1), w1, (l1 ++ [PrintElapsed])%list).
Proof.
  intros W HW fuel a stdin w Hi Hs Hnone.
  destruct (Runner_run_setup_failed w Hnone) as [w1 [l1 H]].
  exists w1, l1. split; [exact H|].
  unfold RunnerCli.main. rewrite Hi. cbn [orb].
  exact (command_line_setup_failed fuel a w w1 l1 Hs H).
Qed.

Lemma command_line_stops_after_failed_setup_witness :
  spawned (snd (RunnerCli.main 1 false
                  (RunnerCli.mkArgs true true (Some RunnerCli.release)
                     true true false)
                  [] world_clone_fails))
  = [Runner.java_version_cmd; Runner.flutter_clone_cmd].
Proof.
  destruct (command_line_stops_after_failed_setup Sim.world Sim.host 1
              (RunnerCli.mkArgs true true (Some RunnerCli.release)
                 true true false)
              [] world_clone_fails eq_refl eq_refl eq_refl)
    as [w1 [l1 [H1 H2]]].
  rewrite H2.
  assert (E : l1 = snd (Runner.run_setup world_clone_fails))
    by now rewrite H1.
  rewrite E. vm_compute. reflexivity.
Defined.

(** The result of [install_apk] is thrown away by the command line mode:
    with [--build] and [--install], once the build has succeeded the
    program exits with status 0 whether the installation returned [True]
    or [False] (no device, or [adb install] failed); only an exception
    raised by the installation changes how the program ends. *)
Theorem command_line_ignores_install_result :
  forall (W : Type) (HW : Host W) (fuel : nat) (a : RunnerCli.args)
         (v : RunnerCli.variant) (stdin : list string) (w w1 w2 : W)
         (p : option string) (installed : bool) (l1 l2 : list event),
    RunnerCli.interactive a = false ->
    RunnerCli.setup a = false ->
    RunnerCli.clean a = false ->
    RunnerCli.build a = Some v ->
    RunnerCli.install a = true ->
    RunnerCli.run a = false ->
    Runner.build_apk fuel (RunnerCli.variant_str v) w
    = (Ok (Some (true, p)), w1, l1) ->
    Runner.install_apk (Runner.apk_path (RunnerCli.variant_str v)) w1
    = (Ok installed, w2, l2) ->
    RunnerCli.main fuel false a stdin w
    = (Ok (RunnerCli.Exit 0), w2, (l1 ++ l2 ++ [PrintElapsed])%list).
Proof.
  intros W HW fuel a v stdin w w1 w2 p installed l1 l2
         Hi Hs Hc Hb Hin Hr Hbuild Hinst.
  unfold RunnerCli.main. rewrite Hi. cbn [orb].
  exact (command_line_install_discarded fuel a v w w1 w2 p l1 l2
           (Ok installed) Hs Hc Hb Hin Hr Hbuild Hinst).
Qed.

Lemma command_line_ignores_install_result_witness :
  fst (fst (Runner.install_apk (Runner.apk_path "debug")
              world_build_with_artifact)) = Ok false
  /\ fst (fst (RunnerCli.main 1 false
                 (RunnerCli.mkArgs false false (Some RunnerCli.debug)
                    true false false)
                 [] world_build_with_artifact))
     = Ok (RunnerCli.Exit 0).
Proof.
  split; [reflexivity|].
  rewrite (command_line_ignores_install_result Sim.world Sim.host 1
             (RunnerCli.mkArgs false false (Some RunnerCli.debug)
                true false false)
             RunnerCli.debug [] world_build_with_artifact
             world_build_with_artifact world_build_with_artifact
             (Some (Runner.apk_path "debug")) false
             (snd (Runner.build_apk 1 "debug" world_build_with_artifact))
             (snd (Runner.install_apk (Runner.apk_path "debug")
                     world_build_with_artifact))
             eq_refl eq_refl eq_refl eq_refl eq_refl eq_refl);
    [reflexivity | vm_compute; reflexivity | vm_compute; reflexivity].
Defined.

(** ** The menu of [finsight_runner.py] *)

Section Menu.
Context {W : Type} {HW : Host W}.

Lemma bind_inv {A B : Type} (m : M W A) (k : A -> M W B) (w w' : W) (b : B)
    (l : list event) :
  bind m k w = (Ok b, w', l) ->
  exists a w1 l1 l2,
    m w = (Ok a, w1, l1) /\ k a w1 = (Ok b, w', l2) /\ l = (l1 ++ l2)%list.
Proof.
  unfold bind. destruct (m w) as [[[a|e] w1] l1]; [|discriminate].
  destruct (k a w1) as [[r w2] l2] eqn:Hk. cbn [logged].
  intros [= -> -> <-]. exists a, w1, l1, l2. auto.
Qed.

Lemma Runner_build_apk_some (fuel : nat) (build_type : string) (w w' : W)
    (l : list event) :
  Runner.build_apk (S fuel) build_type w <> (Ok None, w', l).
Proof.
  rewrite Runner_build_apk_once.
  unfold Runner.build_apk. cbn [Runner.build_apk_with]. run_prog.
  destruct (run_command_checked (Runner.build_cmd build_type) true w)
    as [w1 [[e H]|[[out [err H]]|[rc H]]]]; with_call H.
  - discriminate.
  - destruct (path_exists (Runner.apk_path build_type) w1); run_prog;
      discriminate.
  - rewrite Runner_error_text. run_prog.
    destruct (negb _); run_prog; discriminate.
Qed.

Ltac open_bind H :=
  let a := fresh "a" in
  let w1 := fresh "w" in
  let l1 := fresh "l" in
  let l2 := fresh "l" in
  let H1 := fresh "Hm" in
  let E := fresh "E" in
  apply bind_inv in H; destruct H as [a [w1 [l1 [l2 [H1 [H E]]]]]].

(** With room for one build, no branch of the menu runs out of fuel. *)
Lemma action_done (fuel : nat) (choice : string) (act : M W bool)
    (w w' : W) (d : bool) (l : list event) :
  RunnerCli.action (S fuel) choice = Some act ->
  act w = (Ok d, w', l) -> d = true.
Proof.
  unfold RunnerCli.action.
  destruct (String.eqb choice "1"); [intros [= <-] H|].
  { open_bind H. open_bind H. now injection H as <- _ _. }
  destruct (String.eqb choice "2"); [intros [= <-] H|].
  { open_bind H. destruct a as [[s p]|].
    - open_bind H. now injection H as <- _ _.
    - now apply Runner_build_apk_some in Hm. }
  destruct (String.eqb choice "3"); [intros [= <-] H|].
  { open_bind H. destruct a as [[s p]|].
    - open_bind H. now injection H as <- _ _.
    - now apply Runner_build_apk_some in Hm. }
  destruct (String.eqb choice "4"); [intros [= <-] H|].
  { open_bind H. destruct a as [[s p]|].
    - open_bind H. now injection H as <- _ _.
    - now apply Runner_build_apk_some in Hm. }
  destruct (String.eqb choice "5"); [intros [= <-] H|].
  { open_bind H. now injection H as <- _ _. }
  destruct (String.eqb choice "6"); [intros [= <-] H|discriminate].
  { open_bind H. open_bind H. destruct a0 as [x|].
    - now injection H as <- _ _.
    - now apply Runner_build_apk_some in Hm0. }
Qed.

Lemma menu_loop_ends (fuel n : nat) :
  forall (stdin : list string), length stdin <= n ->
  forall (w w' : W) (s : RunnerCli.session) (l : list event),
    RunnerCli.menu_loop (S fuel) stdin w = (Ok s, w', l) ->
    (s = RunnerCli.Exit 0 /\ In "0" (map PyStr.strip stdin))
    \/ s = RunnerCli.EndOfInput.
Proof.
  induction n as [|n IH]; intros stdin Hn w w' s l H.
  - destruct stdin; [|cbn in Hn; lia].
    cbn [RunnerCli.menu_loop] in H. open_bind H.
    injection H as <- _ _. now right.
  - destruct stdin as [|line rest].
    { cbn [RunnerCli.menu_loop] in H. open_bind H.
      injection H as <- _ _. now right. }
    cbn [RunnerCli.menu_loop] in H. open_bind H.
    cbn [map In].
    destruct (String.eqb_spec (PyStr.strip line) "0") as [E0|N0].
    { open_bind H. injection H as <- _ _. left. split; [reflexivity|].
      left. exact E0. }
    destruct (RunnerCli.action (S fuel) (PyStr.strip line)) as [act|] eqn:Ha.
    + open_bind H.
      rewrite (action_done fuel _ act _ _ _ _ Ha Hm0) in H.
      open_bind H.
      destruct rest as [|enter rest'].
      * injection H as <- _ _. now right.
      * cbn [length] in Hn.
        destruct (IH rest' ltac:(lia) _ _ _ _ H) as [[-> Hin]| ->];
          [left|now right].
        split; [reflexivity|]. cbn [map In]. auto.
    + open_bind H. cbn [length] in Hn.
      destruct (IH rest ltac:(lia) _ _ _ _ H) as [[-> Hin]| ->];
        [left|now right].
      split; [reflexivity|]. auto.
Qed.

End Menu.

(** The menu of [finsight_runner.py] is left in one way only: whatever the
    user enters and whatever the actions do, a session that ends without
    an exception either exits with status 0, after a line that is [0] once
    stripped of white space, or stops because the standard input is
    exhausted.  No failure of an action - a failed run, build, install or
    setup - ends the loop or gives a status other than 0. *)
Theorem menu_exits_with_status_zero :
  forall (W : Type) (HW : Host W) (fuel : nat) (a : RunnerCli.args)
         (stdin : list string) (w w' : W) (s : RunnerCli.session)
         (l : list event),
    RunnerCli.main (S fuel) true a stdin w = (Ok s, w', l) ->
    (s = RunnerCli.Exit 0 /\ In "0" (map PyStr.strip stdin))
    \/ s = RunnerCli.EndOfInput.
Proof.
  intros W HW fuel a stdin w w' s l H.
  unfold RunnerCli.main in H. cbn [orb] in H.
  exact (menu_loop_ends fuel (length stdin) stdin (le_n _) w w' s l H).
Qed.

Lemma menu_exits_with_status_zero_witness :
  errors (snd (RunnerCli.main 1 true
                 (RunnerCli.mkArgs false false None false false false)
                 ["3"; ""; " 0 "] world_release_fails_debug_builds))
  = ["Build failed"; "Build failed"]
  /\ ((RunnerCli.Exit 0 = RunnerCli.Exit 0
       /\ In "0" (map PyStr.strip ["3"; ""; " 0 "]))
      \/ RunnerCli.Exit 0 = RunnerCli.EndOfInput).
Proof.
  split; [vm_compute; reflexivity|].
  apply (menu_exits_with_status_zero Sim.world Sim.host 0
           (RunnerCli.mkArgs false false None false false false)
           ["3"; ""; " 0 "] world_release_fails_debug_builds
           world_release_fails_debug_builds (RunnerCli.Exit 0)
           (snd (RunnerCli.main 1 true
                   (RunnerCli.mkArgs false false None false false false)
                   ["3"; ""; " 0 "] world_release_fails_debug_builds))).
  vm_compute. reflexivity.
Defined.

(** ** [clean_build] *)

Section Clean.
Context {W : Type} {HW : Host W}.

Lemma rmtree_failed (p : string) (w w' : W) (e : exn) :
  shutil_rmtree p w = (Some e, w') ->
  rmtree p false w = (Raise e, w', [Rmtree p]).
Proof. intros H. unfold rmtree. now rewrite H. Qed.

Lemma Runner_clean_build_result (w w1 : W) (c : Completed) :
  subprocess_run Runner.clean_cmd false w = (inr c, w1) ->
  fst (Runner.clean_build w)
  = (Ok true,
     if path_exists Runner.android_build w1
     then snd (shutil_rmtree Runner.android_build w1) else w1).
Proof.
  intros Hrun.
  pose proof (run_command_completed Runner.clean_cmd true false w w1 c Hrun)
    as Hc.
  unfold Runner.clean_build. run_prog. with_call Hc.
  destruct (path_exists Runner.android_build w1); run_prog; [|reflexivity].
  destruct (shutil_rmtree Runner.android_build w1) as [o w2] eqn:Hrm.
  pose proof (rmtree_ignoring Runner.android_build w1 w2 o Hrm) as Hr.
  with_call Hr. reflexivity.
Qed.

Lemma Builder_clean_build_result (w w1 : W) (c : Completed) :
  subprocess_run Builder.clean_cmd false w = (inr c, w1) ->
  fst (Builder.clean_build w)
  = if path_exists Builder.android_build w1
    then (match fst (shutil_rmtree Builder.android_build w1) with
          | None => Ok true
          | Some e => Raise e
          end, snd (shutil_rmtree Builder.android_build w1))
    else (Ok true, w1).
Proof.
  intros Hrun.
  pose proof (run_command_completed Builder.clean_cmd true false w w1 c Hrun)
    as Hc.
  unfold Builder.clean_build. run_prog. with_call Hc.
  destruct (path_exists Builder.android_build w1); run_prog; [|reflexivity].
  destruct (shutil_rmtree Builder.android_build w1) as [[e|] w2] eqn:Hrm.
  - pose proof (rmtree_failed Builder.android_build w1 w2 e Hrm) as Hr.
    with_call Hr. reflexivity.
  - pose proof (rmtree_done Builder.android_build false w1 w2 Hrm) as Hr.
    with_call Hr. reflexivity.
Qed.

End Clean.

(** [clean_build] does not look at the outcome of [flutter clean]: once
    the command has run, with whatever exit status, the step goes on to
    the Android build directory.  In [finsight_runner.py] it then returns
    [True] in every case, a failed removal included; in [build_apk.py] it
    returns [True] unless the removal of the directory raises, and then
    that error is what the step raises.  Neither returns [False]. *)
Theorem clean_build_ignores_flutter_clean :
  forall (W : Type) (HW : Host W) (w w1 : W) (c : Completed),
    subprocess_run Runner.clean_cmd false w = (inr c, w1) ->
    fst (Runner.clean_build w)
    = (Ok true,
       if path_exists Runner.android_build w1
       then snd (shutil_rmtree Runner.android_build w1) else w1)
    /\ fst (Builder.clean_build w)
       = (if path_exists Runner.android_build w1
          then (match fst (shutil_rmtree Runner.android_build w1) with
                | None => Ok true
                | Some e => Raise e
                end, snd (shutil_rmtree Runner.android_build w1))
          else (Ok true, w1)).
Proof.
  intros W HW w w1 c H. split.
  - exact (Runner_clean_build_result w w1 c H).
  - exact (Builder_clean_build_result w w1 c H).
Qed.

Lemma clean_build_ignores_flutter_clean_witness :
  returncode (Sim.proc world_clean_fails Runner.clean_cmd) = 1%Z
  /\ fst (fst (Runner.clean_build world_clean_fails)) = Ok true
  /\ fst (fst (Builder.clean_build world_clean_fails)) = Ok true
  /\ Sim.has Runner.android_build
       (snd (fst (Builder.clean_build world_clean_fails))) = false.
Proof.
  pose proof (clean_build_ignores_flutter_clean Sim.world Sim.host
                world_clean_fails world_clean_fails
                (mkCompleted 1 "" "pubspec.yaml not found") eq_refl)
    as [HR HB].
  split; [reflexivity|].
  split; [now rewrite HR|].
  split; now rewrite HB.
Defined.

(** ** Installing on a machine that has neither Flutter nor the SDK *)

Section FreshInstall.
Context {W : Type} {HW : Host W}.

Lemma run_command_exit_0 (cmd : string) (cap : bool) (w w1 : W)
    (c : Completed) :
  subprocess_run cmd cap w = (inr c, w1) ->
  returncode c = 0%Z ->
  run_command cmd true cap w
  = (Ok (true, (if cap then stdout c else ""), (if cap then stderr c else "")),
     w1, [Spawn cmd cap]).
Proof.
  intros H Hrc. rewrite (run_command_completed cmd true cap w w1 c H).
  rewrite Hrc. cbn. now destruct cap.
Qed.

Lemma run_command_exit_other (cmd : string) (cap : bool) (w w1 : W)
    (c : Completed) :
  subprocess_run cmd cap w = (inr c, w1) ->
  returncode c <> 0%Z ->
  run_command cmd true cap w
  = (Ok (false, "", CalledProcessError_str cmd (returncode c)),
     w1, [Spawn cmd cap]).
Proof.
  intros H Hrc. rewrite (run_command_completed cmd true cap w w1 c H).
  apply Z.eqb_neq in Hrc. rewrite Hrc. reflexivity.
Qed.

Lemma run_command_any (cmd : string) (cap : bool) (w w1 : W) (c : Completed) :
  subprocess_run cmd cap w = (inr c, w1) ->
  exists r, run_command cmd true cap w = (Ok r, w1, [Spawn cmd cap]).
Proof.
  intros H. rewrite (run_command_completed cmd true cap w w1 c H).
  eexists. reflexivity.
Qed.

Lemma Runner_setup_flutter_clone_failed (w w1 : W) (c : Completed) :
  path_exists flutter_dir w = false ->
  subprocess_run Runner.flutter_clone_cmd false w = (inr c, w1) ->
  returncode c <> 0%Z ->
  fst (Runner.setup_flutter w) = (Ok false, w1)
  /\ spawned (snd (Runner.setup_flutter w)) = [Runner.flutter_clone_cmd].
Proof.
  intros Hex H Hrc.
  pose proof (run_command_exit_other _ _ _ _ _ H Hrc) as Hc.
  unfold Runner.setup_flutter. run_prog. rewrite Hex. run_prog.
  with_call Hc. leaf.
Qed.

Lemma Builder_setup_flutter_clone_failed (w w1 : W) (c : Completed) :
  path_exists flutter_dir w = false ->
  subprocess_run Builder.flutter_clone_cmd false w = (inr c, w1) ->
  returncode c <> 0%Z ->
  fst (Builder.setup_flutter w) = (Ok false, w1)
  /\ spawned (snd (Builder.setup_flutter w)) = [Builder.flutter_clone_cmd].
Proof.
  intros Hex H Hrc.
  pose proof (run_command_exit_other _ _ _ _ _ H Hrc) as Hc.
  unfold Builder.setup_flutter. run_prog. rewrite Hex. run_prog.
  with_call Hc. leaf.
Qed.

Lemma Runner_setup_flutter_cloned (w w1 w2 w3 : W) (c c2 c3 : Completed) :
  path_exists flutter_dir w = false ->
  subprocess_run Runner.flutter_clone_cmd false w = (inr c, w1) ->
  returncode c = 0%Z ->
  subprocess_run Runner.flutter_no_analytics_cmd false w1 = (inr c2, w2) ->
  subprocess_run Runner.flutter_precache_cmd false w2 = (inr c3, w3) ->
  fst (Runner.setup_flutter w) = (Ok true, w3)
  /\ spawned (snd (Runner.setup_flutter w))
     = [Runner.flutter_clone_cmd; Runner.flutter_no_analytics_cmd;
        Runner.flutter_precache_cmd].
Proof.
  intros Hex H Hrc H2 H3.
  pose proof (run_command_exit_0 _ _ _ _ _ H Hrc) as Hc. cbn in Hc.
  destruct (run_command_any _ _ _ _ _ H2) as [r2 Hc2].
  destruct (run_command_any _ _ _ _ _ H3) as [r3 Hc3].
  unfold Runner.setup_flutter. run_prog. rewrite Hex. run_prog.
  with_call Hc. with_call Hc2. with_call Hc3. leaf.
Qed.

Lemma Builder_setup_flutter_cloned (w w1 w2 w3 : W) (c c2 c3 : Completed) :
  path_exists flutter_dir w = false ->
  subprocess_run Builder.flutter_clone_cmd false w = (inr c, w1) ->
  returncode c = 0%Z ->
  subprocess_run Builder.flutter_no_analytics_cmd false w1 = (inr c2, w2) ->
  subprocess_run Builder.flutter_precache_cmd false w2 = (inr c3, w3) ->
  fst (Builder.setup_flutter w) = (Ok true, w3)
  /\ spawned (snd (Builder.setup_flutter w))
     = [Builder.flutter_clone_cmd; Builder.flutter_no_analytics_cmd;
        Builder.flutter_precache_cmd].
Proof.
  intros Hex H Hrc H2 H3.
  pose proof (run_command_exit_0 _ _ _ _ _ H Hrc) as Hc. cbn in Hc.
  destruct (run_command_any _ _ _ _ _ H2) as [r2 Hc2].
  destruct (run_command_any _ _ _ _ _ H3) as [r3 Hc3].
  unfold Builder.setup_flutter. run_prog. rewrite Hex. run_prog.
  with_call Hc. with_call Hc2. with_call Hc3. leaf.
Qed.

End FreshInstall.

(** When the Flutter directory does not exist, the result of
    [setup_flutter] is the status of [git clone] alone, in both scripts.
    A failed clone gives [False] with nothing else spawned.  After a
    successful clone the two configuration commands are run and the step
    returns [True] whatever status they exit with; [flutter --version] is
    not run on the fresh installation. *)
Theorem setup_flutter_fresh_install :
  forall (W : Type) (HW : Host W) (w w1 : W) (c : Completed),
    path_exists flutter_dir w = false ->
    subprocess_run Runner.flutter_clone_cmd false w = (inr c, w1) ->
    (returncode c <> 0%Z ->
     (fst (Runner.setup_flutter w) = (Ok false, w1)
      /\ spawned (snd (Runner.setup_flutter w)) = [Runner.flutter_clone_cmd])
     /\ (fst (Builder.setup_flutter w) = (Ok false, w1)
         /\ spawned (snd (Builder.setup_flutter w))
            = [Builder.flutter_clone_cmd]))
    /\ (returncode c = 0%Z ->
        (forall (w2 w3 : W) (c2 c3 : Completed),
            subprocess_run Runner.flutter_no_analytics_cmd false w1
            = (inr c2, w2) ->
            subprocess_run Runner.flutter_precache_cmd false w2
            = (inr c3, w3) ->
            fst (Runner.setup_flutter w) = (Ok true, w3)
            /\ spawned (snd (Runner.setup_flutter w))
               = [Runner.flutter_clone_cmd; Runner.flutter_no_analytics_cmd;
                  Runner.flutter_precache_cmd])
        /\ (forall (w2 w3 : W) (c2 c3 : Completed),
               subprocess_run Builder.flutter_no_analytics_cmd false w1
               = (inr c2, w2) ->
               subprocess_run Builder.flutter_precache_cmd false w2
               = (inr c3, w3) ->
               fst (Builder.setup_flutter w) = (Ok true, w3)
               /\ spawned (snd (Builder.setup_flutter w))
                  = [Builder.flutter_clone_cmd;
                     Builder.flutter_no_analytics_cmd;
                     Builder.flutter_precache_cmd])).
Proof.
  intros W HW w w1 c Hex H. split.
  - intros Hrc. split.
    + exact (Runner_setup_flutter_clone_failed w w1 c Hex H Hrc).
    + exact (Builder_setup_flutter_clone_failed w w1 c Hex H Hrc).
  - intros Hrc. split.
    + intros w2 w3 c2 c3 H2 H3.
      exact (Runner_setup_flutter_cloned w w1 w2 w3 c c2 c3 Hex H Hrc H2 H3).
    + intros w2 w3 c2 c3 H2 H3.
      exact (Builder_setup_flutter_cloned w w1 w2 w3 c c2 c3 Hex H Hrc H2 H3).
Qed.

Lemma setup_flutter_fresh_install_witness :
  returncode (Sim.proc world_precache_fails Runner.flutter_precache_cmd) = 1%Z
  /\ fst (fst (Runner.setup_flutter world_precache_fails)) = Ok true
  /\ fst (fst (Builder.setup_flutter world_precache_fails)) = Ok true.
Proof.
  destruct (setup_flutter_fresh_install Sim.world Sim.host
              world_precache_fails world_precache_fails Sim.quiet
              eq_refl eq_refl) as [_ H].
  destruct (H eq_refl) as [HR HB].
  split; [reflexivity|]. split.
  - destruct (HR world_precache_fails world_precache_fails Sim.quiet
                (mkCompleted 1 "" "Connection reset") eq_refl eq_refl)
      as [E _].
    now rewrite E.
  - destruct (HB world_precache_fails world_precache_fails Sim.quiet
                (mkCompleted 1 "" "Connection reset") eq_refl eq_refl)
      as [E _].
    now rewrite E.
Defined.

Section FreshSdk.
Context {W : Type} {HW : Host W}.

Lemma mkdir_failed (p : string) (w w' : W) (e : exn) :
  path_mkdir p w = (Some e, w') -> mkdir p w = (Raise e, w', [Mkdir p]).
Proof. intros H. unfold mkdir. now rewrite H. Qed.

Lemma Runner_sdk_download_failed (w w1 : W) (c : Completed) :
  path_exists Runner.cmdline_tools w = false ->
  subprocess_run Runner.sdk_download_cmd false w = (inr c, w1) ->
  returncode c <> 0%Z ->
  fst (Runner.setup_android_sdk w) = (Ok false, w1)
  /\ install_actions (snd (Runner.setup_android_sdk w))
     = [Spawn Runner.sdk_download_cmd false].
Proof.
  intros Hex H Hrc.
  pose proof (run_command_exit_other _ _ _ _ _ H Hrc) as Hc.
  unfold Runner.setup_android_sdk. run_prog. rewrite Hex. run_prog.
  with_call Hc. leaf.
Qed.

Lemma Builder_sdk_download_failed (w w1 : W) (c : Completed) :
  path_exists Builder.cmdline_tools w = false ->
  subprocess_run Builder.sdk_download_cmd false w = (inr c, w1) ->
  returncode c <> 0%Z ->
  fst (Builder.setup_android_sdk w) = (Ok false, w1)
  /\ install_actions (snd (Builder.setup_android_sdk w))
     = [Spawn Builder.sdk_download_cmd false].
Proof.
  intros Hex H Hrc.
  pose proof (run_command_exit_other _ _ _ _ _ H Hrc) as Hc.
  unfold Builder.setup_android_sdk. run_prog. rewrite Hex. run_prog.
  with_call Hc. leaf.
Qed.

Lemma Runner_sdk_unpacked (w w1 w2 w3 : W) (c c2 : Completed) :
  path_exists Runner.cmdline_tools w = false ->
  subprocess_run Runner.sdk_download_cmd false w = (inr c, w1) ->
  returncode c = 0%Z ->
  path_mkdir Runner.cmdline_tools w1 = (None, w2) ->
  subprocess_run Runner.sdk_extract_cmd false w2 = (inr c2, w3) ->
  fst (Runner.setup_android_sdk w) = (Ok (returncode c2 =? 0)%Z, w3)
  /\ install_actions (snd (Runner.setup_android_sdk w))
     = [Spawn Runner.sdk_download_cmd false; Mkdir Runner.cmdline_tools;
        Spawn Runner.sdk_extract_cmd false].
Proof.
  intros Hex H Hrc Hmk H2.
  pose proof (run_command_exit_0 _ _ _ _ _ H Hrc) as Hc. cbn in Hc.
  pose proof (mkdir_done _ _ _ Hmk) as Hm.
  pose proof (run_command_completed _ true false _ _ _ H2) as Hc2.
  unfold Runner.setup_android_sdk. run_prog. rewrite Hex. run_prog.
  with_call Hc. with_call Hm. with_call Hc2.
  destruct (returncode c2 =? 0)%Z; run_prog; leaf.
Qed.

Lemma Builder_sdk_unpacked (w w1 w2 w3 : W) (c c2 : Completed) :
  path_exists Builder.cmdline_tools w = false ->
  subprocess_run Builder.sdk_download_cmd false w = (inr c, w1) ->
  returncode c = 0%Z ->
  path_mkdir Builder.cmdline_tools w1 = (None, w2) ->
  subprocess_run Builder.sdk_extract_cmd false w2 = (inr c2, w3) ->
  fst (Builder.setup_android_sdk w) = (Ok (returncode c2 =? 0)%Z, w3)
  /\ install_actions (snd (Builder.setup_android_sdk w))
     = [Spawn Builder.sdk_download_cmd false; Mkdir Builder.cmdline_tools;
        Spawn Builder.sdk_extract_cmd false].
Proof.
  intros Hex H Hrc Hmk H2.
  pose proof (run_command_exit_0 _ _ _ _ _ H Hrc) as Hc. cbn in Hc.
  pose proof (mkdir_done _ _ _ Hmk) as Hm.
  pose proof (run_command_completed _ true false _ _ _ H2) as Hc2.
  unfold Builder.setup_android_sdk. run_prog. rewrite Hex. run_prog.
  with_call Hc. with_call Hm. with_call Hc2.
  destruct (returncode c2 =? 0)%Z; run_prog; leaf.
Qed.

Lemma Runner_sdk_mkdir_failed (w w1 w2 : W) (c : Completed) (e : exn) :
  path_exists Runner.cmdline_tools w = false ->
  subprocess_run Runner.sdk_download_cmd false w = (inr c, w1) ->
  returncode c = 0%Z ->
  path_mkdir Runner.cmdline_tools w1 = (Some e, w2) ->
  fst (Runner.setup_android_sdk w) = (Raise e, w2).
Proof.
  intros Hex H Hrc Hmk.
  pose proof (run_command_exit_0 _ _ _ _ _ H Hrc) as Hc. cbn in Hc.
  pose proof (mkdir_failed _ _ _ _ Hmk) as Hm.
  unfold Runner.setup_android_sdk. run_prog. rewrite Hex. run_prog.
  with_call Hc. with_call Hm. leaf.
Qed.

Lemma Builder_sdk_mkdir_failed (w w1 w2 : W) (c : Completed) (e : exn) :
  path_exists Builder.cmdline_tools w = false ->
  subprocess_run Builder.sdk_download_cmd false w = (inr c, w1) ->
  returncode c = 0%Z ->
  path_mkdir Builder.cmdline_tools w1 = (Some e, w2) ->
  fst (Builder.setup_android_sdk w) = (Raise e, w2).
Proof.
  intros Hex H Hrc Hmk.
  pose proof (run_command_exit_0 _ _ _ _ _ H Hrc) as Hc. cbn in Hc.
  pose proof (mkdir_failed _ _ _ _ Hmk) as Hm.
  unfold Builder.setup_android_sdk. run_prog. rewrite Hex. run_prog.
  with_call Hc. with_call Hm. leaf.
Qed.

End FreshSdk.

(** When the SDK command line tools do not exist, [setup_android_sdk]
    downloads the archive, creates the tools directory and unpacks the
    archive into it, in this order, in both scripts.  A failed download
    gives [False] before the directory is created; a directory that cannot
    be created makes the step raise; otherwise the result is whether the
    unpacking exited with status 0.  [sdkmanager --version] is not run on
    the fresh installation. *)
Theorem setup_android_sdk_fresh_install :
  forall (W : Type) (HW : Host W) (w : W),
    (forall (w1 : W) (c : Completed),
        path_exists Runner.cmdline_tools w = false ->
        subprocess_run Runner.sdk_download_cmd false w = (inr c, w1) ->
        (returncode c <> 0%Z ->
         fst (Runner.setup_android_sdk w) = (Ok false, w1)
         /\ install_actions (snd (Runner.setup_android_sdk w))
            = [Spawn Runner.sdk_download_cmd false])
        /\ (returncode c = 0%Z ->
            (forall (w2 w3 : W) (c2 : Completed),
                path_mkdir Runner.cmdline_tools w1 = (None, w2) ->
                subprocess_run Runner.sdk_extract_cmd false w2 = (inr c2, w3) ->
                fst (Runner.setup_android_sdk w)
                = (Ok (returncode c2 =? 0)%Z, w3)
                /\ install_actions (snd (Runner.setup_android_sdk w))
                   = [Spawn Runner.sdk_download_cmd false;
                      Mkdir Runner.cmdline_tools;
                      Spawn Runner.sdk_extract_cmd false])
            /\ (forall (w2 : W) (e : exn),
                   path_mkdir Runner.cmdline_tools w1 = (Some e, w2) ->
                   fst (Runner.setup_android_sdk w) = (Raise e, w2))))
    /\ (forall (w1 : W) (c : Completed),
           path_exists Builder.cmdline_tools w = false ->
           subprocess_run Builder.sdk_download_cmd false w = (inr c, w1) ->
           (returncode c <> 0%Z ->
            fst (Builder.setup_android_sdk w) = (Ok false, w1)
            /\ install_actions (snd (Builder.setup_android_sdk w))
               = [Spawn Builder.sdk_download_cmd false])
           /\ (returncode c = 0%Z ->
               (forall (w2 w3 : W) (c2 : Completed),
                   path_mkdir Builder.cmdline_tools w1 = (None, w2) ->
                   subprocess_run Builder.sdk_extract_cmd false w2
                   = (inr c2, w3) ->
                   fst (Builder.setup_android_sdk w)
                   = (Ok (returncode c2 =? 0)%Z, w3)
                   /\ install_actions (snd (Builder.setup_android_sdk w))
                      = [Spawn Builder.sdk_download_cmd false;
                         Mkdir Builder.cmdline_tools;
                         Spawn Builder.sdk_extract_cmd false])
               /\ (forall (w2 : W) (e : exn),
                      path_mkdir Builder.cmdline_tools w1 = (Some e, w2) ->
                      fst (Builder.setup_android_sdk w) = (Raise e, w2)))).
Proof.
  intros W HW w. split; intros w1 c Hex H; split.
  - exact (Runner_sdk_download_failed w w1 c Hex H).
  - intros Hrc. split.
    + intros w2 w3 c2.
      exact (Runner_sdk_unpacked w w1 w2 w3 c c2 Hex H Hrc).
    + intros w2 e. exact (Runner_sdk_mkdir_failed w w1 w2 c e Hex H Hrc).
  - exact (Builder_sdk_download_failed w w1 c Hex H).
  - intros Hrc. split.
    + intros w2 w3 c2.
      exact (Builder_sdk_unpacked w w1 w2 w3 c c2 Hex H Hrc).
    + intros w2 e. exact (Builder_sdk_mkdir_failed w w1 w2 c e Hex H Hrc).
Qed.

Lemma setup_android_sdk_fresh_install_witness :
  fst (fst (Runner.setup_android_sdk world_extract_fails)) = Ok false
  /\ fst (fst (Builder.setup_android_sdk world_bare)) = Ok true.
Proof.
  split.
  - destruct (setup_android_sdk_fresh_install Sim.world Sim.host
                world_extract_fails) as [H _].
    destruct (H world_extract_fails Sim.quiet eq_refl eq_refl) as [_ H0].
    destruct (H0 eq_refl) as [H1 _].
    destruct (H1 (Sim.add Runner.cmdline_tools world_extract_fails)
                (Sim.add Runner.cmdline_tools world_extract_fails)
                (mkCompleted 9 "" "End-of-central-directory")
                eq_refl eq_refl) as [E _].
    now rewrite E.
  - destruct (setup_android_sdk_fresh_install Sim.world Sim.host
                world_bare) as [_ H].
    destruct (H world_bare Sim.quiet eq_refl eq_refl) as [_ H0].
    destruct (H0 eq_refl) as [H1 _].
    destruct (H1 (Sim.add Builder.cmdline_tools world_bare)
                (Sim.add Builder.cmdline_tools world_bare)
                Sim.quiet eq_refl eq_refl) as [E _].
    now rewrite E.
Defined.

(** ** [fix_launcher_icons] *)

Section Replace.
Variables (a : ascii) (old' new' : string).
Hypothesis old_tail : all_chars (fun c => negb (Ascii.eqb c a)) old' = true.
Hypothesis new_clean : clean (String a old') (String a new') = true.





End Replace.


Section LauncherIcons.
Context {W : Type} {HW : Host W}.










End LauncherIcons.


(** * Properties of [test_classification.py] *)

Section TestSteps.
Context {W : Type}.

Lemma test_bind_ok {A B} (m : Classification.T W A)
    (k : A -> Classification.T W B) (w w1 : W) (a : A)
    (l1 : list Classification.action) :
  m w = (Ok a, w1, l1) ->
  Classification.bind m k w = Classification.after l1 (k a w1).
Proof. intros H. unfold Classification.bind. now rewrite H. Qed.

Lemma test_bind_raise {A B} (m : Classification.T W A)
    (k : A -> Classification.T W B) (w w1 : W) (e : exn)
    (l1 : list Classification.action) :
  m w = (Raise e, w1, l1) -> Classification.bind m k w = (Raise e, w1, l1).
Proof. intros H. unfold Classification.bind. now rewrite H. Qed.

Lemma test_try_ok {A} (m : Classification.T W A)
    (h : exn -> Classification.T W A) (w w1 : W) (a : A)
    (l1 : list Classification.action) :
  m w = (Ok a, w1, l1) -> Classification.try_except m h w = (Ok a, w1, l1).
Proof. intros H. unfold Classification.try_except. now rewrite H. Qed.

Lemma test_try_raise {A} (m : Classification.T W A)
    (h : exn -> Classification.T W A) (w w1 : W) (e : exn)
    (l1 : list Classification.action) :
  m w = (Raise e, w1, l1) ->
  Classification.try_except m h w = Classification.after l1 (h e w1).
Proof. intros H. unfold Classification.try_except. now rewrite H. Qed.

Lemma test_bind_assoc {A B C : Type} (m : Classification.T W A)
    (k1 : A -> Classification.T W B) (k2 : B -> Classification.T W C)
    (w : W) :
  Classification.bind (Classification.bind m k1) k2 w
  = Classification.bind m (fun a => Classification.bind (k1 a) k2) w.
Proof.
  unfold Classification.bind. destruct (m w) as [[[a|e] w1] l1]; [|reflexivity].
  destruct (k1 a w1) as [[[b|e] w2] l2]; cbn [Classification.after];
    [|reflexivity].
  destruct (k2 b w2) as [[r w3] l3]. cbn [Classification.after].
  now rewrite app_assoc.
Qed.

Lemma tests_run_app (l1 l2 : list Classification.action) :
  Classification.tests_run (l1 ++ l2)
  = (Classification.tests_run l1 ++ Classification.tests_run l2)%list.
Proof. induction l1 as [|[] l1 IH]; simpl; auto. now rewrite IH. Qed.

Lemma written_app (l1 l2 : list Classification.action) :
  Classification.written (l1 ++ l2)
  = (Classification.written l1 ++ Classification.written l2)%list.
Proof. induction l1 as [|[] l1 IH]; simpl; auto. now rewrite IH. Qed.

Lemma unlinked_app (l1 l2 : list Classification.action) :
  Classification.unlinked (l1 ++ l2)
  = (Classification.unlinked l1 ++ Classification.unlinked l2)%list.
Proof. induction l1 as [|[] l1 IH]; simpl; auto. now rewrite IH. Qed.

End TestSteps.

Arguments test_bind_ok {W A B m} k {w w1 a l1} _.
Arguments test_bind_raise {W A B m} k {w w1 e l1} _.
Arguments test_try_ok {W A m} h {w w1 a l1} _.
Arguments test_try_raise {W A m} h {w w1 e l1} _.

Ltac run_test :=
  cbn [Classification.bind Classification.ret Classification.act
       Classification.try_except Classification.for_each
       Classification.after Classification.heading Classification.print
       Classification.exists_ Classification.stat_size app fst snd negb
       andb orb].

Ltac with_test H :=
  repeat first [ rewrite (test_bind_ok _ H) | rewrite (test_bind_raise _ H)
               | rewrite (test_try_ok _ H) | rewrite (test_try_raise _ H)
               | rewrite H ];
  run_test.

Section RunFlutterTest.
Context {W : Type} {HW : Classification.TestHost W}.

Lemma run_flutter_test_result (test_name : string) (w w1 : W)
    (r : Classification.run_end) :
  Classification.flutter_test test_name w = (r, w1) ->
  exists l,
    Classification.run_flutter_test test_name w
    = (Ok (Classification.passed r), w1, l)
    /\ Classification.tests_run l = [test_name]
    /\ Classification.written l = []
    /\ Classification.unlinked l = [].
Proof.
  intros H.
  assert (Hs : Classification.subprocess_run test_name w
               = (Ok r, w1, [Classification.RunTest test_name])).
  { unfold Classification.subprocess_run. now rewrite H. }
  unfold Classification.run_flutter_test. run_test. with_test Hs.
  destruct r as [c| |e]; run_test.
  - destruct (negb (String.eqb (stderr c) "")); run_test;
      eexists; split; try reflexivity; repeat split.
  - eexists; split; try reflexivity; repeat split.
  - eexists; split; try reflexivity; repeat split.
Qed.

End RunFlutterTest.

(** [run_flutter_test] never raises.  It runs the named test once and
    returns [True] exactly when the tool finished within the time limit
    with status 0: a run that times out and a run that cannot be started
    both give [False].  It writes and removes no file. *)
Theorem run_flutter_test_never_raises :
  forall (W : Type) (HW : Classification.TestHost W) (test_name : string)
         (w : W),
    exists l,
      Classification.run_flutter_test test_name w
      = (Ok (match fst (Classification.flutter_test test_name w) with
             | Classification.Finished c => (returncode c =? 0)%Z
             | Classification.TimeoutExpired => false
             | Classification.Failed _ => false
             end),
         snd (Classification.flutter_test test_name w), l)
      /\ Classification.tests_run l = [test_name]
      /\ Classification.written l = []
      /\ Classification.unlinked l = [].
Proof.
  intros W HW test_name w.
  destruct (Classification.flutter_test test_name w) as [r w1] eqn:H.
  destruct (run_flutter_test_result test_name w w1 r H) as [l [E Hl]].
  exists l. split; [|exact Hl]. rewrite E. now destruct r.
Qed.

(** ** The temporary test file *)

Section TempFile.
Context {W : Type} {HW : Classification.TestHost W}.

Lemma test_write_done (p content : string) (w w1 : W) :
  Classification.file_write_text p content w = (None, w1) ->
  Classification.write_text p content w
  = (Ok tt, w1, [Classification.WriteFile p content]).
Proof. intros H. unfold Classification.write_text. now rewrite H. Qed.

Lemma test_write_failed (p content : string) (w w1 : W) (e : exn) :
  Classification.file_write_text p content w = (Some e, w1) ->
  Classification.write_text p content w
  = (Raise e, w1, [Classification.WriteFile p content]).
Proof. intros H. unfold Classification.write_text. now rewrite H. Qed.

Lemma test_unlink_done (p : string) (w w1 : W) :
  Classification.file_unlink p w = (None, w1) ->
  Classification.unlink p w = (Ok tt, w1, [Classification.Unlink p]).
Proof. intros H. unfold Classification.unlink. now rewrite H. Qed.

Lemma test_unlink_failed (p : string) (w w1 : W) (e : exn) :
  Classification.file_unlink p w = (Some e, w1) ->
  Classification.unlink p w = (Raise e, w1, [Classification.Unlink p]).
Proof. intros H. unfold Classification.unlink. now rewrite H. Qed.

Lemma timeout_test_write_failed (w w1 : W) (e : exn) :
  Classification.file_write_text Classification.temp_test
    Classification.test_code w = (Some e, w1) ->
  fst (Classification.test_classification_timeout w) = (Raise e, w1)
  /\ Classification.tests_run
       (snd (Classification.test_classification_timeout w)) = [].
Proof.
  intros Hw. pose proof (test_write_failed _ _ _ _ _ Hw) as H.
  unfold Classification.test_classification_timeout. run_test.
  with_test H. split; reflexivity.
Qed.

Lemma timeout_test_removed (w w1 w2 w3 : W) (r : Classification.run_end) :
  Classification.file_write_text Classification.temp_test
    Classification.test_code w = (None, w1) ->
  Classification.flutter_test "test/temp_timeout_test.dart" w1 = (r, w2) ->
  Classification.file_unlink Classification.temp_test w2 = (None, w3) ->
  fst (Classification.test_classification_timeout w)
  = (Ok (Classification.passed r), w3)
  /\ Classification.unlinked
       (snd (Classification.test_classification_timeout w))
     = [Classification.temp_test].
Proof.
  intros Hw Hr Hu.
  pose proof (test_write_done _ _ _ _ Hw) as H1.
  destruct (run_flutter_test_result _ _ _ _ Hr) as [l [H2 [_ [_ Hl]]]].
  pose proof (test_unlink_done _ _ _ Hu) as H3.
  unfold Classification.test_classification_timeout. run_test.
  with_test H1. unfold Classification.try_except.
  rewrite (test_bind_ok _ H2), (test_bind_ok _ H3). run_test.
  split; [reflexivity|].
  cbn [Classification.unlinked]. rewrite !unlinked_app, Hl. reflexivity.
Qed.

Lemma timeout_test_not_removed (w w1 w2 w3 : W) (r : Classification.run_end)
    (e : exn) :
  Classification.file_write_text Classification.temp_test
    Classification.test_code w = (None, w1) ->
  Classification.flutter_test "test/temp_timeout_test.dart" w1 = (r, w2) ->
  Classification.file_unlink Classification.temp_test w2 = (Some e, w3) ->
  (Classification.file_exists Classification.temp_test w3 = false ->
   fst (Classification.test_classification_timeout w) = (Ok false, w3)
   /\ Classification.unlinked
        (snd (Classification.test_classification_timeout w))
      = [Classification.temp_test])
  /\ (forall (o : option exn) (w4 : W),
         Classification.file_exists Classification.temp_test w3 = true ->
         Classification.file_unlink Classification.temp_test w3 = (o, w4) ->
         fst (Classification.test_classification_timeout w)
         = (match o with None => Ok false | Some e' => Raise e' end, w4)
         /\ Classification.unlinked
              (snd (Classification.test_classification_timeout w))
            = [Classification.temp_test; Classification.temp_test])
  /\ In (Classification.Out ("Error: " ++ exn_str e))
        (snd (Classification.test_classification_timeout w)).
Proof.
  intros Hw Hr Hu.
  pose proof (test_write_done _ _ _ _ Hw) as H1.
  destruct (run_flutter_test_result _ _ _ _ Hr) as [l [H2 [_ [_ Hl]]]].
  pose proof (test_unlink_failed _ _ _ _ Hu) as H3.
  unfold Classification.test_classification_timeout. run_test.
  with_test H1. unfold Classification.try_except.
  rewrite (test_bind_ok _ H2), (test_bind_raise _ H3). run_test.
  split; [|split].
  - intros Hex. rewrite Hex. run_test. split; [reflexivity|].
    cbn [Classification.unlinked]. rewrite !unlinked_app, Hl. reflexivity.
  - intros o w4 Hex Hu2. rewrite Hex. run_test.
    destruct o as [e'|].
    + pose proof (test_unlink_failed _ _ _ _ Hu2) as H4. with_test H4.
      split; [reflexivity|].
      cbn [Classification.unlinked]. rewrite !unlinked_app, Hl. reflexivity.
    + pose proof (test_unlink_done _ _ _ Hu2) as H4. with_test H4.
      split; [reflexivity|].
      cbn [Classification.unlinked]. rewrite !unlinked_app, Hl. reflexivity.
  - destruct (Classification.file_exists Classification.temp_test w3);
      run_test.
    + destruct (Classification.unlink Classification.temp_test w3)
        as [[[[]|e'] w4] l4] eqn:H4; with_test H4; cbn [snd];
        do 2 apply in_cons; apply in_or_app; right; apply in_eq.
    + cbn [snd]. do 2 apply in_cons. apply in_or_app. right. apply in_eq.
Qed.

End TempFile.

(** [test_classification_timeout], once the temporary test file has been
    written: the test is run and the file is removed.  When the removal
    succeeds the result is whether the test passed.  When the removal
    raises, the handler prints the error and the result is no longer the
    test's: if the file is gone the function returns [False]; if it is
    still there the removal is tried once more, and the function returns
    [False] when that succeeds and raises when it fails again.  A passed
    test is then reported as failed, or ends the script. *)
Theorem temp_test_file_cleanup :
  forall (W : Type) (HW : Classification.TestHost W) (w w1 w2 : W)
         (r : Classification.run_end),
    Classification.file_write_text Classification.temp_test
      Classification.test_code w = (None, w1) ->
    Classification.flutter_test "test/temp_timeout_test.dart" w1 = (r, w2) ->
    (forall w3 : W,
        Classification.file_unlink Classification.temp_test w2 = (None, w3) ->
        fst (Classification.test_classification_timeout w)
        = (Ok (Classification.passed r), w3)
        /\ Classification.unlinked
             (snd (Classification.test_classification_timeout w))
           = [Classification.temp_test])
    /\ (forall (e : exn) (w3 : W),
           Classification.file_unlink Classification.temp_test w2
           = (Some e, w3) ->
           (Classification.file_exists Classification.temp_test w3 = false ->
            fst (Classification.test_classification_timeout w)
            = (Ok false, w3)
            /\ Classification.unlinked
                 (snd (Classification.test_classification_timeout w))
               = [Classification.temp_test])
           /\ (forall (o : option exn) (w4 : W),
                  Classification.file_exists Classification.temp_test w3
                  = true ->
                  Classification.file_unlink Classification.temp_test w3
                  = (o, w4) ->
                  fst (Classification.test_classification_timeout w)
                  = (match o with
                     | None => Ok false
                     | Some e' => Raise e'
                     end, w4)
                  /\ Classification.unlinked
                       (snd (Classification.test_classification_timeout w))
                     = [Classification.temp_test; Classification.temp_test])
           /\ In (Classification.Out ("Error: " ++ exn_str e))
                 (snd (Classification.test_classification_timeout w))).
Proof.
  intros W HW w w1 w2 r Hw Hr. split.
  - intros w3 Hu. exact (timeout_test_removed w w1 w2 w3 r Hw Hr Hu).
  - intros e w3 Hu. exact (timeout_test_not_removed w w1 w2 w3 r e Hw Hr Hu).
Qed.

Lemma temp_test_file_cleanup_witness :
  Classification.passed
    (Classification.ends world_cannot_unlink "test/temp_timeout_test.dart")
  = true
  /\ fst (fst (Classification.test_classification_timeout
                 world_cannot_unlink))
     = Raise (OSError "Permission denied").
Proof.
  split; [reflexivity|].
  destruct (temp_test_file_cleanup Classification.world Classification.sim
              world_cannot_unlink
              (Classification.put Classification.temp_test
                 Classification.test_code world_cannot_unlink)
              (Classification.put Classification.temp_test
                 Classification.test_code world_cannot_unlink)
              (Classification.Finished (mkCompleted 0 "All tests passed!" ""))
              eq_refl eq_refl) as [_ H].
  destruct (H (OSError "Permission denied")
              (Classification.put Classification.temp_test
                 Classification.test_code world_cannot_unlink)
              eq_refl) as [_ [H2 _]].
  destruct (H2 (Some (OSError "Permission denied"))
               (Classification.put Classification.temp_test
                  Classification.test_code world_cannot_unlink)
               eq_refl eq_refl) as [E _].
  now rewrite E.
Defined.

(** ** The configuration checks *)

Section ConfigChecks.
Context {W : Type} {HW : Classification.TestHost W}.

Lemma test_read_done (p : string) (w : W) (s : string) :
  Classification.file_read_text p w = inr s ->
  Classification.read_text p w = (Ok s, w, []).
Proof. intros H. unfold Classification.read_text. now rewrite H. Qed.

Lemma check_llm_service_verdict (w : W) (content : string) :
  Classification.file_exists Classification.llm_file w = true ->
  Classification.file_read_text Classification.llm_file w = inr content ->
  fst (Classification.check_llm_service w)
  = (Ok (PyStr.str_in "class FastLlmService" content), w)
  /\ Classification.tests_run (snd (Classification.check_llm_service w)) = []
  /\ Classification.written (snd (Classification.check_llm_service w)) = []
  /\ Classification.unlinked (snd (Classification.check_llm_service w)) = [].
Proof.
  intros Hex Hrd. pose proof (test_read_done _ _ _ Hrd) as H.
  unfold Classification.check_llm_service. run_test. rewrite Hex. run_test.
  with_test H.
  destruct (PyStr.str_in "class FastLlmService" content); run_test;
    [|repeat split].
  destruct (PyStr.str_in "gpt-3.5-turbo" content); run_test;
    destruct (PyStr.str_in "timeout: 3" content
              || PyStr.str_in "timeout: Duration(seconds: 3)" content);
    run_test; repeat split.
Qed.

Lemma check_classifier_service_verdict (w : W) (content : string) :
  Classification.file_exists Classification.classifier_file w = true ->
  Classification.file_read_text Classification.classifier_file w
  = inr content ->
  fst (Classification.check_classifier_service w)
  = (Ok (PyStr.str_in "classifyHybrid" content), w)
  /\ Classification.tests_run
       (snd (Classification.check_classifier_service w)) = []
  /\ Classification.written
       (snd (Classification.check_classifier_service w)) = []
  /\ Classification.unlinked
       (snd (Classification.check_classifier_service w)) = [].
Proof.
  intros Hex Hrd. pose proof (test_read_done _ _ _ Hrd) as H.
  unfold Classification.check_classifier_service. run_test. rewrite Hex.
  run_test. with_test H.
  destruct (PyStr.str_in "classifyHybrid" content); run_test;
    [|repeat split].
  destruct (PyStr.str_in "_cache" content
            || PyStr.str_in "cache" (PyStr.lower content)); run_test;
    destruct (PyStr.str_in "timeout" (PyStr.lower content));
    run_test; repeat split.
Qed.

End ConfigChecks.

(** The two configuration checks decide on one marker each.  When the
    service file can be read, [check_llm_service] returns whether its
    text holds [class FastLlmService], and [check_classifier_service]
    whether it holds [classifyHybrid]; the model name, the timeout and
    the cache they also look for change the messages only.  Neither check
    runs a test or touches a file. *)
Theorem config_checks_decide_on_one_marker :
  forall (W : Type) (HW : Classification.TestHost W) (w : W)
         (content : string),
    (Classification.file_exists Classification.llm_file w = true ->
     Classification.file_read_text Classification.llm_file w = inr content ->
     fst (Classification.check_llm_service w)
     = (Ok (PyStr.str_in "class FastLlmService" content), w)
     /\ Classification.tests_run (snd (Classification.check_llm_service w))
        = []
     /\ Classification.written (snd (Classification.check_llm_service w))
        = []
     /\ Classification.unlinked (snd (Classification.check_llm_service w))
        = [])
    /\ (Classification.file_exists Classification.classifier_file w = true ->
        Classification.file_read_text Classification.classifier_file w
        = inr content ->
        fst (Classification.check_classifier_service w)
        = (Ok (PyStr.str_in "classifyHybrid" content), w)
        /\ Classification.tests_run
             (snd (Classification.check_classifier_service w)) = []
        /\ Classification.written
             (snd (Classification.check_classifier_service w)) = []
        /\ Classification.unlinked
             (snd (Classification.check_classifier_service w)) = []).
Proof.
  intros W HW w content. split.
  - exact (check_llm_service_verdict w content).
  - exact (check_classifier_service_verdict w content).
Qed.

Lemma config_checks_decide_on_one_marker_witness :
  fst (fst (Classification.check_llm_service world_services_only)) = Ok true
  /\ fst (fst (Classification.check_classifier_service world_services_only))
     = Ok true.
Proof.
  split.
  - destruct (config_checks_decide_on_one_marker Classification.world
                Classification.sim world_services_only
                "class FastLlmService {}") as [H _].
    destruct (H eq_refl eq_refl) as [E _]. now rewrite E.
  - destruct (config_checks_decide_on_one_marker Classification.world
                Classification.sim world_services_only
                "Future classifyHybrid() async {}") as [_ H].
    destruct (H eq_refl eq_refl) as [E _]. now rewrite E.
Defined.

(** ** The exit status of the test suite *)

Section Suite.
Context {W : Type} {HW : Classification.TestHost W}.

Lemma main_verdict (w w1 w2 w3 w4 : W) (llm cls dart tmo : bool)
    (l1 l2 l3 l4 : list Classification.action) :
  Classification.check_llm_service w = (Ok llm, w1, l1) ->
  Classification.check_classifier_service w1 = (Ok cls, w2, l2) ->
  Classification.test_classification_dart w2 = (Ok dart, w3, l3) ->
  Classification.test_classification_timeout w3 = (Ok tmo, w4, l4) ->
  fst (Classification.main w)
  = (Ok (if llm && cls && dart && tmo then 0%Z else 1%Z), w4)
  /\ exists summary,
       snd (Classification.main w)
       = (Classification.Heading "CLASSIFICATION TEST SUITE"
          :: Classification.Out
               "Testing classification performance and timeouts"
          :: l1 ++ l2 ++ l3 ++ l4 ++ summary)%list
       /\ Classification.tests_run summary = []
       /\ Classification.written summary = []
       /\ Classification.unlinked summary = [].
Proof.
  intros H1 H2 H3 H4.
  unfold Classification.main. run_test.
  with_test H1. with_test H2. with_test H3. with_test H4.
  destruct llm, cls, dart, tmo; cbn;
    (split; [reflexivity|]); eexists; (split; [reflexivity|]);
    repeat split.
Qed.

End Suite.

(** [main] of [test_classification.py] does not stop at a failed check:
    when no check raises, all four are run in order, each from the state
    the one before left, whatever the earlier ones returned, and the
    status given to [sys.exit] is 0 exactly when all four returned
    [True], and 1 otherwise.  The summary that follows the checks runs no
    test and touches no file. *)
Theorem test_suite_exit_status :
  forall (W : Type) (HW : Classification.TestHost W) (w w1 w2 w3 w4 : W)
         (llm cls dart tmo : bool)
         (l1 l2 l3 l4 : list Classification.action),
    Classification.check_llm_service w = (Ok llm, w1, l1) ->
    Classification.check_classifier_service w1 = (Ok cls, w2, l2) ->
    Classification.test_classification_dart w2 = (Ok dart, w3, l3) ->
    Classification.test_classification_timeout w3 = (Ok tmo, w4, l4) ->
    fst (Classification.main w)
    = (Ok (if llm && cls && dart && tmo then 0%Z else 1%Z), w4)
    /\ exists summary,
         snd (Classification.main w)
         = (Classification.Heading "CLASSIFICATION TEST SUITE"
            :: Classification.Out
                 "Testing classification performance and timeouts"
            :: l1 ++ l2 ++ l3 ++ l4 ++ summary)%list
         /\ Classification.tests_run summary = []
         /\ Classification.written summary = []
         /\ Classification.unlinked summary = [].
Proof.
  intros W HW w w1 w2 w3 w4 llm cls dart tmo l1 l2 l3 l4.
  apply main_verdict.
Qed.

Lemma test_suite_exit_status_witness :
  fst (fst (Classification.main world_services_only)) = Ok 1%Z
  /\ fst (fst (Classification.main world_all_green)) = Ok 0%Z.
Proof.
  split.
  - assert (H1 : Classification.check_llm_service world_services_only
                 = (Ok true, world_services_only,
                    snd (Classification.check_llm_service world_services_only)))
      by (vm_compute; reflexivity).
    assert (H2 : Classification.check_classifier_service world_services_only
                 = (Ok true, world_services_only,
                    snd (Classification.check_classifier_service world_services_only)))
      by (vm_compute; reflexivity).
    assert (H3 : Classification.test_classification_dart world_services_only
                 = (Ok false, world_services_only,
                    snd (Classification.test_classification_dart world_services_only)))
      by (vm_compute; reflexivity).
    assert (H4 : Classification.test_classification_timeout world_services_only
                 = (Ok false, world_services_only,
                    snd (Classification.test_classification_timeout world_services_only)))
      by (vm_compute; reflexivity).
    destruct (test_suite_exit_status Classification.world
                Classification.sim world_services_only world_services_only
                world_services_only world_services_only
                world_services_only
                true true false false _ _ _ _ H1 H2 H3 H4) as [E _].
    now rewrite E.
  - assert (H1 : Classification.check_llm_service world_all_green
                 = (Ok true, world_all_green,
                    snd (Classification.check_llm_service world_all_green)))
      by (vm_compute; reflexivity).
    assert (H2 : Classification.check_classifier_service world_all_green
                 = (Ok true, world_all_green,
                    snd (Classification.check_classifier_service world_all_green)))
      by (vm_compute; reflexivity).
    assert (H3 : Classification.test_classification_dart world_all_green
                 = (Ok true, world_all_green,
                    snd (Classification.test_classification_dart world_all_green)))
      by (vm_compute; reflexivity).
    assert (H4 : Classification.test_classification_timeout world_all_green
                 = (Ok true, world_all_green,
                    snd (Classification.test_classification_timeout world_all_green)))
      by (vm_compute; reflexivity).
    destruct (test_suite_exit_status Classification.world
                Classification.sim world_all_green world_all_green
                world_all_green world_all_green
                world_all_green
                true true true true _ _ _ _ H1 H2 H3 H4) as [E _].
    now rewrite E.
Defined.

(** ** The performance test *)

Section PerformanceTest.
Context {W : Type} {HW : Classification.TestHost W}.

Lemma dart_test_missing (w : W) :
  Classification.file_exists Classification.test_file w = false ->
  fst (Classification.test_classification_dart w) = (Ok false, w)
  /\ Classification.tests_run
       (snd (Classification.test_classification_dart w)) = [].
Proof.
  intros Hex. unfold Classification.test_classification_dart. run_test.
  rewrite Hex. run_test. split; reflexivity.
Qed.

Lemma dart_test_run (w w1 : W) (r : Classification.run_end) :
  Classification.file_exists Classification.test_file w = true ->
  Classification.flutter_test "test/classification_performance_test.dart" w
  = (r, w1) ->
  fst (Classification.test_classification_dart w)
  = (Ok (Classification.passed r), w1)
  /\ Classification.tests_run
       (snd (Classification.test_classification_dart w))
     = ["test/classification_performance_test.dart"].
Proof.
  intros Hex Hr.
  destruct (run_flutter_test_result _ _ _ _ Hr) as [l [H [Ht _]]].
  unfold Classification.test_classification_dart. run_test.
  rewrite Hex. run_test. with_test H.
  destruct (Classification.passed r); run_test;
    (split; [reflexivity|]); cbn [Classification.tests_run];
    rewrite !tests_run_app, Ht; reflexivity.
Qed.

End PerformanceTest.

(** [test_classification_dart] runs the performance test only when its
    file exists.  Without the file it returns [False] and no test is
    run; with the file it runs that one test once and returns whether it
    finished in time with status 0, so that a run that times out or
    cannot be started counts as a failed test and raises nothing. *)
Theorem performance_test_gate :
  forall (W : Type) (HW : Classification.TestHost W) (w : W),
    (Classification.file_exists Classification.test_file w = false ->
     fst (Classification.test_classification_dart w) = (Ok false, w)
     /\ Classification.tests_run
          (snd (Classification.test_classification_dart w)) = [])
    /\ (forall (w1 : W) (r : Classification.run_end),
           Classification.file_exists Classification.test_file w = true ->
           Classification.flutter_test
             "test/classification_performance_test.dart" w = (r, w1) ->
           fst (Classification.test_classification_dart w)
           = (Ok (Classification.passed r), w1)
           /\ Classification.tests_run
                (snd (Classification.test_classification_dart w))
              = ["test/classification_performance_test.dart"]).
Proof.
  intros W HW w. split.
  - exact (dart_test_missing w).
  - intros w1 r. exact (dart_test_run w w1 r).
Qed.

Lemma performance_test_gate_witness :
  Classification.tests_run
    (snd (Classification.test_classification_dart world_services_only)) = []
  /\ fst (fst (Classification.test_classification_dart world_all_green))
     = Ok true.
Proof.
  split.
  - destruct (performance_test_gate Classification.world Classification.sim
                world_services_only) as [H _].
    destruct (H eq_refl) as [_ E]. exact E.
  - destruct (performance_test_gate Classification.world Classification.sim
                world_all_green) as [_ H].
    destruct (H world_all_green
                (Classification.Finished
                   (mkCompleted 0 "All tests passed!" ""))
                eq_refl eq_refl) as [E _].
    now rewrite E.
Defined.
